From Stdlib Require Import ZArith Lia List Bool.
From Stdlib.Strings Require Import Byte.
From stdpp Require Import base gmap list strings.
Import ListNotations.
Local Open Scope Z_scope.


(** * libs/libc/string/lib_memmem.c *)

Module Memmem.

(** An [unsigned char] read through a pointer, promoted to [int]. *)
Definition u8 (b : byte) : Z := Z.of_N (Byte.to_N b).

(** Memory areas are byte lists; a pointer into an area is an offset.
    [deref p i] is [*(p + i)]. *)
Definition deref (p : list byte) (i : nat) : Z := u8 (nth i p x00).

(** [int] is 32 bits wide, two's complement. *)
Definition int_wrap (z : Z) : Z := (z + 2 ^ 31) mod 2 ^ 32 - 2 ^ 31.

(** Conversion of a [size_t] value to [unsigned int] (32 bits). *)
Definition to_uint (n : nat) : nat := Z.to_nat (Z.of_nat n mod 2 ^ 32).

(** [memchr(s + p, c, n)]: offset of the first of the [n] bytes at [s + p]
    that equals [c], [None] for [NULL].  Standard C library semantics. *)
Fixpoint memchr (s : list byte) (p : nat) (c : Z) (n : nat) : option nat :=
  match n with
  | O => None
  | S n' => if deref s p =? c then Some p else memchr s (S p) c n'
  end.

(** [memcmp(s1 + p1, s2 + p2, n)]: zero when the [n] bytes agree, otherwise
    the difference of the first pair that differs.  Standard C library
    semantics. *)
Fixpoint memcmp (s1 : list byte) (p1 : nat) (s2 : list byte) (p2 : nat)
    (n : nat) : Z :=
  match n with
  | O => 0
  | S n' =>
      if deref s1 p1 =? deref s2 p2
      then memcmp s1 (S p1) s2 (S p2) n'
      else deref s1 p1 - deref s2 p2
  end.

Section Search.

(** [sizeof(long)]: 4 on ILP32 targets, 8 on LP64 targets. *)
Variable LONG_INT_N_BYTES : nat.

Variables haystack0 needle : list byte.

Definition ulong_modulus : Z := 2 ^ (8 * Z.of_nat LONG_INT_N_BYTES).

(** [w <<= 8; w ^= c] on an [unsigned long]. *)
Definition shl8_xor (w c : Z) : Z := Z.lxor (Z.shiftl w 8 mod ulong_modulus) c.

(** [for (i = ...; i > 0; --i)
      { sums_diff -= *needle_ptr++; sums_diff += *haystack_ptr++; }] *)
Fixpoint sum_loop (i : nat) (sums_diff : Z) (needle_ptr haystack_ptr : nat)
    : Z * nat * nat :=
  match i with
  | O => (sums_diff, needle_ptr, haystack_ptr)
  | S i' =>
      let sums_diff := int_wrap (sums_diff - deref needle needle_ptr) in
      let sums_diff := int_wrap (sums_diff + deref haystack0 haystack_ptr) in
      sum_loop i' sums_diff (S needle_ptr) (S haystack_ptr)
  end.

(** The second loop of the long-needle branch: the last
    [LONG_INT_N_BYTES] bytes enter both the packed words and the sums. *)
Fixpoint pack_sum_loop (i : nat) (last_needle_chars last_haystack_chars : Z)
    (sums_diff : Z) (needle_ptr haystack_ptr : nat) : Z * Z * Z * nat * nat :=
  match i with
  | O => (last_needle_chars, last_haystack_chars, sums_diff,
          needle_ptr, haystack_ptr)
  | S i' =>
      let last_needle_chars :=
        shl8_xor last_needle_chars (deref needle needle_ptr) in
      let last_haystack_chars :=
        shl8_xor last_haystack_chars (deref haystack0 haystack_ptr) in
      let sums_diff := int_wrap (sums_diff - deref needle needle_ptr) in
      let sums_diff := int_wrap (sums_diff + deref haystack0 haystack_ptr) in
      pack_sum_loop i' last_needle_chars last_haystack_chars sums_diff
        (S needle_ptr) (S haystack_ptr)
  end.

(** [for (i = ...; i > 0; --i)
      { last_needle_chars <<= 8; last_needle_chars ^= *needle_ptr++;
        last_haystack_chars <<= 8; last_haystack_chars ^= *haystack_ptr++; }] *)
Fixpoint pack_loop (i : nat) (last_needle_chars last_haystack_chars : Z)
    (needle_ptr haystack_ptr : nat) : Z * Z * nat * nat :=
  match i with
  | O => (last_needle_chars, last_haystack_chars, needle_ptr, haystack_ptr)
  | S i' =>
      let last_needle_chars :=
        shl8_xor last_needle_chars (deref needle needle_ptr) in
      let last_haystack_chars :=
        shl8_xor last_haystack_chars (deref haystack0 haystack_ptr) in
      pack_loop i' last_needle_chars last_haystack_chars
        (S needle_ptr) (S haystack_ptr)
  end.

(** Sliding loop of the branch [needlelen > LONG_INT_N_BYTES + 1]. *)
Fixpoint slide_long (i : nat) (compare_len : nat) (last_needle_chars : Z)
    (last_haystack_chars sums_diff : Z) (haystack haystack_ptr : nat)
    : option nat :=
  match i with
  | O => None
  | S i' =>
      let last_haystack_chars :=
        shl8_xor last_haystack_chars (deref haystack0 haystack_ptr) in
      let sums_diff := int_wrap (sums_diff - deref haystack0 haystack) in
      let haystack := S haystack in
      let sums_diff := int_wrap (sums_diff + deref haystack0 haystack_ptr) in
      let haystack_ptr := S haystack_ptr in
      if (sums_diff =? 0)
         && (last_haystack_chars =? last_needle_chars)
         && (memcmp haystack0 haystack needle 0 compare_len =? 0)
      then Some haystack
      else slide_long i' compare_len last_needle_chars
             last_haystack_chars sums_diff haystack haystack_ptr
  end.

(** Sliding loop of the branch [needlelen < LONG_INT_N_BYTES]. *)
Fixpoint slide_short (i : nat) (compare_len : nat) (sums_diff : Z)
    (haystack haystack_ptr : nat) : option nat :=
  match i with
  | O => None
  | S i' =>
      let sums_diff := int_wrap (sums_diff - deref haystack0 haystack) in
      let haystack := S haystack in
      let sums_diff := int_wrap (sums_diff + deref haystack0 haystack_ptr) in
      let haystack_ptr := S haystack_ptr in
      if (sums_diff =? 0)
         && (memcmp haystack0 haystack needle 0 compare_len =? 0)
      then Some haystack
      else slide_short i' compare_len sums_diff haystack haystack_ptr
  end.

(** Sliding loop of the branch [needlelen == LONG_INT_N_BYTES]. *)
Fixpoint slide_word (i : nat) (needlelen : nat) (last_needle_chars : Z)
    (last_haystack_chars : Z) (haystack_ptr : nat) : option nat :=
  match i with
  | O => None
  | S i' =>
      let last_haystack_chars :=
        shl8_xor last_haystack_chars (deref haystack0 haystack_ptr) in
      let haystack_ptr := S haystack_ptr in
      if last_haystack_chars =? last_needle_chars
      then Some (haystack_ptr - needlelen)%nat
      else slide_word i' needlelen last_needle_chars last_haystack_chars
             haystack_ptr
  end.

(** Sliding loop of the branch [needlelen == LONG_INT_N_BYTES + 1]. *)
Fixpoint slide_word1 (i : nat) (needlelen : nat) (last_needle_chars : Z)
    (last_needle_char : Z) (last_haystack_chars : Z) (haystack_ptr : nat)
    : option nat :=
  match i with
  | O => None
  | S i' =>
      let last_haystack_chars :=
        shl8_xor last_haystack_chars (deref haystack0 haystack_ptr) in
      let haystack_ptr := S haystack_ptr in
      if (last_haystack_chars =? last_needle_chars)
         && (deref haystack0 haystack_ptr =? last_needle_char)
      then Some (haystack_ptr - (needlelen - 1))%nat
      else slide_word1 i' needlelen last_needle_chars last_needle_char
             last_haystack_chars haystack_ptr
  end.

(** [memmem(haystack, haystacklen, needle, needlelen)] with
    [haystacklen = length haystack0] and [needlelen = length needle].  The
    result is the offset of the returned pointer from [haystack], [None]
    for [NULL]. *)
Definition memmem : option nat :=
  let haystacklen := length haystack0 in
  let needlelen := length needle in
  match needlelen with
  | O => Some O
  | S O => memchr haystack0 0 (deref needle 0) haystacklen
  | _ =>
    match memchr haystack0 0 (deref needle 0) haystacklen with
    | None => None
    | Some haystack_ptr =>
      let haystacklen := (haystacklen - haystack_ptr)%nat in
      if (haystacklen <? needlelen)%nat then None else
      let haystack := haystack_ptr in
      if (LONG_INT_N_BYTES + 1 <? needlelen)%nat then
        let needle_ptr := O in
        let sums_diff := 0 in
        let '(sums_diff, needle_ptr, haystack_ptr) :=
          sum_loop (to_uint (needlelen - LONG_INT_N_BYTES))
            sums_diff needle_ptr haystack_ptr in
        let '(last_needle_chars, last_haystack_chars, sums_diff,
              needle_ptr, haystack_ptr) :=
          pack_sum_loop (to_uint LONG_INT_N_BYTES) 0 0 sums_diff
            needle_ptr haystack_ptr in
        let compare_len := (needlelen - (LONG_INT_N_BYTES + 1))%nat in
        if (sums_diff =? 0)
           && (last_haystack_chars =? last_needle_chars)
           && (memcmp haystack0 haystack needle 0 compare_len =? 0)
        then Some haystack
        else slide_long (to_uint (haystacklen - needlelen)) compare_len
               last_needle_chars last_haystack_chars sums_diff
               haystack haystack_ptr
      else if (needlelen <? LONG_INT_N_BYTES)%nat then
        let needle_ptr := O in
        let sums_diff := 0 in
        let '(sums_diff, needle_ptr, haystack_ptr) :=
          sum_loop (to_uint needlelen) sums_diff needle_ptr haystack_ptr in
        let compare_len := (needlelen - 1)%nat in
        if (sums_diff =? 0)
           && (memcmp haystack0 haystack needle 0 compare_len =? 0)
        then Some haystack
        else slide_short (to_uint (haystacklen - needlelen)) compare_len
               sums_diff haystack haystack_ptr
      else if (needlelen =? LONG_INT_N_BYTES)%nat then
        let needle_ptr := O in
        let '(last_needle_chars, last_haystack_chars,
              needle_ptr, haystack_ptr) :=
          pack_loop (to_uint needlelen) 0 0 needle_ptr haystack_ptr in
        if last_haystack_chars =? last_needle_chars
        then Some haystack
        else slide_word (to_uint (haystacklen - needlelen)) needlelen
               last_needle_chars last_haystack_chars haystack_ptr
      else
        let needle_ptr := O in
        let '(last_needle_chars, last_haystack_chars,
              needle_ptr, haystack_ptr) :=
          pack_loop (to_uint LONG_INT_N_BYTES) 0 0 needle_ptr haystack_ptr in
        let last_needle_char := deref needle LONG_INT_N_BYTES in
        if (last_haystack_chars =? last_needle_chars)
           && (deref haystack0 haystack_ptr =? last_needle_char)
        then Some haystack
        else slide_word1 (to_uint (haystacklen - needlelen)) needlelen
               last_needle_chars last_needle_char last_haystack_chars
               haystack_ptr
    end
  end.

(** The reference search: try every offset [i] with
    [i + needlelen <= haystacklen] in increasing order and compare all
    [needlelen] bytes. *)
Fixpoint naive_scan (i : nat) (count : nat) : option nat :=
  match count with
  | O => None
  | S count' =>
      if memcmp haystack0 i needle 0 (length needle) =? 0
      then Some i
      else naive_scan (S i) count'
  end.

Definition memmem_naive : option nat :=
  if (length needle <=? length haystack0)%nat
  then naive_scan 0 (length haystack0 - length needle + 1)
  else None.

End Search.

Definition bytes_of_string (s : string) : list byte :=
  List.map Ascii.byte_of_ascii (String.list_ascii_of_string s).

(** ** Definitions used to state and prove the properties *)

(** Sum of the [len] bytes at [p + s]. *)
Fixpoint rsum (p : list byte) (s len : nat) : Z :=
  match len with
  | O => 0
  | S len' => rsum p s len' + deref p (s + len')
  end.

(** Big-endian value of the [len] bytes at [p + s]. *)
Fixpoint be (p : list byte) (s len : nat) : Z :=
  match len with
  | O => 0
  | S len' => be p s len' * 256 + deref p (s + len')
  end.

(** Feeding the [i] bytes at [p + s] into a packed [unsigned long] of
    [L] bytes. *)
Fixpoint feed (L : nat) (p : list byte) (i : nat) (w : Z) (s : nat) : Z :=
  match i with
  | O => w
  | S i' => feed L p i' (shl8_xor L w (deref p s)) (S s)
  end.

(** The full comparison the reference search makes at offset [j]. *)
Definition occurs (haystack needle : list byte) (j : nat) : bool :=
  memcmp haystack j needle 0 (length needle) =? 0.

(** The needle occurs in the haystack at offset [i]. *)
Definition occurs_at (haystack needle : list byte) (i : nat) : Prop :=
  (i + length needle <= length haystack)%nat /\
  firstn (length needle) (skipn i haystack) = needle.

End Memmem.

(** * drivers/usbdev/cdcecm.c *)

Module Cdcecm.

(** ** Constants of headers that the driver includes *)

(** Modelled from the spec: the values of [errno.h], [nuttx/usb/usb.h],
    [nuttx/usb/usbdev.h], [nuttx/usb/cdc.h], [nuttx/net/ethernet.h],
    [net/if.h], [semaphore.h] and [cdcecm.h], none of which is part of the
    sources at hand.  The descriptor sizes, type codes and request codes
    are those of the standard USB and CDC-ECM 1.2 wire formats. *)
Definition OK : Z := 0.
Definition EINVAL : Z := 22.
Definition EOPNOTSUPP : Z := 95.
Definition ESHUTDOWN : Z := 108.
Definition EOVERFLOW : Z := 75.
Definition ENOTSUP : Z := 134.

Definition USB_SPEED_UNKNOWN : Z := 0.
Definition USB_SPEED_LOW : Z := 1.
Definition USB_SPEED_FULL : Z := 2.
Definition USB_SPEED_HIGH : Z := 3.
Definition USB_SPEED_VARIABLE : Z := 4.
Definition USB_SPEED_SUPER : Z := 5.
Definition USB_SPEED_SUPER_PLUS : Z := 6.

Definition USB_DESC_TYPE_DEVICE : Z := 0x01.
Definition USB_DESC_TYPE_CONFIG : Z := 0x02.
Definition USB_DESC_TYPE_STRING : Z := 0x03.
Definition USB_DESC_TYPE_INTERFACE : Z := 0x04.
Definition USB_DESC_TYPE_ENDPOINT : Z := 0x05.
Definition USB_DESC_TYPE_OTHERSPEEDCONFIG : Z := 0x07.
Definition USB_DESC_TYPE_INTERFACEASSOCIATION : Z := 0x0b.
Definition USB_DESC_TYPE_CSINTERFACE : Z := 0x24.
Definition USB_DESC_TYPE_ENDPOINT_COMPANION : Z := 0x30.

Definition USB_SIZEOF_DEVDESC : nat := 18.
Definition USB_SIZEOF_CFGDESC : nat := 9.
Definition USB_SIZEOF_IFDESC : nat := 9.
Definition USB_SIZEOF_EPDESC : nat := 7.
Definition USB_SIZEOF_IADDESC : nat := 8.
Definition USB_SIZEOF_SS_EPCOMPDESC : nat := 6.
Definition SIZEOF_HDR_FUNCDESC : nat := 5.
Definition SIZEOF_UNION_FUNCDESC (n : nat) : nat := 4 + n.
Definition SIZEOF_ECM_FUNCDESC : nat := 13.

(** [sizeof(struct usb_epdesc_s)] and [sizeof(struct usb_ss_epcompdesc_s)]:
    structures of [uint8_t] members only, seven and six of them. *)
Definition sizeof_usb_epdesc_s : nat := 7.
Definition sizeof_usb_ss_epcompdesc_s : nat := 6.

Definition USB_CLASS_CDC : Z := 0x02.
Definition USB_CLASS_CDC_DATA : Z := 0x0a.
Definition CDC_SUBCLASS_ECM : Z := 0x06.
Definition CDC_PROTO_NONE : Z := 0x00.
Definition CDC_DSUBTYPE_HDR : Z := 0x00.
Definition CDC_DSUBTYPE_UNION : Z := 0x06.
Definition CDC_DSUBTYPE_ECM : Z := 0x0f.

Definition USB_DIR_OUT : Z := 0x00.
Definition USB_DIR_IN : Z := 0x80.
Definition USB_EP_ATTR_XFER_BULK : Z := 0x02.
Definition USB_EP_ATTR_XFER_INT : Z := 0x03.
Definition USB_CONFIG_ATTR_ONE : Z := 0x80.

Definition USB_REQ_TYPE_MASK : Z := 0x60.
Definition USB_REQ_TYPE_STANDARD : Z := 0x00.
Definition USB_REQ_TYPE_CLASS : Z := 0x20.
Definition USB_REQ_GETDESCRIPTOR : Z := 0x06.
Definition USB_REQ_SETCONFIGURATION : Z := 0x09.
Definition USB_REQ_SETINTERFACE : Z := 0x0b.
Definition ECM_SET_PACKET_FILTER : Z := 0x43.
Definition USBDEV_REQFLAGS_NULLPKT : Z := 1.

Definition ETHTYPE_IP : Z := 0x0800.
Definition ETHTYPE_ARP : Z := 0x0806.
Definition ETHTYPE_IP6 : Z := 0x86dd.
Definition IFF_UP : Z := 1.
Definition SEM_VALUE_MAX : N := 32767.

Definition CDCECM_VERSIONNO : Z := 0x0100.
Definition CDCECM_NCONFIGS : Z := 1.
Definition CDCECM_NINTERFACES : Z := 2.
Definition CDCECM_MANUFACTURERSTRID : Z := 1.
Definition CDCECM_PRODUCTSTRID : Z := 2.
Definition CDCECM_SERIALSTRID : Z := 3.
Definition CDCECM_CONFIGSTRID : Z := 4.
Definition CDCECM_MACSTRID : Z := 5.
Definition CDCECM_STR_LANGUAGE : Z := 0x0409.
Definition CDCECM_CONFIGID_NONE : Z := 0.
Definition CDCECM_CONFIGID : Z := 1.
Definition CDCECM_SELFPOWERED : Z := 0.
Definition CDCECM_REMOTEWAKEUP : Z := 0.
Definition CDCECM_EP_INTIN_IDX : Z := 0.
Definition CDCECM_EP_BULKIN_IDX : Z := 1.
Definition CDCECM_EP_BULKOUT_IDX : Z := 2.

(** The build configuration: the Kconfig options the file tests with
    [#ifdef] or reads, and the three header constants whose values the
    sources at hand do not fix. *)
Record kconfig := {
  CONFIG_CDCECM_COMPOSITE : bool;
  CONFIG_COMPOSITE_IAD : bool;
  CONFIG_USBDEV_SUPERSPEED : bool;
  CONFIG_USBDEV_DUALSPEED : bool;
  CONFIG_BOARD_USBDEV_SERIALSTR : bool;
  CONFIG_DEBUG_ASSERTIONS : bool;
  CONFIG_NET_PKT : bool;
  CONFIG_NET_IPv4 : bool;
  CONFIG_NET_IPv6 : bool;
  CONFIG_NET_ARP : bool;
  CONFIG_CDCECM_EP0MAXPACKET : Z;
  CONFIG_CDCECM_VENDORID : Z;
  CONFIG_CDCECM_PRODUCTID : Z;
  CONFIG_CDCECM_EPINTIN_FSSIZE : Z;
  CONFIG_CDCECM_EPINTIN_HSSIZE : Z;
  CONFIG_CDCECM_EPINTIN_SSSIZE : Z;
  CONFIG_CDCECM_EPBULKIN_FSSIZE : Z;
  CONFIG_CDCECM_EPBULKIN_HSSIZE : Z;
  CONFIG_CDCECM_EPBULKIN_SSSIZE : Z;
  CONFIG_CDCECM_EPBULKOUT_FSSIZE : Z;
  CONFIG_CDCECM_EPBULKOUT_HSSIZE : Z;
  CONFIG_CDCECM_EPBULKOUT_SSSIZE : Z;
  CONFIG_CDCECM_EPINTIN_MAXBURST : Z;
  CONFIG_CDCECM_EPBULKIN_MAXBURST : Z;
  CONFIG_CDCECM_EPBULKOUT_MAXBURST : Z;
  CONFIG_CDCECM_EPBULKIN_MAXSTREAM : Z;
  CONFIG_CDCECM_EPBULKOUT_MAXSTREAM : Z;
  CONFIG_USBDEV_MAXPOWER : Z;
  CONFIG_NET_ETH_PKTSIZE : Z;
  CONFIG_CDCECM_VENDORSTR : string;
  CONFIG_CDCECM_PRODUCTSTR : string;
  board_usbdev_serialstr : string;
  CDCECM_MXDESCLEN : Z;
  USB_SS_INT_EP_MAXBURST : Z;
  USB_SS_BULK_EP_MAXBURST : Z;
  USB_SS_BULK_EP_MAXSTREAM : Z
}.

Definition CDCECM_MAXSTRLEN (cfg : kconfig) : Z := CDCECM_MXDESCLEN cfg - 2.

(** ** Memory areas and fixed-width integers *)

(** A byte buffer is a finite map from offsets to byte values; an offset
    that is absent has not been written. *)
Abbreviation buffer := (gmap nat Z).

Definition uint8 (z : Z) : Z := z mod 2 ^ 8.
Definition uint16 (z : Z) : Z := z mod 2 ^ 16.
Definition int16 (z : Z) : Z := (z + 2 ^ 15) mod 2 ^ 16 - 2 ^ 15.
Definition int32 (z : Z) : Z := (z + 2 ^ 31) mod 2 ^ 32 - 2 ^ 31.

Definition LSBYTE (u16 : Z) : Z := Z.land u16 0xff.
Definition MSBYTE (u16 : Z) : Z := Z.shiftr u16 8.

(** An assignment to a [uint8_t] member at offset [p]. *)
Definition store8 (p : nat) (v : Z) (m : buffer) : buffer :=
  <[p := uint8 v]> m.

(** A structure member: its offset in the structure and the value
    assigned to it. *)
Definition fld (off : nat) (v : Z) : nat * Z := (off, v).
Arguments fld off%_nat v%_Z.

(** The member assignments of one structure placed at [desc]. *)
Definition stores (desc : nat) (members : list (nat * Z)) (m : buffer)
    : buffer :=
  fold_left (fun m '(off, v) => store8 (desc + off) v m) members m.

(** [if (desc) { ...members...; desc += size; }] *)
Definition if_desc (desc : option nat) (members : list (nat * Z))
    (size : nat) (m : buffer) : option nat * buffer :=
  match desc with
  | Some p => (Some (p + size)%nat, stores p members m)
  | None => (None, m)
  end.

(** [struct usbdev_devinfo_s] *)
Record usbdev_devinfo_s := {
  ninterfaces : Z;
  ifnobase : Z;
  nstrings : Z;
  strbase : Z;
  nendpoints : Z;
  epno : Z -> Z
}.

Section Descriptors.

Variable cfg : kconfig.

(** ** cdcecm_mkepcompdesc (compiled under CONFIG_USBDEV_SUPERSPEED) *)

Definition cdcecm_mkepcompdesc (epidx : Z) (epcompdesc : nat) (m : buffer)
    : buffer :=
  if epidx =? CDCECM_EP_INTIN_IDX then
    let mxburst :=
      uint8 (if CONFIG_CDCECM_EPINTIN_MAXBURST cfg >=? USB_SS_INT_EP_MAXBURST cfg
             then USB_SS_INT_EP_MAXBURST cfg - 1
             else CONFIG_CDCECM_EPINTIN_MAXBURST cfg) in
    stores epcompdesc
      [ fld 0 (Z.of_nat USB_SIZEOF_SS_EPCOMPDESC);     (* len *)
        fld 1 USB_DESC_TYPE_ENDPOINT_COMPANION;      (* type *)
        fld 2 mxburst;                               (* mxburst *)
        fld 3 0;                                     (* attr *)
        fld 4 (LSBYTE ((mxburst + 1) * CONFIG_CDCECM_EPINTIN_SSSIZE cfg));
        fld 5 (MSBYTE ((mxburst + 1) * CONFIG_CDCECM_EPINTIN_SSSIZE cfg)) ] m
  else if epidx =? CDCECM_EP_BULKOUT_IDX then
    stores epcompdesc
      [ fld 0 (Z.of_nat USB_SIZEOF_SS_EPCOMPDESC);
        fld 1 USB_DESC_TYPE_ENDPOINT_COMPANION;
        fld 2 (if CONFIG_CDCECM_EPBULKOUT_MAXBURST cfg
               >=? USB_SS_BULK_EP_MAXBURST cfg
            then USB_SS_BULK_EP_MAXBURST cfg - 1
            else CONFIG_CDCECM_EPBULKOUT_MAXBURST cfg);
        fld 3 (if CONFIG_CDCECM_EPBULKOUT_MAXSTREAM cfg
               >? USB_SS_BULK_EP_MAXSTREAM cfg
            then USB_SS_BULK_EP_MAXSTREAM cfg
            else CONFIG_CDCECM_EPBULKOUT_MAXSTREAM cfg);
        fld 4 0;
        fld 5 0 ] m
  else if epidx =? CDCECM_EP_BULKIN_IDX then
    stores epcompdesc
      [ fld 0 (Z.of_nat USB_SIZEOF_SS_EPCOMPDESC);
        fld 1 USB_DESC_TYPE_ENDPOINT_COMPANION;
        fld 2 (if CONFIG_CDCECM_EPBULKIN_MAXBURST cfg
               >=? USB_SS_BULK_EP_MAXBURST cfg
            then USB_SS_BULK_EP_MAXBURST cfg - 1
            else CONFIG_CDCECM_EPBULKIN_MAXBURST cfg);
        fld 3 (if CONFIG_CDCECM_EPBULKIN_MAXSTREAM cfg
               >? USB_SS_BULK_EP_MAXSTREAM cfg
            then USB_SS_BULK_EP_MAXSTREAM cfg
            else CONFIG_CDCECM_EPBULKIN_MAXSTREAM cfg);
        fld 4 0;
        fld 5 0 ] m
  else m.

(** ** cdcecm_mkepdesc

    [epdesc] is [None] for a null pointer.  The result is [None] when
    [DEBUGPANIC()] fires (an endpoint index outside the three known ones, in
    a build with debug assertions); otherwise the returned length and the
    buffer after the call. *)
Definition cdcecm_mkepdesc (epidx : Z) (epdesc : option nat)
    (devinfo : usbdev_devinfo_s) (speed : Z) (m : buffer)
    : option (Z * buffer) :=
  let intin_mxpktsz := uint16 (CONFIG_CDCECM_EPINTIN_FSSIZE cfg) in
  let bulkout_mxpktsz := uint16 (CONFIG_CDCECM_EPBULKOUT_FSSIZE cfg) in
  let bulkin_mxpktsz := uint16 (CONFIG_CDCECM_EPBULKIN_FSSIZE cfg) in
  let len := Z.of_nat sizeof_usb_epdesc_s in
  let '(intin_mxpktsz, bulkout_mxpktsz, bulkin_mxpktsz, len) :=
    if CONFIG_USBDEV_SUPERSPEED cfg
       && ((speed =? USB_SPEED_SUPER) || (speed =? USB_SPEED_SUPER_PLUS)
           || (speed =? USB_SPEED_UNKNOWN))
    then (uint16 (CONFIG_CDCECM_EPINTIN_SSSIZE cfg),
          uint16 (CONFIG_CDCECM_EPBULKOUT_SSSIZE cfg),
          uint16 (CONFIG_CDCECM_EPBULKIN_SSSIZE cfg),
          len + Z.of_nat sizeof_usb_ss_epcompdesc_s)
    else if CONFIG_USBDEV_DUALSPEED cfg && (speed =? USB_SPEED_HIGH)
    then (uint16 (CONFIG_CDCECM_EPINTIN_HSSIZE cfg),
          uint16 (CONFIG_CDCECM_EPBULKOUT_HSSIZE cfg),
          uint16 (CONFIG_CDCECM_EPBULKIN_HSSIZE cfg),
          len)
    else (intin_mxpktsz, bulkout_mxpktsz, bulkin_mxpktsz, len) in
  match epdesc with
  | None => Some (len, m)
  | Some p =>
      let m :=
        stores p [ fld 0 (Z.of_nat USB_SIZEOF_EPDESC);       (* len *)
                   fld 1 USB_DESC_TYPE_ENDPOINT ] m in  (* type *)
      let filled :=
        if epidx =? CDCECM_EP_INTIN_IDX then
          Some (stores p
            [ fld 2 (Z.lor USB_DIR_IN (epno devinfo CDCECM_EP_INTIN_IDX));
              fld 3 USB_EP_ATTR_XFER_INT;                  (* attr *)
              fld 4 (LSBYTE intin_mxpktsz);                  (* mxpacketsize *)
              fld 5 (MSBYTE intin_mxpktsz);
              fld 6 5 ] m)                             (* interval *)
        else if epidx =? CDCECM_EP_BULKIN_IDX then
          Some (stores p
            [ fld 2 (Z.lor USB_DIR_IN (epno devinfo CDCECM_EP_BULKIN_IDX));
              fld 3 USB_EP_ATTR_XFER_BULK;
              fld 4 (LSBYTE bulkin_mxpktsz);
              fld 5 (MSBYTE bulkin_mxpktsz);
              fld 6 0 ] m)
        else if epidx =? CDCECM_EP_BULKOUT_IDX then
          Some (stores p
            [ fld 2 (Z.lor USB_DIR_OUT (epno devinfo CDCECM_EP_BULKOUT_IDX));
              fld 3 USB_EP_ATTR_XFER_BULK;
              fld 4 (LSBYTE bulkout_mxpktsz);
              fld 5 (MSBYTE bulkout_mxpktsz);
              fld 6 0 ] m)
        else if CONFIG_DEBUG_ASSERTIONS cfg then None else Some m in
      match filled with
      | None => None
      | Some m =>
          let m :=
            if CONFIG_USBDEV_SUPERSPEED cfg
               && ((speed =? USB_SPEED_SUPER)
                   || (speed =? USB_SPEED_SUPER_PLUS))
            then cdcecm_mkepcompdesc epidx (p + sizeof_usb_epdesc_s)%nat m
            else m in
          Some (len, m)
      end
  end.

(** ** cdcecm_mkcfgdesc

    [desc] is [None] for a null pointer.  The result is [None] when the
    final [DEBUGASSERT(len <= CDCECM_MXDESCLEN)] fails in a build with
    debug assertions. *)
Definition cdcecm_mkcfgdesc (desc : option nat) (devinfo : usbdev_devinfo_s)
    (speed type : Z) (m : buffer) : option (Z * buffer) :=
  let cfgdesc : option nat := None in
  let len := 0 in
  (* Check for switches between high and full speed *)
  let speed :=
    if (type =? USB_DESC_TYPE_OTHERSPEEDCONFIG) && (speed <? USB_SPEED_SUPER)
    then (if speed =? USB_SPEED_HIGH then USB_SPEED_FULL else USB_SPEED_HIGH)
    else speed in
  let '(cfgdesc, desc, m, len) :=
    if negb (CONFIG_CDCECM_COMPOSITE cfg) then
      let '(desc', m) :=
        if_desc desc
          [ fld 0 (Z.of_nat USB_SIZEOF_CFGDESC);                (* len *)
            fld 1 type;                                       (* type *)
            fld 4 CDCECM_NINTERFACES;                         (* ninterfaces *)
            fld 5 CDCECM_CONFIGID;                            (* cfgvalue *)
            fld 6 (strbase devinfo + CDCECM_CONFIGSTRID);       (* icfg *)
            fld 7 (Z.lor (Z.lor USB_CONFIG_ATTR_ONE CDCECM_SELFPOWERED)
                  CDCECM_REMOTEWAKEUP);                      (* attr *)
            fld 8 ((CONFIG_USBDEV_MAXPOWER cfg + 1) ÷ 2) ]  (* mxpower *)
          USB_SIZEOF_CFGDESC m in
      (desc, desc', m, int16 (len + Z.of_nat USB_SIZEOF_CFGDESC))
    else if CONFIG_COMPOSITE_IAD cfg then
      (* Interface association descriptor *)
      let '(desc', m) :=
        if_desc desc
          [ fld 0 (Z.of_nat USB_SIZEOF_IADDESC);                (* len *)
            fld 1 USB_DESC_TYPE_INTERFACEASSOCIATION;         (* type *)
            fld 2 (ifnobase devinfo);                           (* firstif *)
            fld 3 (ninterfaces devinfo);                        (* nifs *)
            fld 4 USB_CLASS_CDC;                              (* classid *)
            fld 5 CDC_SUBCLASS_ECM;                           (* subclass *)
            fld 6 CDC_PROTO_NONE;                             (* protocol *)
            fld 7 0 ]                                     (* ifunction *)
          USB_SIZEOF_IADDESC m in
      (cfgdesc, desc', m, int16 (len + Z.of_nat USB_SIZEOF_IADDESC))
    else (cfgdesc, desc, m, len) in
  (* Communications Class Interface *)
  let '(desc, m) :=
    if_desc desc
      [ fld 0 (Z.of_nat USB_SIZEOF_IFDESC);                     (* len *)
        fld 1 USB_DESC_TYPE_INTERFACE;                        (* type *)
        fld 2 (ifnobase devinfo);                               (* ifno *)
        fld 3 0;                                              (* alt *)
        fld 4 1;                                              (* neps *)
        fld 5 USB_CLASS_CDC;                                  (* classid *)
        fld 6 CDC_SUBCLASS_ECM;                               (* subclass *)
        fld 7 CDC_PROTO_NONE;                                 (* protocol *)
        fld 8 0 ]                                         (* iif *)
      USB_SIZEOF_IFDESC m in
  let len := int16 (len + Z.of_nat USB_SIZEOF_IFDESC) in
  let '(desc, m) :=
    if_desc desc
      [ fld 0 (Z.of_nat SIZEOF_HDR_FUNCDESC);                   (* size *)
        fld 1 USB_DESC_TYPE_CSINTERFACE;                      (* type *)
        fld 2 CDC_DSUBTYPE_HDR;                               (* subtype *)
        fld 3 (LSBYTE 0x0110);                                  (* cdc *)
        fld 4 (MSBYTE 0x0110) ]
      SIZEOF_HDR_FUNCDESC m in
  let len := int16 (len + Z.of_nat SIZEOF_HDR_FUNCDESC) in
  let '(desc, m) :=
    if_desc desc
      [ fld 0 (Z.of_nat (SIZEOF_UNION_FUNCDESC 1));             (* size *)
        fld 1 USB_DESC_TYPE_CSINTERFACE;                      (* type *)
        fld 2 CDC_DSUBTYPE_UNION;                             (* subtype *)
        fld 3 (ifnobase devinfo);                               (* master *)
        fld 4 (ifnobase devinfo + 1) ]                      (* slave[0] *)
      (SIZEOF_UNION_FUNCDESC 1) m in
  let len := int16 (len + Z.of_nat (SIZEOF_UNION_FUNCDESC 1)) in
  let '(desc, m) :=
    if_desc desc
      [ fld 0 (Z.of_nat SIZEOF_ECM_FUNCDESC);                   (* size *)
        fld 1 USB_DESC_TYPE_CSINTERFACE;                      (* type *)
        fld 2 CDC_DSUBTYPE_ECM;                               (* subtype *)
        fld 3 (strbase devinfo + CDCECM_MACSTRID);              (* mac *)
        fld 4 0; fld 5 0; fld 6 0; fld 7 0;                      (* stats *)
        fld 8 (LSBYTE (CONFIG_NET_ETH_PKTSIZE cfg));            (* maxseg *)
        fld 9 (MSBYTE (CONFIG_NET_ETH_PKTSIZE cfg));
        fld 10 (LSBYTE 0);                                      (* nmcflts *)
        fld 11 (MSBYTE 0);
        fld 12 0 ]                                        (* npwrflts *)
      SIZEOF_ECM_FUNCDESC m in
  let len := int16 (len + Z.of_nat SIZEOF_ECM_FUNCDESC) in
  match cdcecm_mkepdesc CDCECM_EP_INTIN_IDX desc devinfo speed m with
  | None => None
  | Some (ret, m) =>
  let desc := option_map (fun p => (p + Z.to_nat ret)%nat) desc in
  let len := int16 (len + ret) in
  (* Data Class Interface *)
  let '(desc, m) :=
    if_desc desc
      [ fld 0 (Z.of_nat USB_SIZEOF_IFDESC);
        fld 1 USB_DESC_TYPE_INTERFACE;
        fld 2 (ifnobase devinfo + 1);                           (* ifno *)
        fld 3 0;                                              (* alt *)
        fld 4 0;                                              (* neps *)
        fld 5 USB_CLASS_CDC_DATA;
        fld 6 CDC_SUBCLASS_ECM;
        fld 7 CDC_PROTO_NONE;
        fld 8 0 ]
      USB_SIZEOF_IFDESC m in
  let len := int16 (len + Z.of_nat USB_SIZEOF_IFDESC) in
  let '(desc, m) :=
    if_desc desc
      [ fld 0 (Z.of_nat USB_SIZEOF_IFDESC);
        fld 1 USB_DESC_TYPE_INTERFACE;
        fld 2 (ifnobase devinfo + 1);                           (* ifno *)
        fld 3 1;                                              (* alt *)
        fld 4 2;                                              (* neps *)
        fld 5 USB_CLASS_CDC_DATA;
        fld 6 CDC_SUBCLASS_ECM;
        fld 7 CDC_PROTO_NONE;
        fld 8 0 ]
      USB_SIZEOF_IFDESC m in
  let len := int16 (len + Z.of_nat USB_SIZEOF_IFDESC) in
  match cdcecm_mkepdesc CDCECM_EP_BULKIN_IDX desc devinfo speed m with
  | None => None
  | Some (ret, m) =>
  let desc := option_map (fun p => (p + Z.to_nat ret)%nat) desc in
  let len := int16 (len + ret) in
  match cdcecm_mkepdesc CDCECM_EP_BULKOUT_IDX desc devinfo speed m with
  | None => None
  | Some (ret, m) =>
  let desc := option_map (fun p => (p + Z.to_nat ret)%nat) desc in
  let len := int16 (len + ret) in
  let m :=
    match cfgdesc with
    | Some c => stores c [ fld 2 (LSBYTE len); fld 3 (MSBYTE len) ] m
    | None => m                                              (* totallen *)
    end in
  if CONFIG_DEBUG_ASSERTIONS cfg && negb (len <=? CDCECM_MXDESCLEN cfg)
  then None
  else Some (len, m)
  end end end.

(** ** cdcecm_mkstrdesc *)

(** A C string is the characters before its terminating NUL. *)
Fixpoint strlen (s : string) : nat :=
  match s with
  | EmptyString => O
  | String c s' => if Ascii.eqb c Ascii.zero then O else S (strlen s')
  end.

(** [str[i]] converted to [uint8_t]. *)
Definition char_at (s : string) (i : nat) : Z :=
  match String.get i s with
  | Some c => Z.of_N (Ascii.N_of_ascii c)
  | None => 0
  end.

(** The string a descriptor index selects, [None] for the [default:]
    case.  Index 0 (the language id) is handled before this switch. *)
Definition strdesc_source (id : Z) : option string :=
  if negb (CONFIG_CDCECM_COMPOSITE cfg) && (id =? CDCECM_MANUFACTURERSTRID)
  then Some (CONFIG_CDCECM_VENDORSTR cfg)
  else if negb (CONFIG_CDCECM_COMPOSITE cfg) && (id =? CDCECM_PRODUCTSTRID)
  then Some (CONFIG_CDCECM_PRODUCTSTR cfg)
  else if negb (CONFIG_CDCECM_COMPOSITE cfg) && (id =? CDCECM_SERIALSTRID)
  then Some (if CONFIG_BOARD_USBDEV_SERIALSTR cfg
             then board_usbdev_serialstr cfg else "0"%string)
  else if negb (CONFIG_CDCECM_COMPOSITE cfg) && (id =? CDCECM_CONFIGSTRID)
  then Some "Default"%string
  else if id =? CDCECM_MACSTRID
  then Some "020000112233"%string
  else None.

(** [for (i = 0, ndata = 0; i < len; i++, ndata += 2)
      { data[ndata] = str[i]; data[ndata + 1] = 0; }]
    with [count] the number of iterations left; returns [ndata]. *)
Fixpoint expand_loop (count : nat) (str : string) (data : nat)
    (i : nat) (ndata : nat) (m : buffer) : nat * buffer :=
  match count with
  | O => (ndata, m)
  | S count' =>
      let m := store8 (data + ndata) (char_at str i) m in
      let m := store8 (data + (ndata + 1)) 0 m in
      expand_loop count' str data (S i) (ndata + 2) m
  end.

Definition cdcecm_mkstrdesc (id : Z) (strdesc : nat) (m : buffer)
    : Z * buffer :=
  let data := (strdesc + 2)%nat in          (* the bytes after the header *)
  if negb (CONFIG_CDCECM_COMPOSITE cfg) && (id =? 0) then
    (* Descriptor 0 is the language id *)
    let m := stores strdesc [ fld 0 4; fld 1 USB_DESC_TYPE_STRING ] m in
    let m := store8 data (LSBYTE CDCECM_STR_LANGUAGE) m in
    let m := store8 (data + 1) (MSBYTE CDCECM_STR_LANGUAGE) m in
    (4, m)
  else
    match strdesc_source id with
    | None => (- EINVAL, m)
    | Some str =>
        let len := int32 (Z.of_nat (strlen str)) in
        let len :=
          if len >? CDCECM_MAXSTRLEN cfg ÷ 2
          then CDCECM_MAXSTRLEN cfg ÷ 2 else len in
        let '(ndata, m) := expand_loop (Z.to_nat len) str data 0 0 m in
        let m :=
          stores strdesc [ fld 0 (Z.of_nat ndata + 2);          (* len *)
                           fld 1 USB_DESC_TYPE_STRING ] m in
        (uint8 (Z.of_nat ndata + 2), m)
    end.

End Descriptors.

(** ** The driver instance and its collaborators *)

Inductive endpoint := EP0 | EPINT | EPBULKIN | EPBULKOUT.

Inductive work_slot := IRQWORK | POLLWORK.

(** [struct usbdev_req_s] *)
Record usbdev_req_s := {
  req_buf : buffer;
  req_len : Z;
  req_xfrd : Z;
  req_result : Z;
  req_flags : Z
}.

(** The counters behind the [NETDEV_*] statistics macros. *)
Record netdev_statistics_s := {
  rx_ipv4 : N;
  rx_ipv6 : N;
  rx_arp : N;
  rx_dropped : N;
  tx_packets : N;
  tx_done : N
}.

(** [struct net_driver_s], the members the driver touches; [d_buf] is the
    packet buffer it points to. *)
Record net_driver_s := {
  d_buf : buffer;
  d_len : Z;
  d_flags : Z;
  d_mac : list Z;
  d_statistics : netdev_statistics_s
}.

(** What the controller holds for an endpoint: whether it is configured,
    and whether the driver's request on it is in flight. *)
Record usbdev_ep_s := {
  ep_configured : bool;
  ep_pending : bool
}.

(** [struct cdcecm_driver_s].  The endpoint pointers live in [world]; the
    two [struct work_s] are reduced to "work is pending". *)
Record cdcecm_driver_s := {
  usbdev_speed : Z;
  devinfo : usbdev_devinfo_s;
  ctrlreq : usbdev_req_s;
  config : Z;
  rdreq : usbdev_req_s;
  rxpending : bool;
  wrreq : usbdev_req_s;
  wrreq_idle : N;
  txdone : bool;
  bifup : bool;
  irqwork : bool;
  pollwork : bool;
  dev : net_driver_s
}.

(** Calls that leave the driver, in program order. *)
Inductive event :=
  | Call_EP_CONFIGURE (ep : endpoint) (epdesc : buffer) (last : bool)
  | Call_EP_SUBMIT (ep : endpoint) (req : usbdev_req_s)
  | Call_EP_DISABLE (ep : endpoint)
  | Call_composite_ep0submit (req : usbdev_req_s)
  | Call_work_queue (slot : work_slot)
  | Call_pkt_input
  | Call_ipv4_input
  | Call_ipv6_input
  | Call_arp_input
  | Call_d_ifup
  | Call_d_ifdown
  | Call_netdev_carrier_on.

Record world := {
  self : cdcecm_driver_s;
  epint : usbdev_ep_s;
  epbulkin : usbdev_ep_s;
  epbulkout : usbdev_ep_s;
  trace : list event
}.

(** [struct usbdev_s] and [struct usb_ctrlreq_s] as [cdcecm_setup] reads
    them. *)
Record usbdev_s := { speed : Z }.

Record usb_ctrlreq_s := {
  ctrl_type : Z;
  ctrl_req : Z;
  ctrl_value : Z * Z;
  ctrl_index : Z * Z;
  ctrl_len : Z * Z
}.

Definition GETUINT16 (p : Z * Z) : Z := Z.lor (Z.shiftl (snd p) 8) (fst p).

(** The collaborators whose code is outside the driver: the network stack
    inputs act on the device record, the controller answers each call with
    a status. *)
Record collaborators := {
  pkt_input : net_driver_s -> net_driver_s;
  ipv4_input : net_driver_s -> net_driver_s;
  ipv6_input : net_driver_s -> net_driver_s;
  arp_input : net_driver_s -> net_driver_s;
  netdev_carrier_on : net_driver_s -> net_driver_s;
  usbdev_copy_devdesc : list Z -> Z -> buffer -> Z * buffer;
  EP_CONFIGURE_status : endpoint -> Z;
  EP_SUBMIT_status : endpoint -> Z;
  composite_ep0submit_status : Z
}.

(** *** Member updates *)

Definition set_req_buf (v : buffer) (r : usbdev_req_s) : usbdev_req_s :=
  {| req_buf := v; req_len := req_len r; req_xfrd := req_xfrd r;
     req_result := req_result r; req_flags := req_flags r |}.
Definition set_req_len (v : Z) (r : usbdev_req_s) : usbdev_req_s :=
  {| req_buf := req_buf r; req_len := v; req_xfrd := req_xfrd r;
     req_result := req_result r; req_flags := req_flags r |}.
Definition set_req_result (v : Z) (r : usbdev_req_s) : usbdev_req_s :=
  {| req_buf := req_buf r; req_len := req_len r; req_xfrd := req_xfrd r;
     req_result := v; req_flags := req_flags r |}.
Definition set_req_flags (v : Z) (r : usbdev_req_s) : usbdev_req_s :=
  {| req_buf := req_buf r; req_len := req_len r; req_xfrd := req_xfrd r;
     req_result := req_result r; req_flags := v |}.

Definition set_d_buf (v : buffer) (d : net_driver_s) : net_driver_s :=
  {| d_buf := v; d_len := d_len d; d_flags := d_flags d; d_mac := d_mac d;
     d_statistics := d_statistics d |}.
Definition set_d_len (v : Z) (d : net_driver_s) : net_driver_s :=
  {| d_buf := d_buf d; d_len := v; d_flags := d_flags d; d_mac := d_mac d;
     d_statistics := d_statistics d |}.
Definition set_d_flags (v : Z) (d : net_driver_s) : net_driver_s :=
  {| d_buf := d_buf d; d_len := d_len d; d_flags := v; d_mac := d_mac d;
     d_statistics := d_statistics d |}.
Definition set_d_mac (v : list Z) (d : net_driver_s) : net_driver_s :=
  {| d_buf := d_buf d; d_len := d_len d; d_flags := d_flags d; d_mac := v;
     d_statistics := d_statistics d |}.
Definition set_d_statistics (v : netdev_statistics_s) (d : net_driver_s)
    : net_driver_s :=
  {| d_buf := d_buf d; d_len := d_len d; d_flags := d_flags d;
     d_mac := d_mac d; d_statistics := v |}.

Definition set_usbdev_speed (v : Z) (s : cdcecm_driver_s) : cdcecm_driver_s :=
  {| usbdev_speed := v; devinfo := devinfo s; ctrlreq := ctrlreq s;
     config := config s; rdreq := rdreq s; rxpending := rxpending s;
     wrreq := wrreq s; wrreq_idle := wrreq_idle s; txdone := txdone s;
     bifup := bifup s; irqwork := irqwork s; pollwork := pollwork s;
     dev := dev s |}.
Definition set_ctrlreq (v : usbdev_req_s) (s : cdcecm_driver_s)
    : cdcecm_driver_s :=
  {| usbdev_speed := usbdev_speed s; devinfo := devinfo s; ctrlreq := v;
     config := config s; rdreq := rdreq s; rxpending := rxpending s;
     wrreq := wrreq s; wrreq_idle := wrreq_idle s; txdone := txdone s;
     bifup := bifup s; irqwork := irqwork s; pollwork := pollwork s;
     dev := dev s |}.
Definition set_config (v : Z) (s : cdcecm_driver_s) : cdcecm_driver_s :=
  {| usbdev_speed := usbdev_speed s; devinfo := devinfo s;
     ctrlreq := ctrlreq s; config := v; rdreq := rdreq s;
     rxpending := rxpending s; wrreq := wrreq s;
     wrreq_idle := wrreq_idle s; txdone := txdone s; bifup := bifup s;
     irqwork := irqwork s; pollwork := pollwork s; dev := dev s |}.
Definition set_rdreq (v : usbdev_req_s) (s : cdcecm_driver_s)
    : cdcecm_driver_s :=
  {| usbdev_speed := usbdev_speed s; devinfo := devinfo s;
     ctrlreq := ctrlreq s; config := config s; rdreq := v;
     rxpending := rxpending s; wrreq := wrreq s;
     wrreq_idle := wrreq_idle s; txdone := txdone s; bifup := bifup s;
     irqwork := irqwork s; pollwork := pollwork s; dev := dev s |}.
Definition set_rxpending (v : bool) (s : cdcecm_driver_s) : cdcecm_driver_s :=
  {| usbdev_speed := usbdev_speed s; devinfo := devinfo s;
     ctrlreq := ctrlreq s; config := config s; rdreq := rdreq s;
     rxpending := v; wrreq := wrreq s; wrreq_idle := wrreq_idle s;
     txdone := txdone s; bifup := bifup s; irqwork := irqwork s;
     pollwork := pollwork s; dev := dev s |}.
Definition set_wrreq (v : usbdev_req_s) (s : cdcecm_driver_s)
    : cdcecm_driver_s :=
  {| usbdev_speed := usbdev_speed s; devinfo := devinfo s;
     ctrlreq := ctrlreq s; config := config s; rdreq := rdreq s;
     rxpending := rxpending s; wrreq := v; wrreq_idle := wrreq_idle s;
     txdone := txdone s; bifup := bifup s; irqwork := irqwork s;
     pollwork := pollwork s; dev := dev s |}.
Definition set_wrreq_idle (v : N) (s : cdcecm_driver_s) : cdcecm_driver_s :=
  {| usbdev_speed := usbdev_speed s; devinfo := devinfo s;
     ctrlreq := ctrlreq s; config := config s; rdreq := rdreq s;
     rxpending := rxpending s; wrreq := wrreq s; wrreq_idle := v;
     txdone := txdone s; bifup := bifup s; irqwork := irqwork s;
     pollwork := pollwork s; dev := dev s |}.
Definition set_txdone (v : bool) (s : cdcecm_driver_s) : cdcecm_driver_s :=
  {| usbdev_speed := usbdev_speed s; devinfo := devinfo s;
     ctrlreq := ctrlreq s; config := config s; rdreq := rdreq s;
     rxpending := rxpending s; wrreq := wrreq s;
     wrreq_idle := wrreq_idle s; txdone := v; bifup := bifup s;
     irqwork := irqwork s; pollwork := pollwork s; dev := dev s |}.
Definition set_bifup (v : bool) (s : cdcecm_driver_s) : cdcecm_driver_s :=
  {| usbdev_speed := usbdev_speed s; devinfo := devinfo s;
     ctrlreq := ctrlreq s; config := config s; rdreq := rdreq s;
     rxpending := rxpending s; wrreq := wrreq s;
     wrreq_idle := wrreq_idle s; txdone := txdone s; bifup := v;
     irqwork := irqwork s; pollwork := pollwork s; dev := dev s |}.
Definition set_work (slot : work_slot) (v : bool) (s : cdcecm_driver_s)
    : cdcecm_driver_s :=
  {| usbdev_speed := usbdev_speed s; devinfo := devinfo s;
     ctrlreq := ctrlreq s; config := config s; rdreq := rdreq s;
     rxpending := rxpending s; wrreq := wrreq s;
     wrreq_idle := wrreq_idle s; txdone := txdone s; bifup := bifup s;
     irqwork := match slot with IRQWORK => v | POLLWORK => irqwork s end;
     pollwork := match slot with POLLWORK => v | IRQWORK => pollwork s end;
     dev := dev s |}.
Definition set_dev (v : net_driver_s) (s : cdcecm_driver_s) : cdcecm_driver_s :=
  {| usbdev_speed := usbdev_speed s; devinfo := devinfo s;
     ctrlreq := ctrlreq s; config := config s; rdreq := rdreq s;
     rxpending := rxpending s; wrreq := wrreq s;
     wrreq_idle := wrreq_idle s; txdone := txdone s; bifup := bifup s;
     irqwork := irqwork s; pollwork := pollwork s; dev := v |}.

Definition set_self (v : cdcecm_driver_s) (w : world) : world :=
  {| self := v; epint := epint w; epbulkin := epbulkin w;
     epbulkout := epbulkout w; trace := trace w |}.
Definition set_trace (v : list event) (w : world) : world :=
  {| self := self w; epint := epint w; epbulkin := epbulkin w;
     epbulkout := epbulkout w; trace := v |}.

Definition get_ep (ep : endpoint) (w : world) : usbdev_ep_s :=
  match ep with
  | EP0 => {| ep_configured := true; ep_pending := false |}
  | EPINT => epint w
  | EPBULKIN => epbulkin w
  | EPBULKOUT => epbulkout w
  end.

Definition set_ep (ep : endpoint) (v : usbdev_ep_s) (w : world) : world :=
  {| self := self w;
     epint := match ep with EPINT => v | _ => epint w end;
     epbulkin := match ep with EPBULKIN => v | _ => epbulkin w end;
     epbulkout := match ep with EPBULKOUT => v | _ => epbulkout w end;
     trace := trace w |}.

(** *** Operations on the world

    An operation returns ([Done]), or stops where the calling thread sleeps
    on the write-request semaphore ([Blocked]), or where a debug assertion
    fails ([Panic]). *)
Inductive outcome (A : Type) :=
  | Done (a : A) (w : world)
  | Blocked (w : world)
  | Panic (w : world).
Arguments Done {A} a w.
Arguments Blocked {A} w.
Arguments Panic {A} w.

Definition op (A : Type) : Type := world -> outcome A.

#[export] Instance op_ret : MRet op := fun A a w => Done a w.
#[export] Instance op_bind : MBind op := fun A B f m w =>
  match m w with
  | Done a w' => f a w'
  | Blocked w' => Blocked w'
  | Panic w' => Panic w'
  end.

Definition get_self : op cdcecm_driver_s := fun w => Done (self w) w.
Definition update (f : cdcecm_driver_s -> cdcecm_driver_s) : op unit :=
  fun w => Done tt (set_self (f (self w)) w).
Definition update_dev (f : net_driver_s -> net_driver_s) : op unit :=
  update (fun s => set_dev (f (dev s)) s).
Definition call (e : event) : op unit :=
  fun w => Done tt (set_trace (trace w ++ [e]) w).
Definition read_ep (ep : endpoint) : op usbdev_ep_s :=
  fun w => Done (get_ep ep w) w.
Definition update_ep (ep : endpoint) (f : usbdev_ep_s -> usbdev_ep_s)
    : op unit :=
  fun w => Done tt (set_ep ep (f (get_ep ep w)) w).
Definition panic {A : Type} : op A := fun w => Panic w.

(** [DEBUGASSERT(f)]: nothing without CONFIG_DEBUG_ASSERTIONS. *)
Definition DEBUGASSERT (cfg : kconfig) (f : bool) : op unit :=
  fun w => if CONFIG_DEBUG_ASSERTIONS cfg && negb f then Panic w
           else Done tt w.

(** [memcpy(dst, src, n)] on two buffers, from their first bytes. *)
Fixpoint memcpy (dst src : buffer) (n : nat) : buffer :=
  match n with
  | O => dst
  | S n' => partial_alter (fun _ => src !! n') n' (memcpy dst src n')
  end.

(** Modelled from the spec: the statistics macros of [nuttx/net/netdev.h],
    each of which increments its counter of the device record. *)
Definition NETDEV_RXIPV4 (d : net_driver_s) : net_driver_s :=
  let s := d_statistics d in
  set_d_statistics
    {| rx_ipv4 := rx_ipv4 s + 1; rx_ipv6 := rx_ipv6 s; rx_arp := rx_arp s;
       rx_dropped := rx_dropped s; tx_packets := tx_packets s;
       tx_done := tx_done s |} d.
Definition NETDEV_RXIPV6 (d : net_driver_s) : net_driver_s :=
  let s := d_statistics d in
  set_d_statistics
    {| rx_ipv4 := rx_ipv4 s; rx_ipv6 := rx_ipv6 s + 1; rx_arp := rx_arp s;
       rx_dropped := rx_dropped s; tx_packets := tx_packets s;
       tx_done := tx_done s |} d.
Definition NETDEV_RXARP (d : net_driver_s) : net_driver_s :=
  let s := d_statistics d in
  set_d_statistics
    {| rx_ipv4 := rx_ipv4 s; rx_ipv6 := rx_ipv6 s; rx_arp := rx_arp s + 1;
       rx_dropped := rx_dropped s; tx_packets := tx_packets s;
       tx_done := tx_done s |} d.
Definition NETDEV_RXDROPPED (d : net_driver_s) : net_driver_s :=
  let s := d_statistics d in
  set_d_statistics
    {| rx_ipv4 := rx_ipv4 s; rx_ipv6 := rx_ipv6 s; rx_arp := rx_arp s;
       rx_dropped := rx_dropped s + 1; tx_packets := tx_packets s;
       tx_done := tx_done s |} d.
Definition NETDEV_TXPACKETS (d : net_driver_s) : net_driver_s :=
  let s := d_statistics d in
  set_d_statistics
    {| rx_ipv4 := rx_ipv4 s; rx_ipv6 := rx_ipv6 s; rx_arp := rx_arp s;
       rx_dropped := rx_dropped s; tx_packets := tx_packets s + 1;
       tx_done := tx_done s |} d.

(** Modelled from the spec: the write-gate semaphore of
    [nuttx/semaphore.h], "a counting-style resource with capacity one;
    acquisition blocks the calling context until release".  [nxsem_wait]
    takes a unit when there is one and otherwise does not return;
    [nxsem_post] adds a unit and fails only at [SEM_VALUE_MAX]. *)
Definition nxsem_wait_wrreq_idle : op Z := fun w =>
  if (wrreq_idle (self w) =? 0)%N then Blocked w
  else Done OK (set_self (set_wrreq_idle (wrreq_idle (self w) - 1) (self w)) w).

Definition nxsem_post_wrreq_idle : op Z := fun w =>
  if (SEM_VALUE_MAX <=? wrreq_idle (self w))%N then Done (- EOVERFLOW) w
  else Done OK (set_self (set_wrreq_idle (wrreq_idle (self w) + 1) (self w)) w).

(** Modelled from the spec: [work_queue] of [nuttx/wqueue.h],
    "[schedule(slot, callback, argument)] is a no-op if [slot] already has
    pending work". *)
Definition work_queue (slot : work_slot) : op unit := fun w =>
  let pending :=
    match slot with
    | IRQWORK => irqwork (self w)
    | POLLWORK => pollwork (self w)
    end in
  if pending then Done tt w
  else Done tt (set_trace (trace w ++ [Call_work_queue slot])
                  (set_self (set_work slot true (self w)) w)).

Section Driver.

Variable cfg : kconfig.
Variable env : collaborators.

(** Modelled from the spec: [EP_SUBMIT] and [EP_CONFIGURE] of
    [nuttx/usb/usbdev.h], "[configure(handle, descriptor) -> status],
    [submit(handle, request) -> status]".  A request accepted by the
    controller is in flight until it completes. *)
Definition EP_SUBMIT (ep : endpoint) (req : usbdev_req_s) : op Z :=
  call (Call_EP_SUBMIT ep req);;
  let ret := EP_SUBMIT_status env ep in
  (if ret <? 0 then mret tt
   else update_ep ep (fun e => {| ep_configured := ep_configured e;
                                  ep_pending := true |}));;
  mret ret.

Definition EP_CONFIGURE (ep : endpoint) (epdesc : buffer) (last : bool)
    : op Z :=
  call (Call_EP_CONFIGURE ep epdesc last);;
  let ret := EP_CONFIGURE_status env ep in
  (if ret <? 0 then mret tt
   else update_ep ep (fun e => {| ep_configured := true;
                                  ep_pending := ep_pending e |}));;
  mret ret.

(** ** cdcecm_transmit *)

Definition cdcecm_transmit : op Z :=
  (* while (nxsem_wait(&self->wrreq_idle) != OK) { } *)
  nxsem_wait_wrreq_idle;;
  update_dev NETDEV_TXPACKETS;;
  update (fun s =>
    set_wrreq
      (set_req_buf
         (memcpy (req_buf (wrreq s)) (d_buf (dev s)) (Z.to_nat (d_len (dev s))))
         (wrreq s)) s);;
  update (fun s => set_wrreq (set_req_len (d_len (dev s)) (wrreq s)) s);;
  s ← get_self;
  EP_SUBMIT EPBULKIN (wrreq s).

(** ** cdcecm_reply *)

Definition cdcecm_reply : op unit :=
  s ← get_self;
  if d_len (dev s) >? 0
  then cdcecm_transmit;; mret tt
  else mret tt.

(** ** cdcecm_receive *)

(** [BUF->type == HTONS(t)]: the two bytes at offset 12 of the frame, in
    network byte order. *)
Definition BUF_type (d : net_driver_s) : Z :=
  Z.lor (Z.shiftl (default 0 (d_buf d !! 12%nat)) 8)
        (default 0 (d_buf d !! 13%nat)).

Definition cdcecm_receive : op unit :=
  update (fun s =>
    set_dev
      (set_d_buf
         (memcpy (d_buf (dev s)) (req_buf (rdreq s))
            (Z.to_nat (req_xfrd (rdreq s))))
         (dev s)) s);;
  update (fun s => set_dev (set_d_len (uint16 (req_xfrd (rdreq s))) (dev s)) s);;
  (if CONFIG_NET_PKT cfg
   then call Call_pkt_input;; update_dev (pkt_input env)
   else mret tt);;
  s ← get_self;
  if CONFIG_NET_IPv4 cfg && (BUF_type (dev s) =? ETHTYPE_IP) then
    update_dev NETDEV_RXIPV4;;
    call Call_ipv4_input;; update_dev (ipv4_input env);;
    cdcecm_reply
  else if CONFIG_NET_IPv6 cfg && (BUF_type (dev s) =? ETHTYPE_IP6) then
    update_dev NETDEV_RXIPV6;;
    call Call_ipv6_input;; update_dev (ipv6_input env);;
    cdcecm_reply
  else if CONFIG_NET_ARP cfg && (BUF_type (dev s) =? ETHTYPE_ARP) then
    call Call_arp_input;; update_dev (arp_input env);;
    update_dev NETDEV_RXARP;;
    s ← get_self;
    if d_len (dev s) >? 0
    then cdcecm_transmit;; mret tt
    else mret tt
  else
    update_dev NETDEV_RXDROPPED.

(** ** cdcecm_ifup, cdcecm_ifdown *)

Definition cdcecm_ifup : op Z :=
  call Call_d_ifup;;
  update (set_bifup true);;
  mret OK.

Definition cdcecm_ifdown : op Z :=
  call Call_d_ifdown;;
  update (set_bifup false);;
  mret OK.

(** ** cdcecm_rdcomplete *)

Definition cdcecm_rdcomplete (req : usbdev_req_s) : op unit :=
  if req_result req =? 0 then
    s ← get_self;
    DEBUGASSERT cfg (negb (rxpending s));;
    update (set_rxpending true);;
    work_queue IRQWORK
  else if req_result req =? - ESHUTDOWN then
    mret tt
  else
    s ← get_self;
    EP_SUBMIT EPBULKOUT (rdreq s);; mret tt.

(** ** cdcecm_wrcomplete *)

Definition cdcecm_wrcomplete (req : usbdev_req_s) : op unit :=
  rc ← nxsem_post_wrreq_idle;
  (* if (rc != OK) nerr(...) *)
  update (set_txdone true);;
  work_queue IRQWORK.

(** Modelled from the spec: [EP_DISABLE] of [nuttx/usb/usbdev.h],
    "[disable(handle)] (forces all in-flight requests to complete with
    shutdown status)".  The request in flight on the bulk IN endpoint is
    the write request, whose callback is [cdcecm_wrcomplete]; the one on
    the bulk OUT endpoint is the read request, whose callback is
    [cdcecm_rdcomplete]. *)
Definition EP_DISABLE (ep : endpoint) : op unit :=
  call (Call_EP_DISABLE ep);;
  e ← read_ep ep;
  update_ep ep (fun _ => {| ep_configured := false; ep_pending := false |});;
  if ep_pending e then
    match ep with
    | EPBULKIN =>
        update (fun s =>
          set_wrreq (set_req_result (- ESHUTDOWN) (wrreq s)) s);;
        s ← get_self;
        cdcecm_wrcomplete (wrreq s)
    | EPBULKOUT =>
        update (fun s =>
          set_rdreq (set_req_result (- ESHUTDOWN) (rdreq s)) s);;
        s ← get_self;
        cdcecm_rdcomplete (rdreq s)
    | _ => mret tt
    end
  else mret tt.

(** ** cdcecm_resetconfig *)

Definition cdcecm_resetconfig : op unit :=
  s ← get_self;
  if negb (config s =? CDCECM_CONFIGID_NONE) then
    update (set_config CDCECM_CONFIGID_NONE);;
    cdcecm_ifdown;;
    EP_DISABLE EPINT;;
    EP_DISABLE EPBULKIN;;
    EP_DISABLE EPBULKOUT
  else mret tt.

(** ** cdcecm_setconfig *)

(** The endpoint descriptor built in the local [epdesc] of
    [cdcecm_setconfig]; the index is one of the three known ones, so
    [cdcecm_mkepdesc] returns. *)
Definition local_epdesc (epidx : Z) (s : cdcecm_driver_s) : buffer :=
  match cdcecm_mkepdesc cfg epidx (Some 0%nat) (devinfo s) (usbdev_speed s) ∅
  with
  | Some (_, m) => m
  | None => ∅
  end.

Definition cdcecm_setconfig (config_ : Z) : op Z :=
  s ← get_self;
  if config_ =? config s then mret OK else
  cdcecm_resetconfig;;
  if config_ =? CDCECM_CONFIGID_NONE then mret OK else
  if negb (config_ =? CDCECM_CONFIGID) then mret (- EINVAL) else
  s ← get_self;
  ret ← EP_CONFIGURE EPINT (local_epdesc CDCECM_EP_INTIN_IDX s) false;
  if ret <? 0 then cdcecm_resetconfig;; mret ret else
  ret ← EP_CONFIGURE EPBULKIN (local_epdesc CDCECM_EP_BULKIN_IDX s) false;
  if ret <? 0 then cdcecm_resetconfig;; mret ret else
  ret ← EP_CONFIGURE EPBULKOUT (local_epdesc CDCECM_EP_BULKOUT_IDX s) true;
  if ret <? 0 then cdcecm_resetconfig;; mret ret else
  (* Queue read requests in the bulk OUT endpoint *)
  s ← get_self;
  DEBUGASSERT cfg (negb (rxpending s));;
  ret ← EP_SUBMIT EPBULKOUT (rdreq s);
  if negb (ret =? OK) then cdcecm_resetconfig;; mret ret else
  (* We are successfully configured *)
  update (set_config config_);;
  update_dev (set_d_mac [0x00; 0xe0; 0xde; 0xad; 0xbe; 0xef]);;
  up ← cdcecm_ifup;
  (if up =? OK
   then update_dev (fun d => set_d_flags (Z.lor (d_flags d) IFF_UP) d)
   else mret tt);;
  mret OK.

(** ** cdcecm_setinterface *)

Definition cdcecm_setinterface (interface altsetting : Z) : op Z :=
  call Call_netdev_carrier_on;;
  update_dev (netdev_carrier_on env);;
  mret OK.

(** ** cdcecm_getdescriptor *)

Definition g_devdesc : list Z :=
  [ Z.of_nat USB_SIZEOF_DEVDESC;
    USB_DESC_TYPE_DEVICE;
    LSBYTE 0x0200; MSBYTE 0x0200;
    USB_CLASS_CDC;
    CDC_SUBCLASS_ECM;
    CDC_PROTO_NONE;
    CONFIG_CDCECM_EP0MAXPACKET cfg;
    LSBYTE (CONFIG_CDCECM_VENDORID cfg); MSBYTE (CONFIG_CDCECM_VENDORID cfg);
    LSBYTE (CONFIG_CDCECM_PRODUCTID cfg); MSBYTE (CONFIG_CDCECM_PRODUCTID cfg);
    LSBYTE CDCECM_VERSIONNO; MSBYTE CDCECM_VERSIONNO;
    CDCECM_MANUFACTURERSTRID;
    CDCECM_PRODUCTSTRID;
    CDCECM_SERIALSTRID;
    CDCECM_NCONFIGS ].

(** [desc] is the buffer the descriptor is copied into; the result is
    [None] when an assertion of [cdcecm_mkcfgdesc] fails. *)
Definition cdcecm_getdescriptor (s : cdcecm_driver_s) (type index : Z)
    (desc : buffer) : option (Z * buffer) :=
  if negb (CONFIG_CDCECM_COMPOSITE cfg) && (type =? USB_DESC_TYPE_DEVICE)
  then Some (usbdev_copy_devdesc env g_devdesc (usbdev_speed s) desc)
  else if (CONFIG_USBDEV_DUALSPEED cfg
           && (type =? USB_DESC_TYPE_OTHERSPEEDCONFIG))
          || (type =? USB_DESC_TYPE_CONFIG)
  then cdcecm_mkcfgdesc cfg (Some 0%nat) (devinfo s) (usbdev_speed s) type desc
  else if type =? USB_DESC_TYPE_STRING
  then Some (cdcecm_mkstrdesc cfg index 0%nat desc)
  else Some (- ENOTSUP, desc).

(** ** cdcecm_setup *)

Definition cdcecm_setup (usbdev : usbdev_s) (ctrl : usb_ctrlreq_s) : op Z :=
  let value := GETUINT16 (ctrl_value ctrl) in
  let index := GETUINT16 (ctrl_index ctrl) in
  let len := GETUINT16 (ctrl_len ctrl) in
  let ret := - EOPNOTSUPP in
  ret ←
    (if Z.land (ctrl_type ctrl) USB_REQ_TYPE_MASK =? USB_REQ_TYPE_STANDARD then
       if ctrl_req ctrl =? USB_REQ_GETDESCRIPTOR then
         let descindex := fst (ctrl_value ctrl) in
         let desctype := snd (ctrl_value ctrl) in
         update (set_usbdev_speed (speed usbdev));;
         s ← get_self;
         match cdcecm_getdescriptor s desctype descindex (req_buf (ctrlreq s))
         with
         | None => panic
         | Some (ret, m) =>
             update (fun s => set_ctrlreq (set_req_buf m (ctrlreq s)) s);;
             mret ret
         end
       else if ctrl_req ctrl =? USB_REQ_SETCONFIGURATION then
         cdcecm_setconfig (uint8 value)
       else if ctrl_req ctrl =? USB_REQ_SETINTERFACE then
         cdcecm_setinterface index value
       else mret ret
     else if Z.land (ctrl_type ctrl) USB_REQ_TYPE_MASK =? USB_REQ_TYPE_CLASS
     then
       if ctrl_req ctrl =? ECM_SET_PACKET_FILTER then mret OK else mret ret
     else mret ret);
  if ret >=? 0 then
    update (fun s =>
      set_ctrlreq (set_req_len (Z.min len ret) (ctrlreq s)) s);;
    update (fun s =>
      set_ctrlreq (set_req_flags USBDEV_REQFLAGS_NULLPKT (ctrlreq s)) s);;
    s ← get_self;
    ret ←
      (if negb (CONFIG_CDCECM_COMPOSITE cfg)
       then EP_SUBMIT EP0 (ctrlreq s)
       else call (Call_composite_ep0submit (ctrlreq s));;
            mret (composite_ep0submit_status env));
    (if ret <? 0
     then update (fun s => set_ctrlreq (set_req_result OK (ctrlreq s)) s)
          (* cdcecm_ep0incomplete only logs *)
     else mret tt);;
    mret ret
  else mret ret.

End Driver.

(** ** Sample configuration, collaborators and driver states *)

Definition sample_kconfig_with (mxdesclen : Z) : kconfig := {|
  CONFIG_CDCECM_COMPOSITE := false;
  CONFIG_COMPOSITE_IAD := false;
  CONFIG_USBDEV_SUPERSPEED := true;
  CONFIG_USBDEV_DUALSPEED := true;
  CONFIG_BOARD_USBDEV_SERIALSTR := false;
  CONFIG_DEBUG_ASSERTIONS := false;
  CONFIG_NET_PKT := true;
  CONFIG_NET_IPv4 := true;
  CONFIG_NET_IPv6 := true;
  CONFIG_NET_ARP := true;
  CONFIG_CDCECM_EP0MAXPACKET := 64;
  CONFIG_CDCECM_VENDORID := 0x0525;
  CONFIG_CDCECM_PRODUCTID := 0xa4a2;
  CONFIG_CDCECM_EPINTIN_FSSIZE := 16;
  CONFIG_CDCECM_EPINTIN_HSSIZE := 64;
  CONFIG_CDCECM_EPINTIN_SSSIZE := 64;
  CONFIG_CDCECM_EPBULKIN_FSSIZE := 64;
  CONFIG_CDCECM_EPBULKIN_HSSIZE := 512;
  CONFIG_CDCECM_EPBULKIN_SSSIZE := 1024;
  CONFIG_CDCECM_EPBULKOUT_FSSIZE := 64;
  CONFIG_CDCECM_EPBULKOUT_HSSIZE := 512;
  CONFIG_CDCECM_EPBULKOUT_SSSIZE := 1024;
  CONFIG_CDCECM_EPINTIN_MAXBURST := 0;
  CONFIG_CDCECM_EPBULKIN_MAXBURST := 0;
  CONFIG_CDCECM_EPBULKOUT_MAXBURST := 0;
  CONFIG_CDCECM_EPBULKIN_MAXSTREAM := 0;
  CONFIG_CDCECM_EPBULKOUT_MAXSTREAM := 0;
  CONFIG_USBDEV_MAXPOWER := 100;
  CONFIG_NET_ETH_PKTSIZE := 590;
  CONFIG_CDCECM_VENDORSTR := "NuttX";
  CONFIG_CDCECM_PRODUCTSTR := "CDC/ECM Ethernet";
  board_usbdev_serialstr := "0";
  CDCECM_MXDESCLEN := mxdesclen;
  USB_SS_INT_EP_MAXBURST := 1;
  USB_SS_BULK_EP_MAXBURST := 16;
  USB_SS_BULK_EP_MAXSTREAM := 16
|}.

Definition sample_kconfig : kconfig := sample_kconfig_with 128.

(** A stack whose inputs hand the frame back as the reply. *)
Definition sample_collaborators (configure submit : endpoint -> Z)
    : collaborators := {|
  pkt_input := fun d => d;
  ipv4_input := fun d => d;
  ipv6_input := fun d => d;
  arp_input := fun d => d;
  netdev_carrier_on := fun d => d;
  usbdev_copy_devdesc := fun _ _ m => (Z.of_nat USB_SIZEOF_DEVDESC, m);
  EP_CONFIGURE_status := configure;
  EP_SUBMIT_status := submit;
  composite_ep0submit_status := OK
|}.

Definition sample_devinfo : usbdev_devinfo_s := {|
  ninterfaces := 2; ifnobase := 0; nstrings := 5; strbase := 0;
  nendpoints := 3; epno := fun idx => idx + 1
|}.

Definition empty_req : usbdev_req_s := {|
  req_buf := ∅; req_len := 0; req_xfrd := 0; req_result := 0; req_flags := 0
|}.

(** The driver after [cdcecm_classobject] and [cdcecm_bind]: not
    configured, the write request idle. *)
Definition bound_driver : cdcecm_driver_s := {|
  usbdev_speed := USB_SPEED_HIGH;
  devinfo := sample_devinfo;
  ctrlreq := empty_req;
  config := CDCECM_CONFIGID_NONE;
  rdreq := empty_req;
  rxpending := false;
  wrreq := empty_req;
  wrreq_idle := 1;
  txdone := false;
  bifup := false;
  irqwork := false;
  pollwork := false;
  dev := {| d_buf := ∅; d_len := 0; d_flags := 0;
            d_mac := [0x00; 0xe0; 0xde; 0xad; 0xbe; 0xef];
            d_statistics := {| rx_ipv4 := 0; rx_ipv6 := 0; rx_arp := 0;
                               rx_dropped := 0; tx_packets := 0;
                               tx_done := 0 |} |}
|}.

Definition idle_ep : usbdev_ep_s :=
  {| ep_configured := false; ep_pending := false |}.

Definition bound_world : world := {|
  self := bound_driver;
  epint := idle_ep; epbulkin := idle_ep; epbulkout := idle_ep;
  trace := []
|}.

(** The world after a successful SET_CONFIGURATION. *)
Definition active_world : world :=
  match cdcecm_setconfig sample_kconfig
          (sample_collaborators (fun _ => OK) (fun _ => OK))
          CDCECM_CONFIGID bound_world with
  | Done _ w => set_trace [] w
  | Blocked w | Panic w => w
  end.

(** A frame of [n] bytes whose Ethernet type field is [type]. *)
Definition frame (type : Z) (n : nat) : buffer :=
  <[12%nat := Z.shiftr type 8]>
    (<[13%nat := Z.land type 0xff]>
       (list_to_map (List.map (fun i => (i, 0)) (seq 0 n)))).

(** The world when a read request completed with [n] bytes of [type]. *)
Definition received_world (w : world) (type : Z) (n : nat) : world :=
  set_self
    (set_rxpending true
       (set_rdreq {| req_buf := frame type n; req_len := 1518;
                     req_xfrd := Z.of_nat n; req_result := 0;
                     req_flags := 0 |} (self w))) w.

(** A GET_DESCRIPTOR request for the BOS descriptor (type 0x0f). *)
Definition get_descriptor_bos : usb_ctrlreq_s := {|
  ctrl_type := 0x80; ctrl_req := USB_REQ_GETDESCRIPTOR;
  ctrl_value := (0, 0x0f); ctrl_index := (0, 0); ctrl_len := (64, 0)
|}.

(** ** Definitions used to state the properties of the receive path *)




End Cdcecm.

(** * drivers/usbdev/cdcecm.c: the work functions and the poll callback *)

Module CdcecmWork.

Import Cdcecm.

Definition NETDEV_TXDONE (d : net_driver_s) : net_driver_s :=
  let s := d_statistics d in
  set_d_statistics
    {| rx_ipv4 := rx_ipv4 s; rx_ipv6 := rx_ipv6 s; rx_arp := rx_arp s;
       rx_dropped := rx_dropped s; tx_packets := tx_packets s;
       tx_done := tx_done s + 1 |} d.

(** Modelled from the spec: [devif_poll] of the network stack, which
    "drives a poll-for-outgoing-data pass that the core must answer
    synchronously within the poll call".  [ready] is what the stack has to
    send, each entry writing one frame into the device record; a frame is
    handed to the callback, and the pass ends at the first callback that
    returns a non-zero value. *)
Fixpoint devif_poll (ready : list (net_driver_s -> net_driver_s))
    (callback : op Z) : op Z :=
  match ready with
  | [] => mret 0
  | f :: rest =>
      update_dev f;;
      bstop ← callback;
      if bstop =? 0 then devif_poll rest callback else mret bstop
  end.

(** [work_available(&priv->pollwork)] *)
Definition work_available (slot : work_slot) (s : cdcecm_driver_s) : bool :=
  match slot with
  | IRQWORK => negb (irqwork s)
  | POLLWORK => negb (pollwork s)
  end.

Section Work.

Variable cfg : kconfig.
Variable env : collaborators.

(** What the network stack has ready to send when it is polled. *)
Variable ready : list (net_driver_s -> net_driver_s).

(** ** cdcecm_txpoll *)

Definition cdcecm_txpoll : op Z :=
  cdcecm_transmit env;;
  mret 1.

(** ** cdcecm_txdone *)

Definition cdcecm_txdone : op unit :=
  update_dev NETDEV_TXDONE;;
  devif_poll ready cdcecm_txpoll;;
  mret tt.

(** ** cdcecm_interrupt_work

    The work functions run one at a time on the worker thread, with the
    network locked; [net_lock], [net_unlock] and the critical sections
    leave no trace in this sequential model. *)

Definition cdcecm_interrupt_work : op unit :=
  s ← get_self;
  (if rxpending s then
     cdcecm_receive cfg env;;
     update (set_rxpending false);;
     s ← get_self;
     EP_SUBMIT env EPBULKOUT (rdreq s);;
     mret tt
   else mret tt);;
  s ← get_self;
  if txdone s then
    update (set_txdone false);;
    cdcecm_txdone
  else mret tt.

(** ** cdcecm_txavail_work *)

Definition cdcecm_txavail_work : op unit :=
  s ← get_self;
  if bifup s then devif_poll ready cdcecm_txpoll;; mret tt
  else mret tt.

(** ** cdcecm_txavail *)

Definition cdcecm_txavail : op Z :=
  s ← get_self;
  (if work_available POLLWORK s then work_queue POLLWORK else mret tt);;
  mret OK.

End Work.

#[export] Instance endpoint_eq_dec : EqDecision endpoint.
Proof. solve_decision. Defined.

(** The world an operation stops in, however it stops. *)
Definition final_world {A : Type} (o : outcome A) : world :=
  match o with
  | Done _ w => w
  | Blocked w => w
  | Panic w => w
  end.

(** The requests of a trace that were submitted on an endpoint. *)
Definition submissions (ep : endpoint) (t : list event) : list usbdev_req_s :=
  omap (fun e => match e with
                 | Call_EP_SUBMIT ep' req =>
                     if decide (ep' = ep) then Some req else None
                 | _ => None
                 end) t.
Arguments submissions : simpl never.

(** The endpoints a trace disables, in order. *)
Definition disabled (t : list event) : list endpoint :=
  omap (fun e => match e with
                 | Call_EP_DISABLE ep => Some ep
                 | _ => None
                 end) t.
Arguments disabled : simpl never.

(** What the transmit and receive paths leave alone: the receive side of
    the driver and the bulk OUT endpoint. *)
Definition keeps_rx_side (w w' : world) : Prop :=
  rxpending (self w') = rxpending (self w) /\
  txdone (self w') = txdone (self w) /\
  rdreq (self w') = rdreq (self w) /\
  bifup (self w') = bifup (self w) /\
  config (self w') = config (self w) /\
  irqwork (self w') = irqwork (self w) /\
  pollwork (self w') = pollwork (self w) /\
  epbulkout w' = epbulkout w /\
  submissions EPBULKOUT (trace w') = submissions EPBULKOUT (trace w).
Arguments keeps_rx_side : simpl never.

End CdcecmWork.

(** * drivers/usbdev/cdcecm.c: reading descriptors back, and the composite
      device description *)

Module CdcecmDesc.

Import Cdcecm.

(** The descriptors a host finds in a buffer: from [off], each descriptor
    begins with its length and its type, and the next one follows it.
    [fuel] bounds the number of descriptors read. *)
Fixpoint descriptors (fuel : nat) (m : buffer) (off : nat) : list (Z * Z) :=
  match fuel with
  | O => []
  | S fuel' =>
      match m !! off, m !! S off with
      | Some len, Some type =>
          if len <=? 0 then []
          else (len, type) :: descriptors fuel' m (off + Z.to_nat len)
      | _, _ => []
      end
  end.

(** The 16-bit little-endian value at [off]. *)
Definition read16 (m : buffer) (off : nat) : Z :=
  default 0 (m !! off) + 256 * default 0 (m !! S off).

(** The characters of a string descriptor at [strdesc], as a host decodes
    them: the low bytes of the 16-bit units after the two-byte header. *)
Definition decode_strdesc (m : buffer) (strdesc : nat) : list Z :=
  let len := Z.to_nat (default 0 (m !! strdesc)) in
  List.map (fun i => read16 m (strdesc + 2 + 2 * i))
           (seq 0 ((len - 2) / 2)).

(** The characters of a C string. *)
Definition chars (s : string) : list Z :=
  List.map (char_at s) (seq 0 (strlen s)).

(** ** cdcecm_get_composite_devdesc (compiled under CONFIG_CDCECM_COMPOSITE)

    The members of [struct composite_devdesc_s] that the function computes
    from this file; [cfgdescsize] is [None] when the length assertion of
    [cdcecm_mkcfgdesc] fails.  The function passes a null [devinfo], which
    the pass without a buffer does not read. *)
Record composite_devdesc_s := {
  nconfigs : Z;
  configid : Z;
  cfgdescsize : option Z;
  devinfo_ninterfaces : Z
}.

Definition cdcecm_get_composite_devdesc (cfg : kconfig)
    (null_devinfo : usbdev_devinfo_s) : composite_devdesc_s := {|
  nconfigs := CDCECM_NCONFIGS;
  configid := CDCECM_CONFIGID;
  cfgdescsize :=
    option_map fst
      (cdcecm_mkcfgdesc cfg None null_devinfo USB_SPEED_UNKNOWN 0 ∅);
  devinfo_ninterfaces := CDCECM_NINTERFACES
|}.

(** A composite build with interface association descriptors. *)
Definition sample_composite_kconfig : kconfig := {|
  CONFIG_CDCECM_COMPOSITE := true;
  CONFIG_COMPOSITE_IAD := true;
  CONFIG_USBDEV_SUPERSPEED := true;
  CONFIG_USBDEV_DUALSPEED := true;
  CONFIG_BOARD_USBDEV_SERIALSTR := false;
  CONFIG_DEBUG_ASSERTIONS := true;
  CONFIG_NET_PKT := false;
  CONFIG_NET_IPv4 := true;
  CONFIG_NET_IPv6 := false;
  CONFIG_NET_ARP := true;
  CONFIG_CDCECM_EP0MAXPACKET := 64;
  CONFIG_CDCECM_VENDORID := 0x0525;
  CONFIG_CDCECM_PRODUCTID := 0xa4a2;
  CONFIG_CDCECM_EPINTIN_FSSIZE := 16;
  CONFIG_CDCECM_EPINTIN_HSSIZE := 64;
  CONFIG_CDCECM_EPINTIN_SSSIZE := 64;
  CONFIG_CDCECM_EPBULKIN_FSSIZE := 64;
  CONFIG_CDCECM_EPBULKIN_HSSIZE := 512;
  CONFIG_CDCECM_EPBULKIN_SSSIZE := 1024;
  CONFIG_CDCECM_EPBULKOUT_FSSIZE := 64;
  CONFIG_CDCECM_EPBULKOUT_HSSIZE := 512;
  CONFIG_CDCECM_EPBULKOUT_SSSIZE := 1024;
  CONFIG_CDCECM_EPINTIN_MAXBURST := 0;
  CONFIG_CDCECM_EPBULKIN_MAXBURST := 0;
  CONFIG_CDCECM_EPBULKOUT_MAXBURST := 0;
  CONFIG_CDCECM_EPBULKIN_MAXSTREAM := 0;
  CONFIG_CDCECM_EPBULKOUT_MAXSTREAM := 0;
  CONFIG_USBDEV_MAXPOWER := 100;
  CONFIG_NET_ETH_PKTSIZE := 590;
  CONFIG_CDCECM_VENDORSTR := "NuttX";
  CONFIG_CDCECM_PRODUCTSTR := "CDC/ECM Ethernet";
  board_usbdev_serialstr := "0";
  CDCECM_MXDESCLEN := 128;
  USB_SS_INT_EP_MAXBURST := 1;
  USB_SS_BULK_EP_MAXBURST := 16;
  USB_SS_BULK_EP_MAXSTREAM := 16
|}.

End CdcecmDesc.

(** * drivers/syslog/syslog_channel.c *)

Module Syslog.

Definition OK : Z := 0.
Definition EINVAL : Z := 22.

(** A channel is identified by the address of its
    [struct syslog_channel_s]; [None] is the null pointer. *)
Abbreviation channel := nat.

(** [g_syslog_channel]: CONFIG_SYSLOG_MAX_CHANNELS pointers. *)
Abbreviation channel_table := (list (option channel)).

Section Channels.

Variable CONFIG_SYSLOG_MAX_CHANNELS : nat.
Variable CONFIG_DEBUG_ASSERTIONS : bool.

(** Whether [sc_putc] and [sc_force] of a channel's operations are set. *)
Variable sc_ops_set : channel -> bool.

(** The [for] loop of [syslog_channel], [count] slots from [i] on. *)
Fixpoint syslog_channel_loop (count i : nat) (ch : channel)
    (g : channel_table) : Z * channel_table :=
  match count with
  | O => (- EINVAL, g)
  | S count' =>
      match g !! i with
      | Some None => (OK, <[i := Some ch]> g)
      | Some (Some c) =>
          if decide (c = ch) then (OK, g)
          else syslog_channel_loop count' (S i) ch g
      | None => (- EINVAL, g)          (* outside the array, not reached *)
      end
  end.

(** The result is [None] when a debug assertion fails. *)
Definition syslog_channel (ch : option channel) (g : channel_table)
    : option (Z * channel_table) :=
  match ch with
  | None =>
      if CONFIG_DEBUG_ASSERTIONS then None else Some (- EINVAL, g)
  | Some c =>
      if CONFIG_DEBUG_ASSERTIONS && negb (sc_ops_set c) then None
      else if (CONFIG_SYSLOG_MAX_CHANNELS =? 1)%nat
      then Some (OK, <[0%nat := Some c]> g)
      else Some (syslog_channel_loop CONFIG_SYSLOG_MAX_CHANNELS 0 c g)
  end.

(** The [while] loop of [syslog_channel_remove] and the store after it;
    [n] is [CONFIG_SYSLOG_MAX_CHANNELS - 1 - i]. *)
Fixpoint shift_back (n i : nat) (g : channel_table) : channel_table :=
  match n with
  | O => <[i := None]> g
  | S n' =>
      match g !! S i with
      | Some (Some next) => shift_back n' (S i) (<[i := Some next]> g)
      | _ => <[i := None]> g
      end
  end.

(** The [for] loop of [syslog_channel_remove], [count] slots from [i] on. *)
Fixpoint syslog_channel_remove_loop (count i : nat) (ch : channel)
    (g : channel_table) : Z * channel_table :=
  match count with
  | O => (- EINVAL, g)
  | S count' =>
      match g !! i with
      | Some (Some c) =>
          if decide (c = ch) then (OK, shift_back count' i g)
          else syslog_channel_remove_loop count' (S i) ch g
      | _ => syslog_channel_remove_loop count' (S i) ch g
      end
  end.

Definition syslog_channel_remove (ch : option channel) (g : channel_table)
    : option (Z * channel_table) :=
  match ch with
  | None =>
      if CONFIG_DEBUG_ASSERTIONS then None else Some (- EINVAL, g)
  | Some c =>
      Some (syslog_channel_remove_loop CONFIG_SYSLOG_MAX_CHANNELS 0 c g)
  end.

End Channels.

(** A table without holes: the channels [cs] followed by [k] null
    pointers. *)
Definition table (cs : list channel) (k : nat) : channel_table :=
  (Some <$> cs) ++ replicate k None.

End Syslog.

(** * arch/arm/src/armv8-m/arm_ramvec_initialize.c *)

Module Ramvec.

(** Memory and memory-mapped registers: 32-bit words by address; a word
    never written reads as 0. *)
Abbreviation memory := (gmap Z Z).

Definition load32 (a : Z) (m : memory) : Z := default 0 (m !! a).

Section Initialize.

Variable ARMV8M_VECTAB_SIZE : nat.
Variable NVIC_VECTAB : Z.
Variable NVIC_VECTAB_TBLOFF_MASK : Z.
Variable CONFIG_DEBUG_ASSERTIONS : bool.

(** The address the linker script gives [g_ram_vectors]. *)
Variable g_ram_vectors : Z.

(** The bits of the vector table offset register that the part
    implements; the others read as zero ("the number bits required to
    align the RAM vector table seem to vary from part-to-part"). *)
Variable implemented_bits : Z.

Definition getreg32 (a : Z) (m : memory) : Z := load32 a m.

Definition putreg32 (v a : Z) (m : memory) : memory :=
  if a =? NVIC_VECTAB then <[a := Z.land v implemented_bits]> m
  else <[a := v]> m.

(** [for (i = 0; i < ARMV8M_VECTAB_SIZE; i++) { *dest++ = *src++; }]
    with [count] iterations left; a vector takes four bytes. *)
Fixpoint copy_loop (count : nat) (src dest : Z) (m : memory) : memory :=
  match count with
  | O => m
  | S count' => copy_loop count' (src + 4) (dest + 4) (<[dest := load32 src m]> m)
  end.

(** The result is [None] when a debug assertion fails. *)
Definition arm_ramvec_initialize (m : memory) : option memory :=
  if CONFIG_DEBUG_ASSERTIONS
     && negb (Z.land g_ram_vectors (Z.lnot NVIC_VECTAB_TBLOFF_MASK) =? 0)
  then None
  else
    let src := getreg32 NVIC_VECTAB m in
    let dest := g_ram_vectors in
    let m := copy_loop ARMV8M_VECTAB_SIZE src dest m in
    let m := putreg32 g_ram_vectors NVIC_VECTAB m in
    if CONFIG_DEBUG_ASSERTIONS
       && negb (getreg32 NVIC_VECTAB m =? g_ram_vectors)
    then None
    else Some m.

End Initialize.

End Ramvec.

(** * drivers/usbdev/cdcecm.c: cdcecm_bind and cdcecm_unbind *)

Module CdcecmBind.

Import Cdcecm.

(** Modelled from the spec: the values of [errno.h] for "resource
    exhaustion" at bind time. *)
Definition ENOMEM : Z := 12.
Definition ENODEV : Z := 19.

(** What [cdcecm_bind] obtains from the controller: the control request,
    the three endpoints, the read request and the write request. *)
Inductive resource :=
  | CTRLREQ | RES_EPINT | RES_EPBULKIN | RES_EPBULKOUT | RDREQ | WRREQ.

#[export] Instance resource_eq_dec : EqDecision resource.
Proof. solve_decision. Defined.

Inductive bind_event :=
  | Call_alloc (r : resource)
  | Call_free (r : resource)
  | Call_up_mdelay
  | Call_DEV_CONNECT.

(** The driver at bind time: its state, which of its six pointers are
    non-null, what the controller has handed out and not got back, and
    the calls made to the controller. *)
Record bind_state := {
  drv : world;
  ptr : resource -> bool;
  live : resource -> bool;
  calls : list bind_event
}.

Definition set_res (f : resource -> bool) (r : resource) (b : bool)
    : resource -> bool :=
  fun r' => if decide (r' = r) then b else f r'.

Definition set_drv (w : world) (s : bind_state) : bind_state :=
  {| drv := w; ptr := ptr s; live := live s; calls := calls s |}.

Definition add_call (e : bind_event) (s : bind_state) : bind_state :=
  {| drv := drv s; ptr := ptr s; live := live s; calls := calls s ++ [e] |}.

Section Bind.

Variable cfg : kconfig.
Variable env : collaborators.

(** Modelled from the spec: "endpoint or request-buffer allocation
    failure at bind time"; whether the controller can satisfy an
    allocation, and the status of [nxsem_init]. *)
Variable alloc_ok : resource -> bool.
Variable nxsem_init_status : Z.

(** [self->x = usbdev_allocreq(...)] or [self->x = DEV_ALLOCEP(...)]:
    the pointer is null when the allocation fails. *)
Definition do_alloc (r : resource) (s : bind_state) : bind_state :=
  {| drv := drv s;
     ptr := set_res (ptr s) r (alloc_ok r);
     live := if alloc_ok r then set_res (live s) r true else live s;
     calls := calls s ++ [Call_alloc r] |}.

(** [if (self->x != NULL) { free(self->x); self->x = NULL; }] *)
Definition do_free (r : resource) (s : bind_state) : bind_state :=
  if ptr s r then
    {| drv := drv s;
       ptr := set_res (ptr s) r false;
       live := set_res (live s) r false;
       calls := calls s ++ [Call_free r] |}
  else s.

(** ** cdcecm_unbind

    The result is [None] when [cdcecm_resetconfig] does not return. *)
Definition cdcecm_unbind (s : bind_state) : option bind_state :=
  match cdcecm_resetconfig cfg env (drv s) with
  | Done _ w =>
      let s := add_call Call_up_mdelay (set_drv w s) in
      let s := do_free RES_EPINT s in
      let s := do_free CTRLREQ s in
      let s := do_free RDREQ s in
      let s := do_free RES_EPBULKOUT s in
      let s := do_free WRREQ s in
      let s := do_free RES_EPBULKIN s in
      let w := drv s in
      Some (set_drv
              (set_self (set_dev (set_d_len 0 (dev (self w))) (self w)) w) s)
  | Blocked _ | Panic _ => None
  end.

(** ** cdcecm_bind *)

(** [error: cdcecm_unbind(driver, dev); return ret;] *)
Definition bind_error (ret : Z) (s : bind_state) : option (Z * bind_state) :=
  match cdcecm_unbind s with
  | Some s' => Some (ret, s')
  | None => None
  end.

Definition cdcecm_bind (s : bind_state) : option (Z * bind_state) :=
  let s := do_alloc CTRLREQ s in
  if negb (ptr s CTRLREQ) then bind_error (- ENOMEM) s else
  let s := do_alloc RES_EPINT s in
  let s := do_alloc RES_EPBULKIN s in
  let s := do_alloc RES_EPBULKOUT s in
  if negb (ptr s RES_EPINT) || negb (ptr s RES_EPBULKIN)
     || negb (ptr s RES_EPBULKOUT)
  then bind_error (- ENODEV) s else
  let s := do_alloc RDREQ s in
  if negb (ptr s RDREQ) then bind_error (- ENOMEM) s else
  let s := do_alloc WRREQ s in
  if negb (ptr s WRREQ) then bind_error (- ENOMEM) s else
  (* ret = nxsem_init(&self->wrreq_idle, 0, 1); *)
  let ret := nxsem_init_status in
  if negb (ret =? OK) then bind_error ret s else
  let w := drv s in
  let d :=
    set_dev (set_d_len 0 (dev (self w)))
      (set_txdone false (set_wrreq_idle 1 (self w))) in
  let s := set_drv (set_self d w) s in
  let s := if negb (CONFIG_CDCECM_COMPOSITE cfg)
           then add_call Call_DEV_CONNECT s else s in
  Some (OK, s).

(** What [cdcecm_bind] returns, by the first step that fails. *)
Definition bind_status : Z :=
  if negb (alloc_ok CTRLREQ) then - ENOMEM
  else if negb (alloc_ok RES_EPINT && alloc_ok RES_EPBULKIN
                && alloc_ok RES_EPBULKOUT) then - ENODEV
  else if negb (alloc_ok RDREQ && alloc_ok WRREQ) then - ENOMEM
  else nxsem_init_status.

End Bind.

(** The resources freed by a sequence of calls, in order. *)
Definition freed (t : list bind_event) : list resource :=
  omap (fun e => match e with Call_free r => Some r | _ => None end) t.

(** The driver structure as [kmm_zalloc] leaves it in
    [cdcecm_classobject]: no pointer set, nothing allocated. *)
Definition fresh (w : world) : bind_state :=
  {| drv := w; ptr := fun _ => false; live := fun _ => false; calls := [] |}.

End CdcecmBind.

(** * Proofs for libs/libc/string/lib_memmem.c *)

Import Memmem.

Lemma u8_range b : 0 <= u8 b < 256.
Proof.
  unfold u8. pose proof (Byte.to_N_bounded b). lia.
Qed.

Lemma u8_inj a b : u8 a = u8 b -> a = b.
Proof.
  unfold u8. intros H. apply N2Z.inj in H.
  pose proof (Byte.of_to_N a) as Ha. pose proof (Byte.of_to_N b) as Hb.
  rewrite H in Ha. congruence.
Qed.

Lemma deref_range p i : 0 <= deref p i < 256.
Proof. apply u8_range. Qed.

Lemma int_wrap_small z : - 2 ^ 31 <= z < 2 ^ 31 -> int_wrap z = z.
Proof.
  intros H. unfold int_wrap. rewrite Z.mod_small by lia. lia.
Qed.

Lemma int_wrap_add a b : int_wrap (int_wrap a + b) = int_wrap (a + b).
Proof.
  unfold int_wrap.
  replace ((a + 2 ^ 31) mod 2 ^ 32 - 2 ^ 31 + b + 2 ^ 31)
    with ((a + 2 ^ 31) mod 2 ^ 32 + b) by lia.
  rewrite Zplus_mod_idemp_l. f_equal. f_equal. lia.
Qed.

Lemma int_wrap_sub a b : int_wrap (int_wrap a - b) = int_wrap (a - b).
Proof.
  rewrite <- !Z.add_opp_r. apply int_wrap_add.
Qed.

Lemma int_wrap_zero_small z : - 256 < z < 256 -> (int_wrap z = 0 <-> z = 0).
Proof.
  intros H. rewrite int_wrap_small by lia. tauto.
Qed.

Lemma to_uint_small n : Z.of_nat n < 2 ^ 32 -> to_uint n = n.
Proof.
  intros H. unfold to_uint. rewrite Z.mod_small by lia. lia.
Qed.

Lemma rsum_head p len : forall s,
  rsum p s (S len) = deref p s + rsum p (S s) len.
Proof.
  induction len as [|len IH]; intros s.
  - simpl. rewrite Nat.add_0_r. lia.
  - change (rsum p s (S (S len)))
      with (rsum p s (S len) + deref p (s + S len)).
    rewrite IH. simpl rsum.
    replace (s + S len)%nat with (S (s + len)) by lia. lia.
Qed.

Lemma rsum_ext p q len : forall s s',
  (forall t, (t < len)%nat -> deref p (s + t) = deref q (s' + t)) ->
  rsum p s len = rsum q s' len.
Proof.
  induction len as [|len IH]; intros s s' H; simpl; [reflexivity|].
  rewrite (IH s s') by (intros; apply H; lia).
  rewrite H by lia. reflexivity.
Qed.

Lemma rsum_split p s m len :
  (m <= len)%nat ->
  rsum p s len = rsum p s m + rsum p (s + m) (len - m).
Proof.
  intros Hm. replace len with (m + (len - m))%nat at 1 by lia.
  generalize (len - m)%nat as b. intros b.
  induction b as [|b IHb].
  - rewrite Nat.add_0_r. simpl. lia.
  - rewrite Nat.add_succ_r. simpl. rewrite IHb.
    replace (s + (m + b))%nat with (s + m + b)%nat by lia. lia.
Qed.

(** Difference of the sums when the two areas agree except at offset [m]. *)
Lemma rsum_diff_single p q len : forall s s' m,
  (m < len)%nat ->
  (forall t, (t < len)%nat -> t <> m -> deref p (s + t) = deref q (s' + t)) ->
  rsum p s len - rsum q s' len = deref p (s + m) - deref q (s' + m).
Proof.
  induction len as [|len IH]; intros s s' m Hm H; [lia|].
  simpl. destruct (decide (m = len)) as [->|Hne].
  - rewrite (rsum_ext p q len s s') by (intros; apply H; lia). lia.
  - rewrite (H len) by lia.
    specialize (IH s s' m). rewrite <- IH; [lia | lia |].
    intros; apply H; lia.
Qed.

Lemma be_range p len : forall s, 0 <= be p s len < 256 ^ Z.of_nat len.
Proof.
  induction len as [|len IH]; intros s.
  - simpl. lia.
  - rewrite Nat2Z.inj_succ, Z.pow_succ_r by lia. simpl.
    pose proof (IH s). pose proof (deref_range p (s + len)). lia.
Qed.

Lemma be_head p len : forall s,
  be p s (S len) = deref p s * 256 ^ Z.of_nat len + be p (S s) len.
Proof.
  induction len as [|len IH]; intros s.
  - simpl. rewrite Nat.add_0_r. lia.
  - change (be p s (S (S len)))
      with (be p s (S len) * 256 + deref p (s + S len)).
    rewrite IH. rewrite Nat2Z.inj_succ, Z.pow_succ_r by lia. simpl be.
    replace (s + S len)%nat with (S (s + len)) by lia. lia.
Qed.

Lemma be_ext p q len : forall s s',
  (forall t, (t < len)%nat -> deref p (s + t) = deref q (s' + t)) ->
  be p s len = be q s' len.
Proof.
  induction len as [|len IH]; intros s s' H; simpl; [reflexivity|].
  rewrite (IH s s') by (intros; apply H; lia).
  rewrite H by lia. reflexivity.
Qed.

Lemma be_inj p q len : forall s s',
  be p s len = be q s' len ->
  forall t, (t < len)%nat -> deref p (s + t) = deref q (s' + t).
Proof.
  induction len as [|len IH]; intros s s' H t Ht; [lia|].
  simpl in H.
  pose proof (deref_range p (s + len)) as Rp.
  pose proof (deref_range q (s' + len)) as Rq.
  assert (be p s len = be q s' len /\ deref p (s + len) = deref q (s' + len))
    as [H1 H2] by lia.
  destruct (decide (t = len)) as [->|Hne]; [exact H2|].
  apply IH; [exact H1 | lia].
Qed.

Lemma memcmp_zero_iff s1 s2 n : forall p1 p2,
  memcmp s1 p1 s2 p2 n = 0 <->
  (forall t, (t < n)%nat -> deref s1 (p1 + t) = deref s2 (p2 + t)).
Proof.
  induction n as [|n IH]; intros p1 p2; simpl.
  - split; [intros _ t Ht; lia | reflexivity].
  - destruct (Z.eqb_spec (deref s1 p1) (deref s2 p2)) as [E|E].
    + rewrite IH. split.
      * intros H [|t] Ht; [rewrite !Nat.add_0_r; exact E|].
        rewrite !Nat.add_succ_r. apply (H t). lia.
      * intros H t Ht. specialize (H (S t)).
        rewrite !Nat.add_succ_r in H. apply H. lia.
    + split; [lia|].
      intros H. specialize (H O). rewrite !Nat.add_0_r in H.
      exfalso. apply E, H. lia.
Qed.

Lemma memchr_Some s c n : forall p k,
  memchr s p c n = Some k ->
  (p <= k < p + n)%nat /\ deref s k = c /\
  (forall t, (p <= t < k)%nat -> deref s t <> c).
Proof.
  induction n as [|n IH]; intros p k; simpl; [discriminate|].
  destruct (Z.eqb_spec (deref s p) c) as [E|E].
  - intros [= <-]. repeat split; [lia | lia | exact E | intros; lia].
  - intros H. apply IH in H as (H1 & H2 & H3).
    repeat split; [lia | lia | exact H2 |].
    intros t Ht. destruct (decide (t = p)) as [->|]; [exact E|].
    apply H3. lia.
Qed.

Lemma memchr_None s c n : forall p,
  memchr s p c n = None ->
  forall t, (p <= t < p + n)%nat -> deref s t <> c.
Proof.
  induction n as [|n IH]; intros p; simpl; [intros; lia|].
  destruct (Z.eqb_spec (deref s p) c) as [E|E]; [discriminate|].
  intros H t Ht. destruct (decide (t = p)) as [->|]; [exact E|].
  apply (IH (S p)); [exact H | lia].
Qed.

Section ScanProofs.

Variables hay needle : list byte.

Local Abbreviation n := (length needle).
Local Abbreviation scan := (naive_scan hay needle).
Local Abbreviation occurs := (occurs hay needle).

Lemma sum_loop_spec i : forall a np hp,
  sum_loop hay needle i (int_wrap a) np hp
  = (int_wrap (a + rsum hay hp i - rsum needle np i),
     (np + i)%nat, (hp + i)%nat).
Proof.
  induction i as [|i IH]; intros a np hp.
  - simpl. rewrite !Nat.add_0_r. do 3 f_equal. lia.
  - simpl sum_loop. rewrite int_wrap_sub, int_wrap_add, IH.
    rewrite !rsum_head. f_equal; [f_equal|]; [f_equal| |]; lia.
Qed.

Lemma occurs_iff j :
  occurs j = true <->
  (forall t, (t < n)%nat -> deref hay (j + t) = deref needle t).
Proof.
  unfold occurs. rewrite Z.eqb_eq, memcmp_zero_iff. reflexivity.
Qed.

Lemma rsum_diff_bound p q s s' m :
  - 256 < deref p (s + m) - deref q (s' + m) < 256.
Proof.
  pose proof (deref_range p (s + m)). pose proof (deref_range q (s' + m)).
  lia.
Qed.

(** The sum test plus a comparison of all bytes but one decides the full
    comparison. *)
Lemma sum_check j m :
  (m < n)%nat ->
  (forall t, (t < n)%nat -> t <> m -> deref hay (j + t) = deref needle t) ->
  (int_wrap (rsum hay j n - rsum needle 0 n) = 0 <->
   deref hay (j + m) = deref needle m).
Proof.
  intros Hm H.
  rewrite (rsum_diff_single hay needle n j 0%nat m Hm) by exact H.
  rewrite int_wrap_zero_small by apply rsum_diff_bound.
  simpl. lia.
Qed.

Lemma check_short j sums :
  (1 <= n)%nat ->
  sums = int_wrap (rsum hay j n - rsum needle 0 n) ->
  (sums =? 0) && (memcmp hay j needle 0 (n - 1) =? 0) = occurs j.
Proof.
  intros Hn ->.
  apply eq_true_iff_eq. rewrite !andb_true_iff, !Z.eqb_eq, occurs_iff.
  rewrite memcmp_zero_iff. split.
  - intros [Hs Hc].
    assert (Hrest : forall t, (t < n)%nat -> t <> (n - 1)%nat ->
              deref hay (j + t) = deref needle t).
    { intros t Ht Hne. apply Hc. lia. }
    intros t Ht. destruct (decide (t = (n - 1)%nat)) as [->|Hne].
    + apply (sum_check j (n - 1)); [lia | exact Hrest | exact Hs].
    + apply Hrest; assumption.
  - intros H. split.
    + rewrite (rsum_ext hay needle n j 0%nat) by exact H.
      rewrite Z.sub_diag. reflexivity.
    + intros t Ht. apply H. lia.
Qed.

(** Sliding the summed window by one byte. *)
Lemma slide_sum j a :
  int_wrap (int_wrap (int_wrap (rsum hay j n - a) - deref hay j)
            + deref hay (j + n))
  = int_wrap (rsum hay (S j) n - a).
Proof.
  rewrite int_wrap_sub, int_wrap_add. f_equal.
  pose proof (rsum_head hay n j) as H. simpl in H. lia.
Qed.

Lemma slide_short_correct i : forall j sums,
  (1 <= n)%nat ->
  sums = int_wrap (rsum hay j n - rsum needle 0 n) ->
  slide_short hay needle i (n - 1) sums j (j + n) = scan (S j) i.
Proof.
  induction i as [|i IH]; intros j sums Hn Hs; [reflexivity|].
  simpl slide_short. simpl naive_scan. fold (occurs (S j)).
  subst sums. rewrite slide_sum.
  rewrite (check_short (S j) _ Hn eq_refl).
  destruct (occurs (S j)); [reflexivity|].
  replace (S (j + n)) with (S j + n)%nat by lia.
  apply IH; [exact Hn | reflexivity].
Qed.

(** No occurrence starts where the first byte of the needle is absent. *)
Lemma scan_skip a : forall j b,
  (1 <= n)%nat ->
  (forall t, (j <= t < j + a)%nat -> deref hay t <> deref needle 0) ->
  scan j (a + b) = scan (j + a) b.
Proof.
  induction a as [|a IH]; intros j b Hn H.
  - rewrite Nat.add_0_r. reflexivity.
  - simpl. fold (occurs j).
    destruct (occurs j) eqn:E.
    + exfalso. apply (H j); [lia|].
      rewrite occurs_iff in E. specialize (E 0%nat).
      rewrite Nat.add_0_r in E. apply E. lia.
    + rewrite IH; [f_equal; lia | exact Hn |].
      intros t Ht. apply H. lia.
Qed.

Lemma scan_memchr c : forall j,
  n = 1%nat ->
  memchr hay j (deref needle 0) c = scan j c.
Proof.
  induction c as [|c IH]; intros j Hn; [reflexivity|].
  simpl. rewrite Hn. simpl memcmp.
  destruct (Z.eqb_spec (deref hay j) (deref needle 0)) as [E|E].
  - reflexivity.
  - rewrite IH by exact Hn.
    destruct (Z.eqb_spec (deref hay j - deref needle 0) 0); [lia|reflexivity].
Qed.

Lemma scan_Some c : forall j i,
  scan j c = Some i <->
  (j <= i < j + c)%nat /\ occurs i = true /\
  (forall t, (j <= t < i)%nat -> occurs t = false).
Proof.
  induction c as [|c IH]; intros j i; simpl.
  - split; [discriminate | intros [? _]; lia].
  - fold (occurs j). destruct (occurs j) eqn:E.
    + split.
      * intros [= <-]. repeat split; [lia | lia | exact E | intros; lia].
      * intros (H1 & H2 & H3). f_equal.
        destruct (decide (i = j)) as [->|Hne]; [reflexivity|].
        specialize (H3 j ltac:(lia)). congruence.
    + rewrite IH. split.
      * intros (H1 & H2 & H3). repeat split; [lia | lia | exact H2 |].
        intros t Ht. destruct (decide (t = j)) as [->|]; [exact E|].
        apply H3. lia.
      * intros (H1 & H2 & H3).
        assert (i <> j) by congruence.
        repeat split; [lia | lia | exact H2 |].
        intros t Ht. apply H3. lia.
Qed.

Lemma scan_None c : forall j,
  scan j c = None <-> (forall t, (j <= t < j + c)%nat -> occurs t = false).
Proof.
  induction c as [|c IH]; intros j; simpl.
  - split; [intros; lia | reflexivity].
  - fold (occurs j). destruct (occurs j) eqn:E.
    + split; [discriminate|]. intros H. rewrite H in E by lia. discriminate.
    + rewrite IH. split.
      * intros H t Ht. destruct (decide (t = j)) as [->|]; [exact E|].
        apply H. lia.
      * intros H t Ht. apply H. lia.
Qed.

(** [occurs] is the comparison of the needle with the slice of the
    haystack, when the slice lies inside the haystack. *)
Lemma occurs_slice j :
  (j + n <= length hay)%nat ->
  (occurs j = true <-> firstn n (skipn j hay) = needle).
Proof.
  intros Hj. rewrite occurs_iff. split.
  - intros H. apply nth_ext with (d := x00) (d' := x00).
    + rewrite length_firstn, length_skipn. lia.
    + intros t Ht. rewrite length_firstn, length_skipn in Ht.
      rewrite nth_firstn. destruct (t <? n)%nat eqn:E.
      * rewrite nth_skipn. apply u8_inj. apply H. lia.
      * apply Nat.ltb_ge in E. lia.
  - intros H t Ht. unfold deref.
    assert (E : nth t needle x00 = nth t (firstn n (skipn j hay)) x00)
      by (rewrite H; reflexivity).
    rewrite E, nth_firstn. destruct (t <? n)%nat eqn:E'.
    + rewrite nth_skipn. reflexivity.
    + apply Nat.ltb_ge in E'. lia.
Qed.

Lemma naive_Some i :
  memmem_naive hay needle = Some i <->
  occurs_at hay needle i /\
  (forall t, (t < i)%nat -> ~ occurs_at hay needle t).
Proof.
  unfold memmem_naive, occurs_at.
  destruct (Nat.leb_spec n (length hay)) as [Hh|Hh].
  - rewrite scan_Some. split.
    + intros (H1 & H2 & H3). split.
      * split; [lia|]. apply occurs_slice; [lia | exact H2].
      * intros t Ht [Hb Hs]. apply occurs_slice in Hs; [|exact Hb].
        rewrite H3 in Hs by lia. discriminate.
    + intros [[Hb Hs] Hmin]. repeat split; [lia | lia | |].
      * apply occurs_slice; assumption.
      * intros t Ht. destruct (occurs t) eqn:E; [|reflexivity].
        exfalso. apply (Hmin t ltac:(lia)). split; [lia|].
        apply occurs_slice; [lia | exact E].
  - split; [discriminate|]. intros [[Hb _] _]. lia.
Qed.

Lemma naive_None :
  memmem_naive hay needle = None <->
  (forall i, ~ occurs_at hay needle i).
Proof.
  unfold memmem_naive, occurs_at.
  destruct (Nat.leb_spec n (length hay)) as [Hh|Hh].
  - rewrite scan_None. split.
    + intros H i [Hb Hs]. apply occurs_slice in Hs; [|exact Hb].
      rewrite H in Hs by lia. discriminate.
    + intros H t Ht. destruct (occurs t) eqn:E; [|reflexivity].
      exfalso. apply (H t). split; [lia|].
      apply occurs_slice; [lia | exact E].
  - split; [|reflexivity]. intros _ i [Hb _]. lia.
Qed.

End ScanProofs.

Section WordProofs.

Variable L : nat.
Hypothesis L_pos : (1 <= L)%nat.
Variables hay needle : list byte.

Local Abbreviation M := (ulong_modulus L).
Local Abbreviation n := (length needle).
Local Abbreviation scan := (naive_scan hay needle).
Local Abbreviation occurs := (occurs hay needle).
Local Abbreviation feed := (feed L).

Lemma ulong_modulus_eq : M = 256 ^ Z.of_nat L.
Proof.
  unfold ulong_modulus. rewrite Z.pow_mul_r by lia. reflexivity.
Qed.

Lemma ulong_modulus_split : M = 256 * 256 ^ Z.of_nat (L - 1).
Proof.
  rewrite ulong_modulus_eq. rewrite <- Z.pow_succ_r by lia.
  f_equal. lia.
Qed.

Lemma land_shifted_byte x c : 0 <= c < 256 -> Z.land (256 * x) c = 0.
Proof.
  intros Hc. apply Z.bits_inj'. intros i Hi.
  rewrite Z.land_spec, Z.bits_0.
  destruct (Z.lt_ge_cases i 8) as [Hlt|Hge].
  - replace (256 * x) with (x * 2 ^ 8) by lia.
    rewrite Z.mul_pow2_bits_low by lia. reflexivity.
  - replace (Z.testbit c i) with false; [apply andb_false_r|].
    symmetry. destruct (Z.eq_dec c 0) as [->|Hnz]; [apply Z.bits_0|].
    apply Z.bits_above_log2; [lia|].
    apply Z.log2_lt_pow2; [lia|].
    apply Z.lt_le_trans with (2 ^ 8); [lia|].
    apply Z.pow_le_mono_r; lia.
Qed.

Lemma shl8_xor_spec w c :
  0 <= c < 256 -> shl8_xor L w c = (w * 256 + c) mod M.
Proof.
  intros Hc. unfold shl8_xor. rewrite Z.shiftl_mul_pow2 by lia.
  change (2 ^ 8) with 256.
  rewrite ulong_modulus_split.
  set (M' := 256 ^ Z.of_nat (L - 1)).
  assert (HM' : 0 < M') by (apply Z.pow_pos_nonneg; lia).
  replace (w * 256) with (256 * w) by lia.
  rewrite Zmult_mod_distr_l.
  rewrite <- Z.add_nocarry_lxor by (apply land_shifted_byte; exact Hc).
  pose proof (Z.mod_pos_bound w M' HM') as Hb.
  apply Z.mod_unique_pos with (q := w / M'); [lia|].
  pose proof (Z.div_mod w M' ltac:(lia)). lia.
Qed.

Lemma feed_spec p i : forall w s,
  feed p i w s mod M = (w * 256 ^ Z.of_nat i + be p s i) mod M.
Proof.
  induction i as [|i IH]; intros w s.
  - simpl. f_equal. lia.
  - simpl feed. rewrite IH. rewrite be_head.
    rewrite shl8_xor_spec by apply deref_range.
    rewrite Nat2Z.inj_succ, Z.pow_succ_r by lia.
    rewrite Zplus_mod, Zmult_mod, Zmod_mod, <- Zmult_mod, <- Zplus_mod.
    f_equal. lia.
Qed.

Lemma shl8_xor_bound w c : 0 <= c < 256 -> 0 <= shl8_xor L w c < M.
Proof.
  intros Hc. rewrite shl8_xor_spec by exact Hc.
  apply Z.mod_pos_bound. rewrite ulong_modulus_eq.
  apply Z.pow_pos_nonneg; lia.
Qed.

Lemma feed_bound p i : forall w s, 0 <= w < M -> 0 <= feed p i w s < M.
Proof.
  induction i as [|i IH]; intros w s Hw; simpl; [exact Hw|].
  apply IH, shl8_xor_bound, deref_range.
Qed.

Lemma feed_word p s : feed p L 0 s = be p s L.
Proof.
  assert (HM : 0 < M)
    by (rewrite ulong_modulus_eq; apply Z.pow_pos_nonneg; lia).
  rewrite <- (Z.mod_small (feed p L 0 s) M) by (apply feed_bound; lia).
  rewrite feed_spec. simpl. apply Z.mod_small.
  rewrite ulong_modulus_eq. apply be_range.
Qed.

(** One more byte rolls the packed window forward by one position. *)
Lemma shl8_xor_roll p s :
  shl8_xor L (be p s L) (deref p (s + L)) = be p (S s) L.
Proof.
  rewrite shl8_xor_spec by apply deref_range.
  change (be p s L * 256 + deref p (s + L)) with (be p s (S L)).
  rewrite be_head, ulong_modulus_eq.
  rewrite Z.add_comm, Z_mod_plus_full.
  apply Z.mod_small, be_range.
Qed.

Lemma pack_loop_spec i : forall ln lh np hp,
  pack_loop L hay needle i ln lh np hp
  = (feed needle i ln np, feed hay i lh hp, (np + i)%nat, (hp + i)%nat).
Proof.
  induction i as [|i IH]; intros ln lh np hp.
  - simpl. rewrite !Nat.add_0_r. reflexivity.
  - simpl. rewrite IH. f_equal; [f_equal|]; lia.
Qed.

Lemma pack_sum_loop_spec i : forall ln lh a np hp,
  pack_sum_loop L hay needle i ln lh (int_wrap a) np hp
  = (feed needle i ln np, feed hay i lh hp,
     int_wrap (a + rsum hay hp i - rsum needle np i),
     (np + i)%nat, (hp + i)%nat).
Proof.
  induction i as [|i IH]; intros ln lh a np hp.
  - simpl. rewrite !Nat.add_0_r. do 3 f_equal. f_equal. lia.
  - simpl pack_sum_loop. rewrite int_wrap_sub, int_wrap_add, IH.
    simpl feed. rewrite !rsum_head.
    f_equal; [f_equal|]; [f_equal| |]; [f_equal; lia | lia | lia].
Qed.

Lemma check_long j sums lasth lastn :
  (L + 1 < n)%nat ->
  sums = int_wrap (rsum hay j n - rsum needle 0 n) ->
  lasth = be hay (j + (n - L)) L ->
  lastn = be needle (n - L) L ->
  (sums =? 0) && (lasth =? lastn)
    && (memcmp hay j needle 0 (n - (L + 1)) =? 0) = occurs j.
Proof.
  intros Hn -> -> ->.
  apply eq_true_iff_eq. rewrite !andb_true_iff, !Z.eqb_eq, occurs_iff.
  rewrite memcmp_zero_iff. split.
  - intros [[Hs Hl] Hc].
    assert (Hrest : forall t, (t < n)%nat -> t <> (n - (L + 1))%nat ->
              deref hay (j + t) = deref needle t).
    { intros t Ht Hne. destruct (Nat.lt_ge_cases t (n - (L + 1))) as [Hlt|Hge].
      - apply (Hc t Hlt).
      - pose proof (be_inj _ _ _ _ _ Hl (t - (n - L))%nat ltac:(lia)) as E.
        replace (j + (n - L) + (t - (n - L)))%nat with (j + t)%nat in E by lia.
        replace (n - L + (t - (n - L)))%nat with t in E by lia.
        exact E. }
    intros t Ht. destruct (decide (t = (n - (L + 1))%nat)) as [->|Hne].
    + apply (sum_check hay needle j (n - (L + 1))); [lia | exact Hrest | exact Hs].
    + apply Hrest; assumption.
  - intros H. repeat split.
    + rewrite (rsum_ext hay needle n j 0%nat) by exact H.
      rewrite Z.sub_diag. reflexivity.
    + apply be_ext. intros t Ht.
      replace (j + (n - L) + t)%nat with (j + (n - L + t))%nat by lia.
      apply H. lia.
    + intros t Ht. apply H. lia.
Qed.

Lemma check_word j lasth lastn :
  n = L ->
  lasth = be hay j L ->
  lastn = be needle 0 L ->
  (lasth =? lastn) = occurs j.
Proof.
  intros Hn -> ->.
  apply eq_true_iff_eq. rewrite Z.eqb_eq, occurs_iff. split.
  - intros H t Ht. apply (be_inj _ _ _ _ _ H t). lia.
  - intros H. apply be_ext. intros t Ht. apply H. lia.
Qed.

Lemma check_word1 j lasth lastn :
  n = S L ->
  lasth = be hay j L ->
  lastn = be needle 0 L ->
  (lasth =? lastn) && (deref hay (j + L) =? deref needle L) = occurs j.
Proof.
  intros Hn -> ->.
  apply eq_true_iff_eq. rewrite andb_true_iff, !Z.eqb_eq, occurs_iff. split.
  - intros [H1 H2] t Ht. destruct (decide (t = L)) as [->|Hne]; [exact H2|].
    apply (be_inj _ _ _ _ _ H1 t). lia.
  - intros H. split.
    + apply be_ext. intros t Ht. apply H. lia.
    + apply H. lia.
Qed.

Lemma slide_long_correct i : forall j lasth sums,
  (L + 1 < n)%nat ->
  sums = int_wrap (rsum hay j n - rsum needle 0 n) ->
  lasth = be hay (j + (n - L)) L ->
  slide_long L hay needle i (n - (L + 1)) (be needle (n - L) L)
    lasth sums j (j + n)
  = scan (S j) i.
Proof.
  induction i as [|i IH]; intros j lasth sums Hn Hs Hl; [reflexivity|].
  simpl slide_long. simpl naive_scan. fold (occurs (S j)).
  subst sums lasth.
  rewrite slide_sum.
  assert (Hroll : shl8_xor L (be hay (j + (n - L)) L) (deref hay (j + n))
                  = be hay (S j + (n - L)) L).
  { replace (j + n)%nat with (j + (n - L) + L)%nat by lia.
    apply shl8_xor_roll. }
  rewrite Hroll.
  rewrite (check_long (S j) _ _ _ Hn eq_refl eq_refl eq_refl).
  destruct (occurs (S j)); [reflexivity|].
  replace (S (j + n)) with (S j + n)%nat by lia.
  apply IH; [exact Hn | reflexivity | reflexivity].
Qed.

Lemma slide_word_correct i : forall j lasth,
  n = L ->
  lasth = be hay j L ->
  slide_word L hay i n (be needle 0 L) lasth (j + n) = scan (S j) i.
Proof.
  induction i as [|i IH]; intros j lasth Hn Hl; [reflexivity|].
  simpl slide_word. simpl naive_scan. fold (occurs (S j)).
  subst lasth.
  assert (Hroll : shl8_xor L (be hay j L) (deref hay (j + n))
                  = be hay (S j) L).
  { rewrite Hn. apply shl8_xor_roll. }
  rewrite Hroll.
  rewrite (check_word (S j) _ _ Hn eq_refl eq_refl).
  replace (S (j + n) - n)%nat with (S j) by lia.
  destruct (occurs (S j)); [reflexivity|].
  replace (S (j + n)) with (S j + n)%nat by lia.
  apply IH; [exact Hn | reflexivity].
Qed.

Lemma slide_word1_correct i : forall j lasth,
  n = S L ->
  lasth = be hay j L ->
  slide_word1 L hay i n (be needle 0 L) (deref needle L) lasth (j + L)
  = scan (S j) i.
Proof.
  induction i as [|i IH]; intros j lasth Hn Hl; [reflexivity|].
  simpl slide_word1. simpl naive_scan. fold (occurs (S j)).
  subst lasth. rewrite shl8_xor_roll.
  replace (S (j + L)) with (S j + L)%nat by lia.
  rewrite (check_word1 (S j) _ _ Hn eq_refl eq_refl).
  replace (S j + L - (n - 1))%nat with (S j) by lia.
  destruct (occurs (S j)); [reflexivity|].
  apply IH; [exact Hn | reflexivity].
Qed.

(** The search as the code counts it.  The first window stands at the
    first byte equal to [needle[0]]; the windows after it are counted in
    [unsigned int i], so [to_uint (haystacklen - needlelen)] of them are
    tried, whatever the length of the haystack. *)
Lemma memmem_counted :
  Z.of_nat n < 2 ^ 32 ->
  memmem L hay needle =
  match n with
  | O => Some O
  | S O => memchr hay 0 (deref needle 0) (length hay)
  | _ =>
    match memchr hay 0 (deref needle 0) (length hay) with
    | None => None
    | Some k =>
        if (length hay - k <? n)%nat then None
        else scan k (S (to_uint (length hay - k - n)))
    end
  end.
Proof.
  unfold memmem.
  destruct (length needle) as [|[|n2]] eqn:Hn; [reflexivity | reflexivity |].
  rewrite <- Hn. intros Hsmall.
  assert (Hn2 : (2 <= n)%nat) by lia. clear Hn n2.
  destruct (memchr hay 0 (deref needle 0) (length hay)) as [k|] eqn:Hk;
    [|reflexivity].
  destruct (Nat.ltb_spec (length hay - k) n) as [Hlen|Hlen]; [reflexivity|].
  simpl naive_scan. fold (occurs k).
  destruct (Nat.ltb_spec (L + 1) n) as [HL|HL].
  { rewrite (to_uint_small (n - L)), (to_uint_small L) by lia.
    change 0 with (int_wrap 0) at 1.
    rewrite sum_loop_spec, pack_sum_loop_spec.
    rewrite !feed_word. simpl Nat.add.
    assert (Hsum : int_wrap (0 + rsum hay k (n - L) - rsum needle 0 (n - L)
                     + rsum hay (k + (n - L)) L - rsum needle (n - L) L)
                   = int_wrap (rsum hay k n - rsum needle 0 n)).
    { f_equal.
      rewrite (rsum_split hay k (n - L) n),
              (rsum_split needle 0 (n - L) n) by lia.
      replace (n - (n - L))%nat with L by lia.
      simpl Nat.add. lia. }
    rewrite Hsum.
    rewrite (check_long k _ _ _ HL eq_refl eq_refl eq_refl).
    destruct (occurs k); [reflexivity|].
    replace (k + (n - L) + L)%nat with (k + n)%nat by lia.
    apply slide_long_correct; [exact HL | reflexivity | reflexivity]. }
  destruct (Nat.ltb_spec n L) as [HS|HS].
  { rewrite (to_uint_small n) by lia.
    change 0 with (int_wrap 0) at 1.
    rewrite sum_loop_spec. simpl Nat.add. rewrite Z.add_0_l.
    rewrite (check_short hay needle k _ ltac:(lia) eq_refl).
    destruct (occurs k); [reflexivity|].
    apply slide_short_correct; [lia | reflexivity]. }
  destruct (Nat.eqb_spec n L) as [HE|HE].
  { rewrite (to_uint_small n) by lia.
    rewrite pack_loop_spec.
    assert (Fn : feed needle n 0 0 = be needle 0 L)
      by (rewrite HE; apply feed_word).
    assert (Fh : feed hay n 0 k = be hay k L)
      by (rewrite HE; apply feed_word).
    rewrite Fn, Fh.
    rewrite (check_word k _ _ HE eq_refl eq_refl).
    destruct (occurs k); [reflexivity|].
    apply slide_word_correct; [exact HE | reflexivity]. }
  { assert (HE1 : n = S L) by lia.
    rewrite (to_uint_small L) by lia.
    rewrite pack_loop_spec. rewrite !feed_word. simpl Nat.add.
    rewrite (check_word1 k _ _ HE1 eq_refl eq_refl).
    destruct (occurs k); [reflexivity|].
    apply slide_word1_correct; [exact HE1 | reflexivity]. }
Qed.

Hypothesis hay_small : Z.of_nat (length hay) < 2 ^ 32.

Lemma memmem_equiv : memmem L hay needle = memmem_naive hay needle.
Proof.
  unfold memmem, memmem_naive.
  destruct (length needle) as [|[|n2]] eqn:Hn.
  - (* empty needle *)
    simpl. rewrite Nat.sub_0_r, Nat.add_1_r. simpl. rewrite Hn. reflexivity.
  - (* one byte *)
    rewrite scan_memchr by exact Hn.
    destruct (Nat.leb_spec 1 (length hay)) as [Hh|Hh].
    + f_equal. lia.
    + replace (length hay) with 0%nat by lia. reflexivity.
  - (* at least two bytes *)
    rewrite <- Hn. assert (Hn2 : (2 <= n)%nat) by lia. clear Hn n2.
    destruct (memchr hay 0 (deref needle 0) (length hay)) as [k|] eqn:Hk.
    + apply memchr_Some in Hk as (Hk1 & Hk2 & Hk3).
      destruct (Nat.ltb_spec (length hay - k) n) as [Hlen|Hlen].
      * (* the remaining haystack is smaller than needle *)
        destruct (Nat.leb_spec n (length hay)) as [Hh|Hh]; [|reflexivity].
        symmetry.
        replace (length hay - n + 1)%nat
          with ((length hay - n + 1) + 0)%nat by lia.
        rewrite scan_skip; [reflexivity | lia |].
        intros t Ht. apply Hk3. lia.
      * destruct (Nat.leb_spec n (length hay)) as [Hh|Hh]; [|lia].
        replace (length hay - n + 1)%nat
          with (k + S (length hay - k - n))%nat by lia.
        rewrite scan_skip by (try lia; intros t Ht; apply Hk3; lia).
        simpl Nat.add. simpl naive_scan. fold (occurs k).
        rewrite (to_uint_small (length hay - k - n)) by lia.
        destruct (Nat.ltb_spec (L + 1) n) as [HL|HL].
        { rewrite (to_uint_small (n - L)), (to_uint_small L) by lia.
          change 0 with (int_wrap 0) at 1.
          rewrite sum_loop_spec, pack_sum_loop_spec.
          rewrite !feed_word. simpl Nat.add.
          assert (Hsum : int_wrap (0 + rsum hay k (n - L) - rsum needle 0 (n - L)
                           + rsum hay (k + (n - L)) L - rsum needle (n - L) L)
                         = int_wrap (rsum hay k n - rsum needle 0 n)).
          { f_equal.
            rewrite (rsum_split hay k (n - L) n),
                    (rsum_split needle 0 (n - L) n) by lia.
            replace (n - (n - L))%nat with L by lia.
            simpl Nat.add. lia. }
          rewrite Hsum.
          rewrite (check_long k _ _ _ HL eq_refl eq_refl eq_refl).
          destruct (occurs k); [reflexivity|].
          replace (k + (n - L) + L)%nat with (k + n)%nat by lia.
          apply slide_long_correct; [exact HL | reflexivity | reflexivity]. }
        destruct (Nat.ltb_spec n L) as [HS|HS].
        { rewrite (to_uint_small n) by lia.
          change 0 with (int_wrap 0) at 1.
          rewrite sum_loop_spec. simpl Nat.add. rewrite Z.add_0_l.
          rewrite (check_short hay needle k _ ltac:(lia) eq_refl).
          destruct (occurs k); [reflexivity|].
          apply slide_short_correct; [lia | reflexivity]. }
        destruct (Nat.eqb_spec n L) as [HE|HE].
        { rewrite (to_uint_small n) by lia.
          rewrite pack_loop_spec.
          assert (Fn : feed needle n 0 0 = be needle 0 L)
            by (rewrite HE; apply feed_word).
          assert (Fh : feed hay n 0 k = be hay k L)
            by (rewrite HE; apply feed_word).
          rewrite Fn, Fh.
          rewrite (check_word k _ _ HE eq_refl eq_refl).
          destruct (occurs k); [reflexivity|].
          apply slide_word_correct; [exact HE | reflexivity]. }
        { assert (HE1 : n = S L) by lia.
          rewrite (to_uint_small L) by lia.
          rewrite pack_loop_spec. rewrite !feed_word. simpl Nat.add.
          rewrite (check_word1 k _ _ HE1 eq_refl eq_refl).
          destruct (occurs k); [reflexivity|].
          apply slide_word1_correct; [exact HE1 | reflexivity]. }
    + (* the first character of needle isn't in haystack *)
      destruct (Nat.leb_spec n (length hay)) as [Hh|Hh]; [|reflexivity].
      symmetry. apply scan_None. intros t Ht.
      destruct (occurs t) eqn:E; [|reflexivity].
      exfalso. apply (memchr_None _ _ _ _ Hk t); [lia|].
      rewrite occurs_iff in E. specialize (E 0%nat).
      rewrite Nat.add_0_r in E. apply E. lia.
Qed.

End WordProofs.

(** A haystack of [2^32 + 2] bytes on an LP64 target: "ax", the needle
    "ab", then [2^32 - 2] further bytes.  [memchr] stops at offset 0, the
    first window "ax" is not the needle, and the number of windows that
    remain, [haystacklen - needlelen = 2^32], is 0 in [unsigned int i]: the
    sliding loop is skipped and [NULL] is returned. *)
Lemma memmem_count_wraps (tail : list byte) :
  Z.of_nat (length tail) = 2 ^ 32 - 2 ->
  let haystack := bytes_of_string "axab" ++ tail in
  let needle := bytes_of_string "ab" in
  occurs_at haystack needle 2 /\
  memmem_naive haystack needle = Some 2%nat /\
  memmem 8 haystack needle = None.
Proof.
  intros Htail haystack needle.
  assert (Hlen : length haystack = (4 + length tail)%nat) by reflexivity.
  assert (Hn : length needle = 2%nat) by reflexivity.
  assert (Hocc : occurs_at haystack needle 2).
  { split; [lia | reflexivity]. }
  split; [exact Hocc|]. split.
  - apply naive_Some. split; [exact Hocc|].
    intros t Ht [_ Hs].
    destruct t as [|[|t]]; [discriminate Hs | discriminate Hs | lia].
  - rewrite (memmem_counted 8 ltac:(lia) haystack needle) by lia.
    rewrite Hn.
    assert (Hchr : memchr haystack 0 (deref needle 0) (length haystack)
                   = Some 0%nat) by reflexivity.
    rewrite Hchr, Nat.sub_0_r.
    destruct (Nat.ltb_spec (length haystack) 2) as [Hlt|_]; [lia|].
    assert (Hcnt : to_uint (length haystack - 2) = 0%nat).
    { unfold to_uint.
      replace (Z.of_nat (length haystack - 2)) with (2 ^ 32) by lia.
      reflexivity. }
    rewrite Hcnt. reflexivity.
Qed.

Lemma length_repeat_x :
  Z.of_nat (length (repeat "x"%byte (Z.to_nat (2 ^ 32 - 2)))) = 2 ^ 32 - 2.
Proof.
  rewrite repeat_length. apply Z2Nat.id. lia.
Qed.

(** C10 (as the code behaves).  The sum-and-rolling-window [memmem] counts
    the windows it slides over in [unsigned int i], which has 32 bits,
    while the lengths are [size_t].

    - For a haystack shorter than [2^32] bytes, on a target whose [long]
      has at least one byte, it returns what the naive reference search
      returns: the first offset [i] with [i + needlelen <= haystacklen] at
      which the bytes of [needle] occur in [haystack], [NULL] when there is
      none, and the haystack pointer itself when [needlelen] is 0.
    - For a longer haystack it does not.  On an LP64 target
      ([sizeof(long) = 8]), in every haystack of [2^32 + 2] bytes that
      begins with "axab" the needle "ab" occurs at offset 2 and the
      reference search returns that offset, but [memmem] returns [NULL]. *)
Theorem memmem_refines_naive_in_uint_range :
  (forall (L : nat) (haystack needle : list byte),
     (1 <= L)%nat ->
     Z.of_nat (length haystack) < 2 ^ 32 ->
     memmem L haystack needle = memmem_naive haystack needle /\
     (forall i, memmem L haystack needle = Some i <->
        occurs_at haystack needle i /\
        (forall t, (t < i)%nat -> ~ occurs_at haystack needle t)) /\
     (memmem L haystack needle = None <->
        forall i, ~ occurs_at haystack needle i) /\
     (length needle = 0%nat -> memmem L haystack needle = Some 0%nat)) /\
  (forall tail : list byte,
     Z.of_nat (length tail) = 2 ^ 32 - 2 ->
     let haystack := bytes_of_string "axab" ++ tail in
     let needle := bytes_of_string "ab" in
     occurs_at haystack needle 2 /\
     memmem_naive haystack needle = Some 2%nat /\
     memmem 8 haystack needle = None).
Proof.
  split.
  - intros L haystack needle HL Hsmall.
    pose proof (memmem_equiv L HL haystack needle Hsmall) as E.
    split; [exact E|]. rewrite E. split; [|split].
    + intros i. apply naive_Some.
    + apply naive_None.
    + intros Hn. rewrite <- E. unfold memmem. rewrite Hn. reflexivity.
  - exact memmem_count_wraps.
Qed.

Lemma memmem_refines_naive_in_uint_range_witness :
  memmem 4 (bytes_of_string "hello wonderful world")
           (bytes_of_string "wonderful w")
  = memmem_naive (bytes_of_string "hello wonderful world")
                 (bytes_of_string "wonderful w") /\
  memmem 8 (bytes_of_string "axab" ++ repeat "x"%byte (Z.to_nat (2 ^ 32 - 2)))
           (bytes_of_string "ab")
  = None.
Proof.
  split.
  - refine (proj1 (proj1 memmem_refines_naive_in_uint_range 4%nat
              (bytes_of_string "hello wonderful world")
              (bytes_of_string "wonderful w") _ _)).
    + lia.
    + vm_compute. reflexivity.
  - refine (proj2 (proj2 (proj2 memmem_refines_naive_in_uint_range
              (repeat "x"%byte (Z.to_nat (2 ^ 32 - 2))) _))).
    exact length_repeat_x.
Defined.

(** The claim fails on an LP64 target for the haystack of [2^32 + 2] bytes
    "axab" followed by [2^32 - 2] bytes "x": the needle "ab" occurs at
    offset 2, [memmem] returns [NULL], and the reference search does not. *)
Lemma memmem_misses_beyond_uint_range :
  let haystack :=
    bytes_of_string "axab" ++ repeat "x"%byte (Z.to_nat (2 ^ 32 - 2)) in
  let needle := bytes_of_string "ab" in
  Z.of_nat (length haystack) = 2 ^ 32 + 2 /\
  occurs_at haystack needle 2 /\
  memmem 8 haystack needle = None /\
  memmem 8 haystack needle <> memmem_naive haystack needle.
Proof.
  intros haystack needle.
  destruct (memmem_count_wraps _ length_repeat_x) as (Hocc & Hnaive & Hmem).
  fold haystack needle in Hocc, Hnaive, Hmem.
  split; [|split; [exact Hocc | split; [exact Hmem|]]].
  - unfold haystack. rewrite length_app, Nat2Z.inj_add, length_repeat_x.
    reflexivity.
  - rewrite Hmem, Hnaive. discriminate.
Qed.

Example memmem_abc :
  memmem 4 (bytes_of_string "hello wonderful world") (bytes_of_string "wor")
  = Some 16%nat.
Proof. vm_compute. reflexivity. Qed.



(** * Proofs for drivers/usbdev/cdcecm.c *)

Import Cdcecm.

(** ** Properties of the configuration state machine *)

Ltac op_unfold :=
  unfold mbind, op_bind, mret, op_ret, get_self, update, update_dev, call,
    read_ep, update_ep, panic in *.

Lemma set_self_self w : set_self (self w) w = w.
Proof. destruct w. reflexivity. Qed.

Lemma set_usbdev_speed_same s : set_usbdev_speed (usbdev_speed s) s = s.
Proof. destruct s. reflexivity. Qed.

Lemma set_ctrlreq_buf_same s :
  set_ctrlreq (set_req_buf (req_buf (ctrlreq s)) (ctrlreq s)) s = s.
Proof. destruct s as [? ? [] ? ? ? ? ? ? ? ? ? ?]. reflexivity. Qed.

Section ConfigProofs.

Variable cfg : kconfig.
Variable env : collaborators.

(** C8.  Requesting the configuration that is already current returns OK
    and changes nothing: no endpoint is configured or disabled, no request
    is submitted, and neither interface callback runs (the world, trace of
    outgoing calls included, is the one before the call). *)
Theorem setconfig_current_is_noop (w : world) :
  cdcecm_setconfig cfg env (config (self w)) w = Done OK w.
Proof.
  unfold cdcecm_setconfig. op_unfold.
  rewrite Z.eqb_refl. reflexivity.
Qed.

Lemma wrcomplete_done req w :
  exists w', cdcecm_wrcomplete req w = Done tt w' /\
    config (self w') = config (self w) /\
    bifup (self w') = bifup (self w) /\
    epint w' = epint w /\ epbulkin w' = epbulkin w /\
    epbulkout w' = epbulkout w.
Proof.
  unfold cdcecm_wrcomplete, nxsem_post_wrreq_idle, work_queue. op_unfold.
  destruct (SEM_VALUE_MAX <=? wrreq_idle (self w))%N; cbn;
    destruct (irqwork (self w)); cbn; eexists; split; try reflexivity;
    cbn; auto.
Qed.

Lemma rdcomplete_shutdown req w :
  req_result req = - ESHUTDOWN -> cdcecm_rdcomplete cfg env req w = Done tt w.
Proof.
  intros H. unfold cdcecm_rdcomplete. rewrite H. reflexivity.
Qed.

(** Disabling an endpoint returns, leaves it unconfigured with nothing in
    flight, and touches neither the configuration number, the link state
    nor the other endpoints. *)
Lemma EP_DISABLE_done ep w :
  exists w', EP_DISABLE cfg env ep w = Done tt w' /\
    config (self w') = config (self w) /\
    bifup (self w') = bifup (self w) /\
    get_ep ep w' = match ep with
                   | EP0 => get_ep EP0 w
                   | _ => {| ep_configured := false; ep_pending := false |}
                   end /\
    (forall ep', ep' <> ep -> get_ep ep' w' = get_ep ep' w).
Proof.
  unfold EP_DISABLE. op_unfold.
  destruct ep; cbn.
  - eexists; split; [reflexivity|]. cbn. repeat split; auto.
  - destruct (ep_pending (epint w)); eexists; (split; [reflexivity|]);
      cbn; repeat split; auto; intros []; cbn; congruence.
  - destruct (ep_pending (epbulkin w)).
    + match goal with |- context [cdcecm_wrcomplete ?r ?w0] =>
        destruct (wrcomplete_done r w0) as (w' & E & H1 & H2 & H3 & H4 & H5)
      end.
      rewrite E. eexists; split; [reflexivity|].
      rewrite H1, H2. cbn. repeat split; auto.
      intros [] Hne; cbn; rewrite ?H3, ?H5; cbn; congruence.
    + eexists; split; [reflexivity|]. cbn. repeat split; auto.
      intros []; cbn; congruence.
  - destruct (ep_pending (epbulkout w)).
    + rewrite rdcomplete_shutdown by reflexivity.
      eexists; split; [reflexivity|]. cbn. repeat split; auto.
      intros []; cbn; congruence.
    + eexists; split; [reflexivity|]. cbn. repeat split; auto.
      intros []; cbn; congruence.
Qed.

(** [cdcecm_resetconfig] returns; it is the identity on an unconfigured
    driver and otherwise reaches the unconfigured state. *)
Lemma resetconfig_done w :
  exists w', cdcecm_resetconfig cfg env w = Done tt w' /\
    config (self w') = CDCECM_CONFIGID_NONE /\
    (config (self w) = CDCECM_CONFIGID_NONE -> w' = w) /\
    (config (self w) <> CDCECM_CONFIGID_NONE ->
       bifup (self w') = false /\
       ep_configured (epint w') = false /\
       ep_configured (epbulkin w') = false /\
       ep_configured (epbulkout w') = false /\
       ep_pending (epbulkin w') = false /\
       ep_pending (epbulkout w') = false).
Proof.
  unfold cdcecm_resetconfig. op_unfold. cbn.
  destruct (Z.eqb_spec (config (self w)) CDCECM_CONFIGID_NONE) as [E|E]; cbn.
  - eexists; split; [reflexivity|].
    split; [exact E|]. split; [auto|]. intros H. contradiction.
  - unfold cdcecm_ifdown. op_unfold. cbn.
    match goal with |- context [EP_DISABLE cfg env EPINT ?w0] =>
      destruct (EP_DISABLE_done EPINT w0) as (w1 & E1 & C1 & B1 & P1 & O1)
    end.
    rewrite E1.
    destruct (EP_DISABLE_done EPBULKIN w1) as (w2 & E2 & C2 & B2 & P2 & O2).
    rewrite E2.
    destruct (EP_DISABLE_done EPBULKOUT w2) as (w3 & E3 & C3 & B3 & P3 & O3).
    rewrite E3.
    eexists; split; [reflexivity|].
    cbn in C1, B1, P1, P2, P3.
    split; [congruence|]. split; [contradiction|]. intros _.
    pose proof (O3 EPINT ltac:(discriminate)) as Q1.
    pose proof (O2 EPINT ltac:(discriminate)) as Q2.
    pose proof (O3 EPBULKIN ltac:(discriminate)) as Q3.
    cbn in Q1, Q2, Q3.
    rewrite B3, B2, B1, Q1, Q2, P1, Q3, P2, P3. cbn. auto 10.
Qed.

(** C3 (amended).  A configuration id that is neither NONE, nor the
    supported id, nor the current one is rejected with [-EINVAL] after the
    previous configuration has been discarded: the call leaves the world as
    [cdcecm_resetconfig] leaves it, which is unchanged when the driver was
    unconfigured and otherwise is the unconfigured state (configuration
    NONE, link down, all three endpoints disabled). *)
Theorem setconfig_unsupported_id (w : world) (config_ : Z) :
  config_ <> CDCECM_CONFIGID_NONE ->
  config_ <> CDCECM_CONFIGID ->
  config_ <> config (self w) ->
  exists w',
    cdcecm_setconfig cfg env config_ w = Done (- EINVAL) w' /\
    cdcecm_resetconfig cfg env w = Done tt w' /\
    config (self w') = CDCECM_CONFIGID_NONE /\
    (config (self w) = CDCECM_CONFIGID_NONE -> w' = w) /\
    (config (self w) <> CDCECM_CONFIGID_NONE ->
       bifup (self w') = false /\
       ep_configured (epint w') = false /\
       ep_configured (epbulkin w') = false /\
       ep_configured (epbulkout w') = false).
Proof.
  intros Hnone Hid Hcur.
  destruct (resetconfig_done w) as (w' & E & Hc & Hsame & Hreset).
  exists w'. split; [|split; [exact E|]].
  - unfold cdcecm_setconfig. op_unfold. cbn.
    destruct (Z.eqb_spec config_ (config (self w))); [contradiction|].
    rewrite E.
    destruct (Z.eqb_spec config_ CDCECM_CONFIGID_NONE); [contradiction|].
    destruct (Z.eqb_spec config_ CDCECM_CONFIGID); [contradiction|].
    reflexivity.
  - split; [exact Hc|]. split; [exact Hsame|].
    intros H. destruct (Hreset H) as (? & ? & ? & ? & _). auto.
Qed.

(** C6 (as the code behaves).  The error path of [cdcecm_setconfig], at
    its second step: when the
    interrupt IN endpoint is configured and the bulk IN endpoint is
    refused, the error is returned with the configuration NONE, but the
    [cdcecm_resetconfig] at [error:] sees NONE and disables nothing, so the
    interrupt IN endpoint stays configured. *)
Theorem setconfig_error_keeps_epint (w : world) :
  config (self w) = CDCECM_CONFIGID_NONE ->
  0 <= EP_CONFIGURE_status env EPINT ->
  EP_CONFIGURE_status env EPBULKIN < 0 ->
  exists w',
    cdcecm_setconfig cfg env CDCECM_CONFIGID w
      = Done (EP_CONFIGURE_status env EPBULKIN) w' /\
    config (self w') = CDCECM_CONFIGID_NONE /\
    ep_configured (epint w') = true.
Proof.
  intros Hc Hint Hbulk.
  assert (E1 : (EP_CONFIGURE_status env EPINT <? 0) = false)
    by (apply Z.ltb_ge; lia).
  assert (E2 : (EP_CONFIGURE_status env EPBULKIN <? 0) = true)
    by (apply Z.ltb_lt; lia).
  unfold cdcecm_setconfig, cdcecm_resetconfig, EP_CONFIGURE. op_unfold.
  repeat (progress (cbn; rewrite ?Hc, ?E1, ?E2)).
  eexists; split; [reflexivity|]. cbn. auto.
Qed.

End ConfigProofs.

Lemma setconfig_unsupported_id_witness :
  exists w',
    cdcecm_setconfig sample_kconfig
      (sample_collaborators (fun _ => OK) (fun _ => OK)) 2 bound_world
    = Done (- EINVAL) w' /\ w' = bound_world.
Proof.
  destruct (setconfig_unsupported_id sample_kconfig
              (sample_collaborators (fun _ => OK) (fun _ => OK))
              bound_world 2 ltac:(discriminate) ltac:(discriminate)
              ltac:(discriminate))
    as (w' & E & _ & _ & Hsame & _).
  exists w'. split; [exact E | apply Hsame; reflexivity].
Defined.

(** The claim of C3 as stated fails on a configured driver: the rejected
    request has already discarded the configuration. *)
Lemma setconfig_unsupported_id_changes_state :
  ~ (forall cfg env w config_,
       config_ <> CDCECM_CONFIGID_NONE -> config_ <> CDCECM_CONFIGID ->
       exists w',
         cdcecm_setconfig cfg env config_ w = Done (- EINVAL) w' /\
         config (self w') = config (self w) /\
         ep_configured (epint w') = ep_configured (epint w) /\
         ep_configured (epbulkin w') = ep_configured (epbulkin w) /\
         ep_configured (epbulkout w') = ep_configured (epbulkout w) /\
         bifup (self w') = bifup (self w)).
Proof.
  intros H.
  destruct (H sample_kconfig
              (sample_collaborators (fun _ => OK) (fun _ => OK))
              active_world 2 ltac:(discriminate) ltac:(discriminate))
    as (w' & E & Hc & _).
  vm_compute in E. injection E as <-. vm_compute in Hc. discriminate.
Qed.

Lemma setconfig_error_keeps_epint_witness :
  exists w',
    cdcecm_setconfig sample_kconfig
      (sample_collaborators
         (fun ep => match ep with EPBULKIN => - EINVAL | _ => OK end)
         (fun _ => OK))
      CDCECM_CONFIGID bound_world
    = Done (- EINVAL) w' /\
    config (self w') = CDCECM_CONFIGID_NONE /\
    ep_configured (epint w') = true.
Proof.
  apply (setconfig_error_keeps_epint sample_kconfig
           (sample_collaborators
              (fun ep => match ep with EPBULKIN => - EINVAL | _ => OK end)
              (fun _ => OK))
           bound_world).
  - reflexivity.
  - cbn. unfold OK. lia.
  - cbn. unfold EINVAL. lia.
Defined.

(** ** Properties of the completion handlers and of the data path *)

Lemma memcpy_lookup dst src n : forall i,
  (i < n)%nat -> memcpy dst src n !! i = src !! i.
Proof.
  induction n as [|n IH]; intros i Hi; [lia|].
  simpl. destruct (decide (i = n)) as [->|Hne].
  - apply lookup_partial_alter_eq.
  - rewrite lookup_partial_alter_ne by congruence. apply IH. lia.
Qed.

Lemma memcpy_lookup_ge dst src n : forall i,
  (n <= i)%nat -> memcpy dst src n !! i = dst !! i.
Proof.
  induction n as [|n IH]; intros i Hi; [reflexivity|].
  simpl. rewrite lookup_partial_alter_ne by lia. apply IH. lia.
Qed.

Section DataPathProofs.

Variable cfg : kconfig.
Variable env : collaborators.

(** C4.  Completion of the bulk OUT read request, by result: on 0 the
    handler sets [rxpending] and has the interrupt work queued, and
    submits nothing (in a build with debug assertions this needs the
    asserted [!rxpending]); on [-ESHUTDOWN] it does nothing at all; on any
    other result it submits the read request again on the bulk OUT
    endpoint and changes no driver member. *)
Theorem rdcomplete_by_result (w : world) (req : usbdev_req_s) :
  (req_result req = 0 ->
   CONFIG_DEBUG_ASSERTIONS cfg = false \/ rxpending (self w) = false ->
   exists w',
     cdcecm_rdcomplete cfg env req w = Done tt w' /\
     rxpending (self w') = true /\
     irqwork (self w') = true /\
     trace w' = trace w ++ (if irqwork (self w) then []
                            else [Call_work_queue IRQWORK]) /\
     epbulkout w' = epbulkout w) /\
  (req_result req = - ESHUTDOWN ->
   cdcecm_rdcomplete cfg env req w = Done tt w) /\
  (req_result req <> 0 -> req_result req <> - ESHUTDOWN ->
   exists w',
     cdcecm_rdcomplete cfg env req w = Done tt w' /\
     trace w' = trace w ++ [Call_EP_SUBMIT EPBULKOUT (rdreq (self w))] /\
     self w' = self w).
Proof.
  split; [|split].
  - intros Hr Hassert. unfold cdcecm_rdcomplete, DEBUGASSERT, work_queue.
    rewrite Hr. op_unfold. cbn.
    assert (Ha : CONFIG_DEBUG_ASSERTIONS cfg && negb (negb (rxpending (self w)))
                 = false).
    { destruct Hassert as [-> | ->]; [reflexivity | apply andb_false_r]. }
    rewrite Ha. cbn.
    destruct (irqwork (self w)) eqn:Hq; cbn.
    + eexists; split; [reflexivity|]. cbn. rewrite Hq, app_nil_r. auto.
    + eexists; split; [reflexivity|]. cbn. auto.
  - apply rdcomplete_shutdown.
  - intros H0 Hs. unfold cdcecm_rdcomplete, EP_SUBMIT. op_unfold.
    destruct (Z.eqb_spec (req_result req) 0); [contradiction|].
    destruct (Z.eqb_spec (req_result req) (- ESHUTDOWN)); [contradiction|].
    cbn. destruct (EP_SUBMIT_status env EPBULKOUT <? 0); cbn;
      eexists; (split; [reflexivity|]); cbn; auto.
Qed.

Lemma transmit_blocked w :
  wrreq_idle (self w) = 0%N -> cdcecm_transmit env w = Blocked w.
Proof.
  intros H. unfold cdcecm_transmit, nxsem_wait_wrreq_idle. op_unfold.
  rewrite H. reflexivity.
Qed.

(** With the write request idle, [cdcecm_transmit] copies the frame into
    the write request and submits it once on the bulk IN endpoint. *)
Lemma transmit_done w :
  wrreq_idle (self w) <> 0%N ->
  exists w',
    cdcecm_transmit env w = Done (EP_SUBMIT_status env EPBULKIN) w' /\
    trace w' = trace w ++ [Call_EP_SUBMIT EPBULKIN (wrreq (self w'))] /\
    req_len (wrreq (self w')) = d_len (dev (self w)) /\
    req_buf (wrreq (self w'))
      = memcpy (req_buf (wrreq (self w))) (d_buf (dev (self w)))
          (Z.to_nat (d_len (dev (self w)))) /\
    wrreq_idle (self w') = (wrreq_idle (self w) - 1)%N /\
    d_buf (dev (self w')) = d_buf (dev (self w)) /\
    d_len (dev (self w')) = d_len (dev (self w)) /\
    d_statistics (dev (self w')) = d_statistics (NETDEV_TXPACKETS (dev (self w))).
Proof.
  intros H. unfold cdcecm_transmit, nxsem_wait_wrreq_idle, EP_SUBMIT.
  op_unfold.
  destruct (N.eqb_spec (wrreq_idle (self w)) 0); [contradiction|].
  cbn. destruct (EP_SUBMIT_status env EPBULKIN <? 0); cbn;
    eexists; (split; [reflexivity|]); cbn; auto 10.
Qed.

(** C5.  The write completion handler, whatever the result of the request,
    gives the write-request semaphore a unit and sets [txdone]; after it
    the gate can be taken, so [cdcecm_transmit] does not block.  In
    particular, disabling the bulk IN endpoint while the write request is
    in flight completes it with [-ESHUTDOWN] through this handler, and a
    transmit attempted afterwards goes through. *)
Theorem wrcomplete_releases_gate (w : world) :
  (forall req, exists w',
     cdcecm_wrcomplete req w = Done tt w' /\
     txdone (self w') = true /\
     (0 < wrreq_idle (self w'))%N /\
     ((wrreq_idle (self w) < SEM_VALUE_MAX)%N ->
      wrreq_idle (self w') = (wrreq_idle (self w) + 1)%N) /\
     irqwork (self w') = true /\
     exists ret w'', cdcecm_transmit env w' = Done ret w'') /\
  (ep_pending (epbulkin w) = true ->
   exists w',
     EP_DISABLE cfg env EPBULKIN w = Done tt w' /\
     req_result (wrreq (self w')) = - ESHUTDOWN /\
     ep_pending (epbulkin w') = false /\
     txdone (self w') = true /\
     (0 < wrreq_idle (self w'))%N /\
     exists ret w'', cdcecm_transmit env w' = Done ret w'').
Proof.
  assert (Hwr : forall req w0, exists w',
            cdcecm_wrcomplete req w0 = Done tt w' /\
            txdone (self w') = true /\
            (0 < wrreq_idle (self w'))%N /\
            ((wrreq_idle (self w0) < SEM_VALUE_MAX)%N ->
             wrreq_idle (self w') = (wrreq_idle (self w0) + 1)%N) /\
            irqwork (self w') = true /\
            wrreq (self w') = wrreq (self w0) /\
            epbulkin w' = epbulkin w0).
  { intros req w0.
    unfold cdcecm_wrcomplete, nxsem_post_wrreq_idle, work_queue. op_unfold.
    destruct (N.leb_spec SEM_VALUE_MAX (wrreq_idle (self w0))) as [Hmax|Hmax];
      cbn; destruct (irqwork (self w0)) eqn:Hq; cbn;
      eexists; (split; [reflexivity|]); cbn; rewrite ?Hq;
      unfold SEM_VALUE_MAX in *; repeat split; auto; lia. }
  split.
  - intros req. destruct (Hwr req w) as (w' & E & Ht & Hpos & Hinc & Hq & _).
    exists w'. repeat split; auto.
    destruct (transmit_done w' ltac:(lia)) as (w'' & Et & _).
    eauto.
  - intros Hp. unfold EP_DISABLE. op_unfold. cbn. rewrite Hp.
    match goal with |- context [cdcecm_wrcomplete ?r ?w0] =>
      destruct (Hwr r w0) as (w' & E & Ht & Hpos & _ & _ & Hreq & Hep)
    end.
    rewrite E. exists w'. split; [reflexivity|].
    rewrite Hreq, Hep. cbn. repeat split; auto.
    destruct (transmit_done w' ltac:(lia)) as (w'' & Et & _).
    eauto.
Qed.

(** C7 (amended).  A standard GET_DESCRIPTOR request whose descriptor type
    is none of Device, Configuration, Other-Speed-Configuration and String
    returns [-ENOTSUP]; nothing is submitted and the driver is unchanged
    except that [usbdev.speed] now holds the controller's speed, so the
    world is identical when the two already agreed. *)
Theorem setup_getdescriptor_unknown_type (w : world) (usbdev : usbdev_s)
    (ctrl : usb_ctrlreq_s) :
  Z.land (ctrl_type ctrl) USB_REQ_TYPE_MASK = USB_REQ_TYPE_STANDARD ->
  ctrl_req ctrl = USB_REQ_GETDESCRIPTOR ->
  snd (ctrl_value ctrl) <> USB_DESC_TYPE_DEVICE ->
  snd (ctrl_value ctrl) <> USB_DESC_TYPE_CONFIG ->
  snd (ctrl_value ctrl) <> USB_DESC_TYPE_OTHERSPEEDCONFIG ->
  snd (ctrl_value ctrl) <> USB_DESC_TYPE_STRING ->
  cdcecm_setup cfg env usbdev ctrl w
    = Done (- ENOTSUP)
        (set_self (set_usbdev_speed (speed usbdev) (self w)) w) /\
  (speed usbdev = usbdev_speed (self w) ->
   cdcecm_setup cfg env usbdev ctrl w = Done (- ENOTSUP) w).
Proof.
  intros Hstd Hreq Hdev Hcfg Hoth Hstr.
  assert (E : cdcecm_setup cfg env usbdev ctrl w
              = Done (- ENOTSUP)
                  (set_self (set_usbdev_speed (speed usbdev) (self w)) w)).
  { unfold cdcecm_setup, cdcecm_getdescriptor. op_unfold.
    rewrite Hstd, Hreq. cbn.
    destruct (Z.eqb_spec (snd (ctrl_value ctrl)) USB_DESC_TYPE_DEVICE);
      [contradiction|].
    destruct (Z.eqb_spec (snd (ctrl_value ctrl)) USB_DESC_TYPE_CONFIG);
      [contradiction|].
    destruct (Z.eqb_spec (snd (ctrl_value ctrl))
                USB_DESC_TYPE_OTHERSPEEDCONFIG); [contradiction|].
    destruct (Z.eqb_spec (snd (ctrl_value ctrl)) USB_DESC_TYPE_STRING);
      [contradiction|].
    rewrite !andb_false_r. cbn.
    destruct w as [s e1 e2 e3 t]. destruct s as [? ? [] ? ? ? ? ? ? ? ? ? ?].
    reflexivity. }
  split; [exact E|].
  intros Hs. rewrite E, Hs, set_usbdev_speed_same, set_self_self.
  reflexivity.
Qed.

End DataPathProofs.

Lemma rdcomplete_by_result_witness :
  exists w',
    cdcecm_rdcomplete sample_kconfig
      (sample_collaborators (fun _ => OK) (fun _ => OK)) empty_req bound_world
    = Done tt w' /\
    rxpending (self w') = true /\ irqwork (self w') = true.
Proof.
  destruct (proj1 (rdcomplete_by_result sample_kconfig
                     (sample_collaborators (fun _ => OK) (fun _ => OK))
                     bound_world empty_req) eq_refl (or_introl eq_refl))
    as (w' & E & H1 & H2 & _).
  exists w'. auto.
Defined.

Lemma wrcomplete_releases_gate_witness :
  exists w',
    EP_DISABLE sample_kconfig
      (sample_collaborators (fun _ => OK) (fun _ => OK)) EPBULKIN
      (set_ep EPBULKIN {| ep_configured := true; ep_pending := true |}
         (set_self (set_wrreq_idle 0 (self active_world)) active_world))
    = Done tt w' /\
    (0 < wrreq_idle (self w'))%N.
Proof.
  destruct (proj2 (wrcomplete_releases_gate sample_kconfig
                     (sample_collaborators (fun _ => OK) (fun _ => OK))
                     (set_ep EPBULKIN
                        {| ep_configured := true; ep_pending := true |}
                        (set_self (set_wrreq_idle 0 (self active_world))
                           active_world))) eq_refl)
    as (w' & E & _ & _ & _ & Hpos & _).
  exists w'. auto.
Defined.

Lemma setup_getdescriptor_unknown_type_witness :
  cdcecm_setup sample_kconfig
    (sample_collaborators (fun _ => OK) (fun _ => OK))
    {| speed := USB_SPEED_HIGH |} get_descriptor_bos active_world
  = Done (- ENOTSUP) active_world.
Proof.
  apply (setup_getdescriptor_unknown_type sample_kconfig
           (sample_collaborators (fun _ => OK) (fun _ => OK))
           active_world {| speed := USB_SPEED_HIGH |} get_descriptor_bos);
    try reflexivity; discriminate.
Defined.

(** The claim of C7 as stated fails when the controller's speed differs
    from the one the driver holds: the request is refused, yet
    [usbdev.speed] has changed. *)
Lemma setup_getdescriptor_unknown_type_changes_speed :
  ~ (forall cfg env usbdev ctrl w,
       Z.land (ctrl_type ctrl) USB_REQ_TYPE_MASK = USB_REQ_TYPE_STANDARD ->
       ctrl_req ctrl = USB_REQ_GETDESCRIPTOR ->
       snd (ctrl_value ctrl) <> USB_DESC_TYPE_DEVICE ->
       snd (ctrl_value ctrl) <> USB_DESC_TYPE_CONFIG ->
       snd (ctrl_value ctrl) <> USB_DESC_TYPE_OTHERSPEEDCONFIG ->
       snd (ctrl_value ctrl) <> USB_DESC_TYPE_STRING ->
       cdcecm_setup cfg env usbdev ctrl w = Done (- ENOTSUP) w).
Proof.
  intros H.
  pose proof (H sample_kconfig
                (sample_collaborators (fun _ => OK) (fun _ => OK))
                {| speed := USB_SPEED_FULL |} get_descriptor_bos active_world
                eq_refl eq_refl ltac:(discriminate) ltac:(discriminate)
                ltac:(discriminate) ltac:(discriminate)) as E.
  assert (Hs : forall o : outcome Z,
            o = Done (- ENOTSUP) active_world ->
            match o with
            | Done _ w' => usbdev_speed (self w') = USB_SPEED_HIGH
            | _ => False
            end).
  { intros o ->. reflexivity. }
  apply Hs in E. vm_compute in E. discriminate.
Qed.

(** ** The deferred receive dispatch *)

Section ReceiveProofs.

Variable cfg : kconfig.
Variable env : collaborators.



End ReceiveProofs.



(** ** Properties of the descriptor builder *)

Ltac contradictory_speeds :=
  try solve [exfalso;
             repeat match goal with
                    | H : (_ =? _) = true |- _ => apply Z.eqb_eq in H
                    end;
             unfold USB_SPEED_SUPER, USB_SPEED_SUPER_PLUS, USB_SPEED_UNKNOWN,
               USB_SPEED_HIGH in *; lia].

Lemma char_at_range str i : 0 <= char_at str i < 256.
Proof.
  unfold char_at. destruct (String.get i str) as [c|]; [|lia].
  pose proof (Ascii.N_ascii_bounded c). lia.
Qed.

Section DescriptorProofs.

Variable cfg : kconfig.

(** The two passes of [cdcecm_mkepdesc], for the three endpoints. *)
Lemma mkepdesc_two_pass epidx devinfo speed :
  epidx = CDCECM_EP_INTIN_IDX \/ epidx = CDCECM_EP_BULKIN_IDX \/
  epidx = CDCECM_EP_BULKOUT_IDX ->
  exists len m',
    cdcecm_mkepdesc cfg epidx None devinfo speed ∅ = Some (len, ∅) /\
    cdcecm_mkepdesc cfg epidx (Some 0%nat) devinfo speed ∅ = Some (len, m') /\
    0 <= len /\
    (~ (CONFIG_USBDEV_SUPERSPEED cfg = true /\ speed = USB_SPEED_UNKNOWN) ->
     dom m' = set_seq 0 (Z.to_nat len)).
Proof.
  intros Hidx.
  unfold cdcecm_mkepdesc, cdcecm_mkepcompdesc.
  destruct (speed =? USB_SPEED_SUPER) eqn:E5,
    (speed =? USB_SPEED_SUPER_PLUS) eqn:E6,
    (speed =? USB_SPEED_UNKNOWN) eqn:E0,
    (speed =? USB_SPEED_HIGH) eqn:E3;
  contradictory_speeds;
  destruct (CONFIG_USBDEV_SUPERSPEED cfg) eqn:ESS,
    (CONFIG_USBDEV_DUALSPEED cfg);
  destruct Hidx as [-> | [-> | ->]];
  cbv [andb orb negb Z.eqb CDCECM_EP_INTIN_IDX CDCECM_EP_BULKIN_IDX
       CDCECM_EP_BULKOUT_IDX Pos.eqb];
  (eexists; eexists; split; [reflexivity|]; split; [reflexivity|]);
  (split; [vm_compute; discriminate|]);
  intros Hc;
  try (exfalso; apply Hc; split; [reflexivity | apply Z.eqb_eq; assumption]);
  vm_compute; reflexivity.
Qed.

(** The two passes of [cdcecm_mkcfgdesc]. *)
Lemma mkcfgdesc_two_pass devinfo speed type :
  exists len m',
    cdcecm_mkcfgdesc cfg None devinfo speed type ∅
      = (if CONFIG_DEBUG_ASSERTIONS cfg && negb (len <=? CDCECM_MXDESCLEN cfg)
         then None else Some (len, ∅)) /\
    cdcecm_mkcfgdesc cfg (Some 0%nat) devinfo speed type ∅
      = (if CONFIG_DEBUG_ASSERTIONS cfg && negb (len <=? CDCECM_MXDESCLEN cfg)
         then None else Some (len, m')) /\
    0 <= len /\
    (~ (CONFIG_USBDEV_SUPERSPEED cfg = true /\ speed = USB_SPEED_UNKNOWN /\
        type <> USB_DESC_TYPE_OTHERSPEEDCONFIG) ->
     dom m' = set_seq 0 (Z.to_nat len)).
Proof.
  unfold cdcecm_mkcfgdesc. cbv zeta.
  set (speed' := if (type =? USB_DESC_TYPE_OTHERSPEEDCONFIG)
                    && (speed <? USB_SPEED_SUPER)
                 then (if speed =? USB_SPEED_HIGH then USB_SPEED_FULL
                       else USB_SPEED_HIGH) else speed).
  assert (Hbad : (speed' =? USB_SPEED_UNKNOWN) = true ->
                 speed = USB_SPEED_UNKNOWN /\
                 type <> USB_DESC_TYPE_OTHERSPEEDCONFIG).
  { subst speed'. unfold USB_SPEED_UNKNOWN, USB_SPEED_SUPER, USB_SPEED_HIGH,
      USB_SPEED_FULL, USB_DESC_TYPE_OTHERSPEEDCONFIG.
    destruct (Z.eqb_spec type 7) as [Et|Et],
      (Z.ltb_spec speed 5) as [Es|Es], (Z.eqb_spec speed 3) as [Eh|Eh];
      cbn; intros Hz; try discriminate; try (apply Z.eqb_eq in Hz); lia. }
  unfold cdcecm_mkepdesc, cdcecm_mkepcompdesc, if_desc.
  destruct (speed' =? USB_SPEED_SUPER) eqn:E5,
    (speed' =? USB_SPEED_SUPER_PLUS) eqn:E6,
    (speed' =? USB_SPEED_UNKNOWN) eqn:E0,
    (speed' =? USB_SPEED_HIGH) eqn:E3;
  contradictory_speeds;
  destruct (CONFIG_CDCECM_COMPOSITE cfg), (CONFIG_COMPOSITE_IAD cfg),
    (CONFIG_USBDEV_SUPERSPEED cfg) eqn:ESS, (CONFIG_USBDEV_DUALSPEED cfg);
  cbv [andb orb negb option_map Z.eqb CDCECM_EP_INTIN_IDX CDCECM_EP_BULKIN_IDX
       CDCECM_EP_BULKOUT_IDX Pos.eqb];
  (eexists; eexists; split; [reflexivity|]; split; [reflexivity|]);
  (split; [vm_compute; discriminate|]);
  intros Hc;
  try (exfalso; apply Hc; destruct (Hbad eq_refl); auto; fail);
  vm_compute; reflexivity.
Qed.

(** C1 (amended).  For every configuration descriptor request (any speed
    and type) and for each of the three endpoints (any speed), the pass
    with a null buffer and the pass with a buffer return the same length
    (in a debug build the final length assertion of [cdcecm_mkcfgdesc]
    fails in both or in neither); and the pass with a buffer writes exactly
    that many bytes, the first [len] of the buffer, whenever the build has
    no super-speed support or the speed is not USB_SPEED_UNKNOWN (for the
    configuration descriptor: or the type is Other-Speed-Configuration,
    which replaces the unknown speed). *)
Theorem descriptor_two_pass (devinfo : usbdev_devinfo_s) (speed type : Z)
    (epidx : Z) :
  (exists len m',
     cdcecm_mkcfgdesc cfg None devinfo speed type ∅
       = (if CONFIG_DEBUG_ASSERTIONS cfg
             && negb (len <=? CDCECM_MXDESCLEN cfg)
          then None else Some (len, ∅)) /\
     cdcecm_mkcfgdesc cfg (Some 0%nat) devinfo speed type ∅
       = (if CONFIG_DEBUG_ASSERTIONS cfg
             && negb (len <=? CDCECM_MXDESCLEN cfg)
          then None else Some (len, m')) /\
     (~ (CONFIG_USBDEV_SUPERSPEED cfg = true /\ speed = USB_SPEED_UNKNOWN /\
         type <> USB_DESC_TYPE_OTHERSPEEDCONFIG) ->
      dom m' = set_seq 0 (Z.to_nat len) /\ Z.of_nat (size m') = len)) /\
  (epidx = CDCECM_EP_INTIN_IDX \/ epidx = CDCECM_EP_BULKIN_IDX \/
   epidx = CDCECM_EP_BULKOUT_IDX ->
   exists len m',
     cdcecm_mkepdesc cfg epidx None devinfo speed ∅ = Some (len, ∅) /\
     cdcecm_mkepdesc cfg epidx (Some 0%nat) devinfo speed ∅
       = Some (len, m') /\
     (~ (CONFIG_USBDEV_SUPERSPEED cfg = true /\ speed = USB_SPEED_UNKNOWN) ->
      dom m' = set_seq 0 (Z.to_nat len) /\ Z.of_nat (size m') = len)).
Proof.
  assert (Hsize : forall (m' : buffer) (len : Z),
            0 <= len -> dom m' = set_seq 0 (Z.to_nat len) ->
            Z.of_nat (size m') = len).
  { intros m' len Hlen Hd. rewrite <- size_dom, Hd, size_set_seq. lia. }
  split.
  - destruct (mkcfgdesc_two_pass devinfo speed type)
      as (len & m' & Hn & Hf & Hpos & Hd).
    exists len, m'. split; [exact Hn|]. split; [exact Hf|].
    intros Hc. specialize (Hd Hc). auto.
  - intros Hidx.
    destruct (mkepdesc_two_pass epidx devinfo speed Hidx)
      as (len & m' & Hn & Hf & Hpos & Hd).
    exists len, m'. split; [exact Hn|]. split; [exact Hf|].
    intros Hc. specialize (Hd Hc). auto.
Qed.

(** ** cdcecm_mkstrdesc *)

Lemma expand_loop_spec str data count : forall i ndata m,
  fst (expand_loop count str data i ndata m) = (ndata + 2 * count)%nat /\
  (forall k, (k < count)%nat ->
     snd (expand_loop count str data i ndata m) !! (data + ndata + 2 * k)%nat
       = Some (char_at str (i + k)) /\
     snd (expand_loop count str data i ndata m)
       !! (data + ndata + 2 * k + 1)%nat = Some 0) /\
  (forall p, (p < data + ndata \/ data + ndata + 2 * count <= p)%nat ->
     snd (expand_loop count str data i ndata m) !! p = m !! p).
Proof.
  induction count as [|count IH]; intros i ndata m.
  - simpl. repeat split; [lia | intros; lia | intros; lia].
  - simpl expand_loop.
    set (m2 := store8 (data + (ndata + 1)) 0
                 (store8 (data + ndata) (char_at str i) m)).
    destruct (IH (S i) (ndata + 2)%nat m2) as (Hfst & Hdata & Hframe).
    split; [rewrite Hfst; lia|]. split.
    + intros [|k] Hk.
      * rewrite !Hframe by lia. subst m2. unfold store8. split.
        -- rewrite lookup_insert_ne by lia.
           replace (data + ndata + 2 * 0)%nat with (data + ndata)%nat by lia.
           rewrite lookup_insert_eq. rewrite Nat.add_0_r.
           unfold uint8. rewrite Z.mod_small by apply char_at_range.
           reflexivity.
        -- replace (data + ndata + 2 * 0 + 1)%nat
             with (data + (ndata + 1))%nat by lia.
           rewrite lookup_insert_eq. reflexivity.
      * destruct (Hdata k ltac:(lia)) as [H1 H2].
        replace (data + ndata + 2 * S k)%nat
          with (data + (ndata + 2) + 2 * k)%nat by lia.
        replace (i + S k)%nat with (S i + k)%nat by lia.
        auto.
    + intros p Hp. rewrite Hframe by lia. subst m2. unfold store8.
      rewrite !lookup_insert_ne by lia. reflexivity.
Qed.

Lemma strdesc_source_nonzero id str :
  strdesc_source cfg id = Some str ->
  negb (CONFIG_CDCECM_COMPOSITE cfg) && (id =? 0) = false.
Proof.
  unfold strdesc_source. destruct (Z.eqb_spec id 0) as [->|]; cbn.
  - rewrite !andb_false_r. discriminate.
  - intros _. apply andb_false_r.
Qed.

(** C9.  For a string descriptor index with a source string longer than
    the maximum [CDCECM_MAXSTRLEN / 2], [cdcecm_mkstrdesc] does not fail:
    it returns the descriptor length [2 * n + 2] for exactly
    [n = CDCECM_MAXSTRLEN / 2] characters, stores that length and the
    string type in the two header bytes, and after them each of the first
    [n] characters as its byte followed by a zero byte (UTF-16LE); no other
    byte of the buffer changes.  The buffer length [CDCECM_MXDESCLEN] fits
    the [uint8_t] length field, and the [strlen] result fits [int]. *)
Theorem mkstrdesc_truncates (id : Z) (str : string) (strdesc : nat)
    (m : buffer) :
  2 <= CDCECM_MXDESCLEN cfg <= 255 ->
  strdesc_source cfg id = Some str ->
  CDCECM_MAXSTRLEN cfg ÷ 2 < Z.of_nat (strlen str) < 2 ^ 31 ->
  let n := Z.to_nat (CDCECM_MAXSTRLEN cfg ÷ 2) in
  let r := cdcecm_mkstrdesc cfg id strdesc m in
  fst r = 2 * Z.of_nat n + 2 /\
  snd r !! strdesc = Some (2 * Z.of_nat n + 2) /\
  snd r !! (strdesc + 1)%nat = Some USB_DESC_TYPE_STRING /\
  (forall i, (i < n)%nat ->
     snd r !! (strdesc + 2 + 2 * i)%nat = Some (char_at str i) /\
     snd r !! (strdesc + 2 + 2 * i + 1)%nat = Some 0) /\
  (forall p, (p < strdesc \/ strdesc + 2 + 2 * n <= p)%nat ->
     snd r !! p = m !! p).
Proof.
  intros Hmx Hsrc Hlen n r. subst r.
  unfold cdcecm_mkstrdesc.
  rewrite (strdesc_source_nonzero id str Hsrc), Hsrc.
  assert (Hq : 0 <= CDCECM_MAXSTRLEN cfg ÷ 2 /\
               2 * (CDCECM_MAXSTRLEN cfg ÷ 2) + 2 <= 255).
  { unfold CDCECM_MAXSTRLEN.
    rewrite Z.quot_div_nonneg by lia.
    pose proof (Z.div_mod (CDCECM_MXDESCLEN cfg - 2) 2 ltac:(lia)).
    pose proof (Z.mod_pos_bound (CDCECM_MXDESCLEN cfg - 2) 2 ltac:(lia)).
    lia. }
  assert (E32 : int32 (Z.of_nat (strlen str)) = Z.of_nat (strlen str)).
  { unfold int32. rewrite Z.mod_small by lia. lia. }
  rewrite E32.
  assert (Egt : (Z.of_nat (strlen str) >? CDCECM_MAXSTRLEN cfg ÷ 2) = true)
    by (apply Z.gtb_lt; lia).
  rewrite Egt. fold n.
  destruct (expand_loop_spec str (strdesc + 2) n 0 0 m)
    as (Hfst & Hdata & Hframe).
  destruct (expand_loop n str (strdesc + 2) 0 0 m) as [ndata m1].
  cbn [fst snd] in *. subst ndata.
  assert (Hn : Z.of_nat n = CDCECM_MAXSTRLEN cfg ÷ 2) by (subst n; lia).
  assert (E8 : uint8 (Z.of_nat (0 + 2 * n) + 2) = 2 * Z.of_nat n + 2).
  { unfold uint8. rewrite Z.mod_small by lia. lia. }
  rewrite E8. unfold stores, fld, store8. cbn [fold_left].
  rewrite E8. split; [reflexivity|]. split; [|split; [|split]].
  - rewrite lookup_insert_ne by lia. rewrite Nat.add_0_r.
    apply lookup_insert_eq.
  - rewrite lookup_insert_eq. reflexivity.
  - intros i Hi. destruct (Hdata i Hi) as [H1 H2].
    rewrite !lookup_insert_ne by lia.
    replace (strdesc + 2 + 2 * i)%nat with (strdesc + 2 + 0 + 2 * i)%nat
      by lia.
    rewrite H1, H2. auto.
  - intros p Hp. rewrite !lookup_insert_ne by lia.
    apply Hframe. lia.
Qed.

End DescriptorProofs.

Lemma descriptor_two_pass_witness :
  exists m',
    cdcecm_mkepdesc sample_kconfig CDCECM_EP_BULKIN_IDX (Some 0%nat)
      sample_devinfo USB_SPEED_SUPER ∅ = Some (13, m') /\
    Z.of_nat (size m') = 13.
Proof.
  destruct (proj2 (descriptor_two_pass sample_kconfig sample_devinfo
                     USB_SPEED_SUPER USB_DESC_TYPE_CONFIG
                     CDCECM_EP_BULKIN_IDX)
              (or_intror (or_introl eq_refl)))
    as (len & m' & Hn & Hf & Hd).
  vm_compute in Hn. injection Hn as <-.
  exists m'. split; [exact Hf|].
  apply Hd. intros [_ Hs]. discriminate Hs.
Defined.

(** The claim of C1 as stated fails in a super-speed build at
    USB_SPEED_UNKNOWN: the null pass returns 13 for an endpoint, the pass
    with a buffer returns 13 too but writes the 7 bytes of the endpoint
    descriptor only. *)
Lemma mkepdesc_unknown_speed_writes_less :
  ~ (forall cfg epidx devinfo speed len m',
       epidx = CDCECM_EP_INTIN_IDX \/ epidx = CDCECM_EP_BULKIN_IDX \/
       epidx = CDCECM_EP_BULKOUT_IDX ->
       cdcecm_mkepdesc cfg epidx None devinfo speed ∅ = Some (len, ∅) ->
       cdcecm_mkepdesc cfg epidx (Some 0%nat) devinfo speed ∅
         = Some (len, m') ->
       Z.of_nat (size m') = len).
Proof.
  intros H.
  specialize (H sample_kconfig CDCECM_EP_INTIN_IDX sample_devinfo
                USB_SPEED_UNKNOWN 13
                (stores 0 [ fld 0 7; fld 1 5; fld 2 0x81; fld 3 3;
                            fld 4 64; fld 5 0; fld 6 5 ] ∅)
                (or_introl eq_refl)).
  assert (E : Z.of_nat (size (stores 0 [ fld 0 7; fld 1 5; fld 2 0x81;
                                         fld 3 3; fld 4 64; fld 5 0;
                                         fld 6 5 ] ∅)) = 7)
    by (vm_compute; reflexivity).
  rewrite E in H. discriminate H; vm_compute; reflexivity.
Qed.

Lemma mkstrdesc_truncates_witness :
  fst (cdcecm_mkstrdesc (sample_kconfig_with 20) CDCECM_MACSTRID 0 ∅) = 20.
Proof.
  refine (proj1 (mkstrdesc_truncates (sample_kconfig_with 20) CDCECM_MACSTRID
                   "020000112233" 0 ∅ _ _ _)).
  - vm_compute. split; discriminate.
  - reflexivity.
  - vm_compute. split; reflexivity.
Defined.


(** * Proofs for the work functions of drivers/usbdev/cdcecm.c *)

Import CdcecmWork.

Lemma submissions_app ep t1 t2 :
  submissions ep (t1 ++ t2) = submissions ep t1 ++ submissions ep t2.
Proof. apply omap_app. Qed.

Lemma submissions_one ep e :
  submissions ep [e]
    = match e with
      | Call_EP_SUBMIT ep' req => if decide (ep' = ep) then [req] else []
      | _ => []
      end.
Proof.
  destruct e; try reflexivity.
  unfold submissions. cbn. destruct (decide _); reflexivity.
Qed.

Ltac submissions_tac :=
  rewrite ?submissions_app, ?submissions_one; cbn; rewrite ?app_nil_r.

Ltac keeps_rx_side_tac :=
  unfold keeps_rx_side; cbn; submissions_tac; auto 12.

Section WorkProofs.

Variable cfg : kconfig.
Variable env : collaborators.

Lemma transmit_keeps_rx_side w :
  keeps_rx_side w (final_world (cdcecm_transmit env w)).
Proof.
  unfold cdcecm_transmit, nxsem_wait_wrreq_idle, EP_SUBMIT. op_unfold.
  destruct (wrreq_idle (self w) =? 0)%N; cbn; [keeps_rx_side_tac|].
  destruct (EP_SUBMIT_status env EPBULKIN <? 0); keeps_rx_side_tac.
Qed.

Lemma keeps_rx_side_trans w1 w2 w3 :
  keeps_rx_side w1 w2 -> keeps_rx_side w2 w3 -> keeps_rx_side w1 w3.
Proof.
  unfold keeps_rx_side.
  intros (A1 & A2 & A3 & A4 & A5 & A6 & A7 & A8 & A9)
         (B1 & B2 & B3 & B4 & B5 & B6 & B7 & B8 & B9).
  repeat split; congruence.
Qed.

(** A step that only rewrites the device record and adds stack calls to
    the trace, followed by a transmit. *)
Lemma then_transmit_keeps_rx_side w w0 :
  keeps_rx_side w w0 ->
  keeps_rx_side w
    (final_world
       (match cdcecm_transmit env w0 with
        | Done _ w' => Done tt w'
        | Blocked w' => Blocked w'
        | Panic w' => Panic w'
        end)).
Proof.
  intros H. pose proof (transmit_keeps_rx_side w0) as T.
  destruct (cdcecm_transmit env w0); cbn in *;
    eapply keeps_rx_side_trans; eauto.
Qed.

Lemma receive_keeps_rx_side w :
  keeps_rx_side w (final_world (cdcecm_receive cfg env w)).
Proof.
  unfold cdcecm_receive, cdcecm_reply. op_unfold. cbn.
  repeat match goal with
    | |- context [if ?c then _ else _] => destruct c; cbn
    end;
    try apply then_transmit_keeps_rx_side; keeps_rx_side_tac.
Qed.

(** The frame handed to the poll callback is sent: one submission of the
    write request on the bulk IN endpoint, carrying the frame. *)
Lemma poll_one w f rest :
  wrreq_idle (self w) <> 0%N ->
  exists w',
    devif_poll (f :: rest) (cdcecm_txpoll env) w = Done 1 w' /\
    trace w' = trace w ++ [Call_EP_SUBMIT EPBULKIN (wrreq (self w'))] /\
    req_len (wrreq (self w')) = d_len (f (dev (self w))) /\
    (forall i, (i < Z.to_nat (d_len (f (dev (self w)))))%nat ->
       req_buf (wrreq (self w')) !! i = d_buf (f (dev (self w))) !! i) /\
    wrreq_idle (self w') = (wrreq_idle (self w) - 1)%N /\
    d_statistics (dev (self w'))
      = d_statistics (NETDEV_TXPACKETS (f (dev (self w)))) /\
    keeps_rx_side w w'.
Proof.
  intros Hidle. cbn. unfold cdcecm_txpoll. op_unfold. cbn.
  match goal with |- context [cdcecm_transmit env ?w0] =>
    destruct (transmit_done env w0 Hidle)
      as (w' & Et & Htr & Hlen & Hbuf & Hsem & _ & _ & Hst);
    pose proof (transmit_keeps_rx_side w0) as K
  end.
  rewrite Et in K |- *. cbn in *.
  exists w'. split; [reflexivity|].
  rewrite Htr, Hlen, Hbuf, Hsem, Hst.
  repeat split; try apply K.
  intros i Hi. apply memcpy_lookup. exact Hi.
Qed.

(** X1.  [cdcecm_txpoll] ends the poll pass: whatever the stack has ready,
    only its first frame reaches the driver in one pass.  With the write
    request idle that frame is submitted once on the bulk IN endpoint;
    with the write request in flight the pass sleeps on the semaphore
    with nothing submitted. *)
Theorem txpoll_ends_poll (f : net_driver_s -> net_driver_s)
    (rest : list (net_driver_s -> net_driver_s)) (w : world) :
  devif_poll (f :: rest) (cdcecm_txpoll env) w
    = devif_poll [f] (cdcecm_txpoll env) w /\
  (wrreq_idle (self w) <> 0%N ->
   exists w',
     devif_poll (f :: rest) (cdcecm_txpoll env) w = Done 1 w' /\
     submissions EPBULKIN (trace w')
       = submissions EPBULKIN (trace w) ++ [wrreq (self w')] /\
     req_len (wrreq (self w')) = d_len (f (dev (self w))) /\
     (forall i, (i < Z.to_nat (d_len (f (dev (self w)))))%nat ->
        req_buf (wrreq (self w')) !! i = d_buf (f (dev (self w))) !! i)) /\
  (wrreq_idle (self w) = 0%N ->
   exists w',
     devif_poll (f :: rest) (cdcecm_txpoll env) w = Blocked w' /\
     trace w' = trace w).
Proof.
  split; [|split].
  - cbn. unfold cdcecm_txpoll. op_unfold. cbn.
    destruct (cdcecm_transmit env _); reflexivity.
  - intros Hidle.
    destruct (poll_one w f rest Hidle) as (w' & E & Htr & Hlen & Hbuf & _).
    exists w'. split; [exact E|].
    rewrite Htr. submissions_tac. auto.
  - intros Hidle. cbn. unfold cdcecm_txpoll. op_unfold. cbn.
    rewrite transmit_blocked by exact Hidle.
    eexists; split; reflexivity.
Qed.

(** X2.  The interrupt work with a received frame pending: when the
    dispatch of the frame returns, [rxpending] is cleared and the read
    request is submitted again on the bulk OUT endpoint, exactly once,
    after everything the dispatch did. *)
Theorem interrupt_work_rearms_read
    (ready : list (net_driver_s -> net_driver_s)) (w w1 : world) :
  rxpending (self w) = true ->
  txdone (self w) = false ->
  cdcecm_receive cfg env w = Done tt w1 ->
  exists w',
    cdcecm_interrupt_work cfg env ready w = Done tt w' /\
    rxpending (self w') = false /\
    trace w' = trace w1 ++ [Call_EP_SUBMIT EPBULKOUT (rdreq (self w))] /\
    submissions EPBULKOUT (trace w')
      = submissions EPBULKOUT (trace w) ++ [rdreq (self w)] /\
    (0 <= EP_SUBMIT_status env EPBULKOUT -> ep_pending (epbulkout w') = true).
Proof.
  intros Hrx Htx Hrecv.
  pose proof (receive_keeps_rx_side w) as K. rewrite Hrecv in K. cbn in K.
  destruct K as (_ & K2 & K3 & _ & _ & _ & _ & _ & K9).
  unfold cdcecm_interrupt_work, EP_SUBMIT. op_unfold. cbn.
  rewrite Hrx, Hrecv. cbn. rewrite K3.
  destruct (EP_SUBMIT_status env EPBULKOUT <? 0) eqn:Hs; cbn;
    rewrite K2, Htx; (eexists; split; [reflexivity|]); cbn;
    submissions_tac; rewrite K9; repeat split; auto.
  intros H. apply Z.ltb_lt in Hs. lia.
Qed.

(** X3.  While the dispatch of a received frame sleeps on the write
    request (the reply cannot be sent yet), the interrupt work sleeps with
    it: [rxpending] stays set and the read request has not been submitted
    again. *)
Theorem interrupt_work_waits_for_reply
    (ready : list (net_driver_s -> net_driver_s)) (w w1 : world) :
  rxpending (self w) = true ->
  cdcecm_receive cfg env w = Blocked w1 ->
  cdcecm_interrupt_work cfg env ready w = Blocked w1 /\
  rxpending (self w1) = true /\
  submissions EPBULKOUT (trace w1) = submissions EPBULKOUT (trace w).
Proof.
  intros Hrx Hrecv.
  pose proof (receive_keeps_rx_side w) as K. rewrite Hrecv in K. cbn in K.
  destruct K as (K1 & _ & _ & _ & _ & _ & _ & _ & K9).
  unfold cdcecm_interrupt_work. op_unfold. cbn.
  rewrite Hrx, Hrecv. cbn. rewrite K1, Hrx. auto.
Qed.

(** X4.  Transmit chaining: after the write completion handler has run,
    the interrupt work (nothing received meanwhile) clears [txdone],
    counts the finished transmission, polls the stack, and the next frame
    the stack has ready is submitted on the bulk IN endpoint. *)
Theorem wrcomplete_then_work_sends_next (req : usbdev_req_s)
    (f : net_driver_s -> net_driver_s)
    (rest : list (net_driver_s -> net_driver_s)) (w : world) :
  rxpending (self w) = false ->
  exists w1 w2,
    cdcecm_wrcomplete req w = Done tt w1 /\
    cdcecm_interrupt_work cfg env (f :: rest) w1 = Done tt w2 /\
    txdone (self w2) = false /\
    tx_done (d_statistics (dev (self w2)))
      = tx_done (d_statistics (f (NETDEV_TXDONE (dev (self w))))) /\
    submissions EPBULKIN (trace w2)
      = submissions EPBULKIN (trace w) ++ [wrreq (self w2)] /\
    req_len (wrreq (self w2)) = d_len (f (NETDEV_TXDONE (dev (self w)))).
Proof.
  intros Hrx.
  unfold cdcecm_wrcomplete, nxsem_post_wrreq_idle, work_queue. op_unfold.
  assert (Hgen : forall w1 : world,
    rxpending (self w1) = false -> txdone (self w1) = true ->
    wrreq_idle (self w1) <> 0%N ->
    exists w2,
      cdcecm_interrupt_work cfg env (f :: rest) w1 = Done tt w2 /\
      txdone (self w2) = false /\
      tx_done (d_statistics (dev (self w2)))
        = tx_done (d_statistics (f (NETDEV_TXDONE (dev (self w1))))) /\
      submissions EPBULKIN (trace w2)
        = submissions EPBULKIN (trace w1) ++ [wrreq (self w2)] /\
      req_len (wrreq (self w2)) = d_len (f (NETDEV_TXDONE (dev (self w1))))).
  { intros w1 H1 H2 H3.
    unfold cdcecm_interrupt_work, cdcecm_txdone. op_unfold.
    cbn -[devif_poll]. rewrite H1. cbn -[devif_poll].
    rewrite H2. cbn -[devif_poll].
    match goal with |- context [devif_poll _ _ ?w0] =>
      destruct (poll_one w0 f rest H3)
        as (w2 & E & Htr & Hlen & _ & _ & Hst & K)
    end.
    rewrite E. exists w2. split; [reflexivity|].
    destruct K as (_ & K2 & _).
    cbn in K2, Htr, Hlen, Hst. rewrite K2, Htr, Hlen, Hst. submissions_tac.
    repeat split; auto. }
  destruct (SEM_VALUE_MAX <=? wrreq_idle (self w))%N eqn:Hmax; cbn;
    destruct (irqwork (self w)) eqn:Hq; cbn;
    (eexists; edestruct Hgen as (w2 & E2 & R);
     [| | | exists w2; split; [reflexivity|]; split; [exact E2|];
            cbn in R; rewrite ?submissions_app, ?submissions_one in R;
            cbn in R; rewrite ?app_nil_r in R; exact R]);
    cbn; auto;
    try (apply N.leb_le in Hmax; unfold SEM_VALUE_MAX in Hmax; lia);
    lia.
Qed.

(** X5.  The transmit-available callback coalesces: it returns OK and
    leaves the poll work pending, having queued it only when it was not
    pending; a second notification before the work has run changes
    nothing. *)
Theorem txavail_coalesces (w : world) :
  exists w1,
    cdcecm_txavail w = Done OK w1 /\
    pollwork (self w1) = true /\
    trace w1 = trace w ++ (if pollwork (self w) then []
                           else [Call_work_queue POLLWORK]) /\
    cdcecm_txavail w1 = Done OK w1.
Proof.
  unfold cdcecm_txavail, work_available, work_queue. op_unfold. cbn.
  destruct (pollwork (self w)) eqn:Hp; cbn.
  - exists w. rewrite Hp, app_nil_r. cbn. auto.
  - rewrite Hp. eexists; split; [reflexivity|]. cbn. auto.
Qed.

(** X6.  The poll work ignores the notification while the interface is
    down, whatever the stack has ready; with the interface up and the
    write request idle it sends the first ready frame. *)
Theorem txavail_work_polls_when_up
    (f : net_driver_s -> net_driver_s)
    (rest : list (net_driver_s -> net_driver_s)) (w : world) :
  (bifup (self w) = false ->
   cdcecm_txavail_work env (f :: rest) w = Done tt w) /\
  (bifup (self w) = true -> wrreq_idle (self w) <> 0%N ->
   exists w',
     cdcecm_txavail_work env (f :: rest) w = Done tt w' /\
     submissions EPBULKIN (trace w')
       = submissions EPBULKIN (trace w) ++ [wrreq (self w')] /\
     req_len (wrreq (self w')) = d_len (f (dev (self w)))).
Proof.
  split.
  - intros H. unfold cdcecm_txavail_work. op_unfold. rewrite H. reflexivity.
  - intros H Hidle. unfold cdcecm_txavail_work. op_unfold. rewrite H.
    destruct (poll_one w f rest Hidle) as (w' & E & Htr & Hlen & _).
    rewrite E. exists w'. split; [reflexivity|].
    rewrite Htr. submissions_tac. auto.
Qed.

End WorkProofs.

Lemma txpoll_ends_poll_witness :
  exists w',
    devif_poll [fun d => set_d_len 60 d; fun d => set_d_len 90 d]
      (cdcecm_txpoll (sample_collaborators (fun _ => OK) (fun _ => OK)))
      active_world = Done 1 w' /\
    submissions EPBULKIN (trace w') = [wrreq (self w')] /\
    req_len (wrreq (self w')) = 60.
Proof.
  destruct (proj1 (proj2
              (txpoll_ends_poll
                 (sample_collaborators (fun _ => OK) (fun _ => OK))
                 (fun d => set_d_len 60 d) [fun d => set_d_len 90 d]
                 active_world)) ltac:(discriminate))
    as (w' & E & Hs & Hl & _).
  exists w'. split; [exact E|]. split; [exact Hs | exact Hl].
Defined.

Lemma interrupt_work_rearms_read_witness :
  exists w',
    cdcecm_interrupt_work sample_kconfig
      (sample_collaborators (fun _ => OK) (fun _ => OK)) []
      (received_world active_world ETHTYPE_IP 64) = Done tt w' /\
    rxpending (self w') = false /\
    submissions EPBULKOUT (trace w')
      = [rdreq (self (received_world active_world ETHTYPE_IP 64))].
Proof.
  destruct (interrupt_work_rearms_read sample_kconfig
              (sample_collaborators (fun _ => OK) (fun _ => OK)) []
              (received_world active_world ETHTYPE_IP 64)
              (final_world
                 (cdcecm_receive sample_kconfig
                    (sample_collaborators (fun _ => OK) (fun _ => OK))
                    (received_world active_world ETHTYPE_IP 64)))
              eq_refl eq_refl ltac:(vm_compute; reflexivity))
    as (w' & E & Hrx & _ & Hs & _).
  exists w'. split; [exact E|]. split; [exact Hrx | exact Hs].
Defined.

Lemma interrupt_work_waits_for_reply_witness :
  let w := received_world
             (set_self (set_wrreq_idle 0 (self active_world)) active_world)
             ETHTYPE_ARP 64 in
  exists w1,
    cdcecm_interrupt_work sample_kconfig
      (sample_collaborators (fun _ => OK) (fun _ => OK)) [] w = Blocked w1 /\
    rxpending (self w1) = true /\
    submissions EPBULKOUT (trace w1) = [].
Proof.
  intros w.
  exists (final_world
            (cdcecm_receive sample_kconfig
               (sample_collaborators (fun _ => OK) (fun _ => OK)) w)).
  exact (interrupt_work_waits_for_reply sample_kconfig
           (sample_collaborators (fun _ => OK) (fun _ => OK)) [] w _
           eq_refl ltac:(vm_compute; reflexivity)).
Defined.

Lemma wrcomplete_then_work_sends_next_witness :
  exists w1 w2,
    cdcecm_wrcomplete empty_req active_world = Done tt w1 /\
    cdcecm_interrupt_work sample_kconfig
      (sample_collaborators (fun _ => OK) (fun _ => OK))
      [fun d => set_d_len 60 d] w1 = Done tt w2 /\
    txdone (self w2) = false /\
    tx_done (d_statistics (dev (self w2))) = 1%N /\
    submissions EPBULKIN (trace w2) = [wrreq (self w2)] /\
    req_len (wrreq (self w2)) = 60.
Proof.
  exact (wrcomplete_then_work_sends_next sample_kconfig
           (sample_collaborators (fun _ => OK) (fun _ => OK))
           empty_req (fun d => set_d_len 60 d) [] active_world eq_refl).
Defined.

Lemma txavail_work_polls_when_up_witness :
  exists w',
    cdcecm_txavail_work (sample_collaborators (fun _ => OK) (fun _ => OK))
      [fun d => set_d_len 60 d] active_world = Done tt w' /\
    submissions EPBULKIN (trace w') = [wrreq (self w')] /\
    req_len (wrreq (self w')) = 60.
Proof.
  exact (proj2 (txavail_work_polls_when_up
                  (sample_collaborators (fun _ => OK) (fun _ => OK))
                  (fun d => set_d_len 60 d) [] active_world)
           eq_refl ltac:(discriminate)).
Defined.

(** * Proofs for the configuration and the control requests of
      drivers/usbdev/cdcecm.c *)

Lemma disabled_app t1 t2 : disabled (t1 ++ t2) = disabled t1 ++ disabled t2.
Proof. apply omap_app. Qed.

Lemma disabled_one e :
  disabled [e] = match e with Call_EP_DISABLE ep => [ep] | _ => [] end.
Proof. destruct e; reflexivity. Qed.

Section ConfigMoreProofs.

Variable cfg : kconfig.
Variable env : collaborators.

(** X7.  SET_CONFIGURATION of the supported id on an unconfigured driver,
    the controller accepting every call: the three endpoints are configured
    in the order interrupt IN, bulk IN, bulk OUT (the last one flagged as
    such), the read request is submitted on the bulk OUT endpoint, the MAC
    address is set, the link is reported up, and the configuration becomes
    current. *)
Theorem setconfig_configures (w : world) :
  config (self w) = CDCECM_CONFIGID_NONE ->
  (forall ep, 0 <= EP_CONFIGURE_status env ep) ->
  EP_SUBMIT_status env EPBULKOUT = OK ->
  CONFIG_DEBUG_ASSERTIONS cfg = false \/ rxpending (self w) = false ->
  exists w',
    cdcecm_setconfig cfg env CDCECM_CONFIGID w = Done OK w' /\
    config (self w') = CDCECM_CONFIGID /\
    ep_configured (epint w') = true /\
    ep_configured (epbulkin w') = true /\
    ep_configured (epbulkout w') = true /\
    ep_pending (epbulkout w') = true /\
    bifup (self w') = true /\
    Z.testbit (d_flags (dev (self w'))) 0 = true /\
    d_mac (dev (self w')) = [0x00; 0xe0; 0xde; 0xad; 0xbe; 0xef] /\
    trace w' = trace w ++
      [ Call_EP_CONFIGURE EPINT
          (local_epdesc cfg CDCECM_EP_INTIN_IDX (self w)) false;
        Call_EP_CONFIGURE EPBULKIN
          (local_epdesc cfg CDCECM_EP_BULKIN_IDX (self w)) false;
        Call_EP_CONFIGURE EPBULKOUT
          (local_epdesc cfg CDCECM_EP_BULKOUT_IDX (self w)) true;
        Call_EP_SUBMIT EPBULKOUT (rdreq (self w));
        Call_d_ifup ].
Proof.
  intros Hc Hconf Hsub Hassert.
  assert (E : forall ep, (EP_CONFIGURE_status env ep <? 0) = false)
    by (intros ep; apply Z.ltb_ge; apply Hconf).
  assert (Ha : CONFIG_DEBUG_ASSERTIONS cfg && negb (negb (rxpending (self w)))
               = false).
  { destruct Hassert as [-> | ->]; [reflexivity | apply andb_false_r]. }
  unfold cdcecm_setconfig, cdcecm_resetconfig, EP_CONFIGURE, EP_SUBMIT,
    cdcecm_ifup, DEBUGASSERT.
  op_unfold.
  repeat (progress (cbn; rewrite ?Hc, ?E, ?Hsub, ?Ha)).
  eexists; split; [reflexivity|]. cbn.
  rewrite <- !app_assoc. cbn. repeat split; auto.
  rewrite <- Z.bit0_odd, Z.lor_spec. apply orb_true_r.
Qed.

(** X8.  SET_CONFIGURATION of the id NONE always succeeds and leaves the
    driver unconfigured: from a configured state the link is down and the
    three endpoints are disabled, in the order interrupt IN, bulk IN, bulk
    OUT; repeating the request changes nothing. *)
Theorem setconfig_none_unconfigures (w : world) :
  exists w',
    cdcecm_setconfig cfg env CDCECM_CONFIGID_NONE w = Done OK w' /\
    config (self w') = CDCECM_CONFIGID_NONE /\
    (config (self w) = CDCECM_CONFIGID_NONE -> w' = w) /\
    (config (self w) <> CDCECM_CONFIGID_NONE ->
       bifup (self w') = false /\
       ep_configured (epint w') = false /\
       ep_configured (epbulkin w') = false /\
       ep_configured (epbulkout w') = false) /\
    cdcecm_setconfig cfg env CDCECM_CONFIGID_NONE w' = Done OK w'.
Proof.
  destruct (resetconfig_done cfg env w) as (w' & E & Hc & Hsame & Hreset).
  exists w'.
  assert (Hagain : cdcecm_setconfig cfg env CDCECM_CONFIGID_NONE w'
                   = Done OK w').
  { unfold cdcecm_setconfig. op_unfold. cbn. rewrite Hc. reflexivity. }
  destruct (Z.eq_dec (config (self w)) CDCECM_CONFIGID_NONE) as [H0|H0].
  - rewrite (Hsame H0) in *. repeat split; auto; contradiction.
  - split.
    + unfold cdcecm_setconfig. op_unfold. cbn -[cdcecm_resetconfig Z.eqb].
      destruct (Z.eqb_spec CDCECM_CONFIGID_NONE (config (self w)));
        [congruence|].
      rewrite E. reflexivity.
    + repeat split; auto; try contradiction;
        destruct (Hreset H0) as (? & ? & ? & ? & _); auto.
Qed.

Lemma EP_DISABLE_disabled ep w :
  disabled (trace (final_world (EP_DISABLE cfg env ep w)))
    = disabled (trace w) ++ [ep].
Proof.
  unfold EP_DISABLE, cdcecm_wrcomplete, nxsem_post_wrreq_idle, work_queue.
  op_unfold.
  destruct ep; cbn -[cdcecm_rdcomplete];
    repeat match goal with
      | |- context [if ?c then _ else _] =>
          destruct c; cbn -[cdcecm_rdcomplete]
      end;
    rewrite ?(rdcomplete_shutdown cfg env) by reflexivity; cbn;
    rewrite ?disabled_app, ?disabled_one; cbn; rewrite ?app_nil_r;
    reflexivity.
Qed.

(** X9.  [cdcecm_resetconfig] on a configured driver reports the link
    down first and then disables the interrupt IN, bulk IN and bulk OUT
    endpoints, in this order; a write request in flight comes back with
    [-ESHUTDOWN] and leaves the write-request semaphore available. *)
Theorem resetconfig_disables_in_order (w : world) :
  config (self w) <> CDCECM_CONFIGID_NONE ->
  exists w',
    cdcecm_resetconfig cfg env w = Done tt w' /\
    disabled (trace w') = disabled (trace w) ++ [EPINT; EPBULKIN; EPBULKOUT] /\
    (exists t, trace w' = trace w ++ Call_d_ifdown :: t) /\
    (ep_pending (epbulkin w) = true ->
       req_result (wrreq (self w')) = - ESHUTDOWN /\
       (0 < wrreq_idle (self w'))%N /\
       txdone (self w') = true).
Proof.
  intros Hc.
  unfold cdcecm_resetconfig, cdcecm_ifdown. op_unfold. cbn.
  destruct (Z.eqb_spec (config (self w)) CDCECM_CONFIGID_NONE);
    [contradiction|]. cbn.
  unfold EP_DISABLE, cdcecm_wrcomplete, nxsem_post_wrreq_idle, work_queue.
  op_unfold. cbn -[cdcecm_rdcomplete].
  destruct (ep_pending (epint w)); cbn -[cdcecm_rdcomplete];
    destruct (ep_pending (epbulkin w)) eqn:Hin; cbn -[cdcecm_rdcomplete];
    destruct (SEM_VALUE_MAX <=? wrreq_idle (self w))%N eqn:Hmax;
    cbn -[cdcecm_rdcomplete];
    destruct (irqwork (self w)); cbn -[cdcecm_rdcomplete];
    destruct (ep_pending (epbulkout w)); cbn -[cdcecm_rdcomplete];
    rewrite ?(rdcomplete_shutdown cfg env) by reflexivity;
    (eexists; split; [reflexivity|]); cbn;
    rewrite ?disabled_app, ?disabled_one; cbn;
    rewrite <- ?app_assoc; cbn;
    (split; [reflexivity|]); (split; [eexists; reflexivity|]);
    intros Hp; try discriminate; repeat split; auto;
    try (apply N.leb_le in Hmax; unfold SEM_VALUE_MAX in Hmax; lia); lia.
Qed.

(** X10.  A control request that is neither one of the three standard
    requests the driver serves nor the class request
    ECM_SET_PACKET_FILTER is answered with [-EOPNOTSUPP]: nothing is
    submitted and the driver is unchanged. *)
Theorem setup_unsupported_request (usbdev : usbdev_s) (ctrl : usb_ctrlreq_s)
    (w : world) :
  (Z.land (ctrl_type ctrl) USB_REQ_TYPE_MASK = USB_REQ_TYPE_STANDARD ->
   ctrl_req ctrl <> USB_REQ_GETDESCRIPTOR /\
   ctrl_req ctrl <> USB_REQ_SETCONFIGURATION /\
   ctrl_req ctrl <> USB_REQ_SETINTERFACE) ->
  (Z.land (ctrl_type ctrl) USB_REQ_TYPE_MASK = USB_REQ_TYPE_CLASS ->
   ctrl_req ctrl <> ECM_SET_PACKET_FILTER) ->
  cdcecm_setup cfg env usbdev ctrl w = Done (- EOPNOTSUPP) w.
Proof.
  intros Hstd Hcls. unfold cdcecm_setup. op_unfold.
  destruct (Z.eqb_spec (Z.land (ctrl_type ctrl) USB_REQ_TYPE_MASK)
              USB_REQ_TYPE_STANDARD) as [Es|Es].
  - destruct (Hstd Es) as (H1 & H2 & H3).
    destruct (Z.eqb_spec (ctrl_req ctrl) USB_REQ_GETDESCRIPTOR);
      [contradiction|].
    destruct (Z.eqb_spec (ctrl_req ctrl) USB_REQ_SETCONFIGURATION);
      [contradiction|].
    destruct (Z.eqb_spec (ctrl_req ctrl) USB_REQ_SETINTERFACE);
      [contradiction|].
    reflexivity.
  - destruct (Z.eqb_spec (Z.land (ctrl_type ctrl) USB_REQ_TYPE_MASK)
                USB_REQ_TYPE_CLASS) as [Ec|Ec]; [|reflexivity].
    destruct (Z.eqb_spec (ctrl_req ctrl) ECM_SET_PACKET_FILTER);
      [|reflexivity].
    destruct (Hcls Ec). assumption.
Qed.

(** The status of the reply submitted on the control endpoint. *)
Local Abbreviation ep0_status :=
  (if CONFIG_CDCECM_COMPOSITE cfg then composite_ep0submit_status env
   else EP_SUBMIT_status env EP0).

Local Abbreviation ep0_call r :=
  (if CONFIG_CDCECM_COMPOSITE cfg then Call_composite_ep0submit r
   else Call_EP_SUBMIT EP0 r).

(** X11.  The class request ECM_SET_PACKET_FILTER is accepted whatever
    filter it carries: the driver answers with a zero-length reply on the
    control endpoint and changes neither its configuration nor the device
    record; when the reply cannot be submitted the error is returned and
    the control request is marked done. *)
Theorem setup_set_packet_filter (usbdev : usbdev_s) (ctrl : usb_ctrlreq_s)
    (w : world) :
  Z.land (ctrl_type ctrl) USB_REQ_TYPE_MASK = USB_REQ_TYPE_CLASS ->
  ctrl_req ctrl = ECM_SET_PACKET_FILTER ->
  0 <= GETUINT16 (ctrl_len ctrl) ->
  exists w',
    cdcecm_setup cfg env usbdev ctrl w = Done ep0_status w' /\
    req_len (ctrlreq (self w')) = 0 /\
    req_flags (ctrlreq (self w')) = USBDEV_REQFLAGS_NULLPKT /\
    req_buf (ctrlreq (self w')) = req_buf (ctrlreq (self w)) /\
    config (self w') = config (self w) /\
    dev (self w') = dev (self w) /\
    (ep0_status < 0 -> req_result (ctrlreq (self w')) = OK) /\
    (exists r, trace w' = trace w ++ [ep0_call r] /\ req_len r = 0).
Proof.
  intros Ht Hr Hlen. unfold cdcecm_setup. rewrite Ht, Hr.
  change (USB_REQ_TYPE_CLASS =? USB_REQ_TYPE_STANDARD) with false.
  rewrite !Z.eqb_refl.
  unfold EP_SUBMIT. op_unfold. cbn -[Z.min].
  replace (Z.min (GETUINT16 (ctrl_len ctrl)) OK) with 0
    by (unfold OK; lia).
  destruct (CONFIG_CDCECM_COMPOSITE cfg); cbn;
    match goal with
    | |- context [?st <? 0] => destruct (st <? 0) eqn:Es
    end; cbn; rewrite ?Es; cbn;
    (eexists; split; [reflexivity|]); cbn;
    repeat split; auto; try (apply Z.ltb_ge in Es; lia);
    eexists; split; reflexivity.
Qed.

(** X12.  GET_DESCRIPTOR served: the device speed is recorded, the
    descriptor is built in the buffer of the control request, and the
    reply submitted on the control endpoint carries the descriptor clamped
    to the length the host asked for, [MIN(wLength, ret)]. *)
Theorem setup_get_descriptor_reply (usbdev : usbdev_s)
    (ctrl : usb_ctrlreq_s) (w : world) (ret : Z) (m : buffer) :
  Z.land (ctrl_type ctrl) USB_REQ_TYPE_MASK = USB_REQ_TYPE_STANDARD ->
  ctrl_req ctrl = USB_REQ_GETDESCRIPTOR ->
  cdcecm_getdescriptor cfg env (set_usbdev_speed (speed usbdev) (self w))
    (snd (ctrl_value ctrl)) (fst (ctrl_value ctrl))
    (req_buf (ctrlreq (self w))) = Some (ret, m) ->
  0 <= ret ->
  exists w',
    cdcecm_setup cfg env usbdev ctrl w = Done ep0_status w' /\
    req_len (ctrlreq (self w')) = Z.min (GETUINT16 (ctrl_len ctrl)) ret /\
    req_flags (ctrlreq (self w')) = USBDEV_REQFLAGS_NULLPKT /\
    req_buf (ctrlreq (self w')) = m /\
    usbdev_speed (self w') = speed usbdev /\
    config (self w') = config (self w) /\
    (ep0_status < 0 -> req_result (ctrlreq (self w')) = OK) /\
    (exists r, trace w' = trace w ++ [ep0_call r] /\
               req_len r = Z.min (GETUINT16 (ctrl_len ctrl)) ret /\
               req_buf r = m).
Proof.
  intros Ht Hr Hg Hret. unfold cdcecm_setup. rewrite Ht, Hr.
  rewrite !Z.eqb_refl. op_unfold. cbn -[cdcecm_getdescriptor Z.min].
  rewrite Hg. cbn -[Z.min].
  assert (Eg : (ret >=? 0) = true) by (apply Z.geb_le; lia).
  rewrite Eg.
  unfold EP_SUBMIT; op_unfold;
  destruct (CONFIG_CDCECM_COMPOSITE cfg); cbn -[Z.min];
  match goal with
  | |- context [?st <? 0] => destruct (st <? 0) eqn:Es
  end; cbn -[Z.min]; rewrite ?Es; cbn -[Z.min];
  (eexists; split; [reflexivity|]); cbn -[Z.min];
  repeat split; auto; try (apply Z.ltb_ge in Es; lia);
  eexists; repeat split; reflexivity.
Qed.

Lemma uint8_GETUINT16 lo hi :
  0 <= lo < 256 -> 0 <= hi -> uint8 (GETUINT16 (lo, hi)) = lo.
Proof.
  intros Hlo Hhi. unfold uint8, GETUINT16. cbn [fst snd].
  rewrite <- Z.land_ones by lia.
  rewrite Z.land_lor_distr_l, !Z.land_ones by lia.
  rewrite Z.shiftl_mul_pow2 by lia.
  rewrite Z.mod_mul by lia.
  rewrite Z.lor_0_l. apply Z.mod_small. lia.
Qed.

(** X13.  SET_CONFIGURATION uses the low byte of wValue only: two
    requests that differ in the high byte of wValue are handled alike,
    since [cdcecm_setconfig] takes the configuration as a [uint8_t]. *)
Theorem setup_set_configuration_low_byte (usbdev : usbdev_s)
    (ctrl1 ctrl2 : usb_ctrlreq_s) (w : world) :
  Z.land (ctrl_type ctrl1) USB_REQ_TYPE_MASK = USB_REQ_TYPE_STANDARD ->
  ctrl_req ctrl1 = USB_REQ_SETCONFIGURATION ->
  ctrl_type ctrl2 = ctrl_type ctrl1 ->
  ctrl_req ctrl2 = ctrl_req ctrl1 ->
  ctrl_len ctrl2 = ctrl_len ctrl1 ->
  fst (ctrl_value ctrl2) = fst (ctrl_value ctrl1) ->
  0 <= fst (ctrl_value ctrl1) < 256 ->
  0 <= snd (ctrl_value ctrl1) -> 0 <= snd (ctrl_value ctrl2) ->
  cdcecm_setup cfg env usbdev ctrl1 w = cdcecm_setup cfg env usbdev ctrl2 w.
Proof.
  intros Ht Hr Et Er El Ev Hlo Hh1 Hh2.
  unfold cdcecm_setup. rewrite Et, Er, El, Ht, Hr.
  change (USB_REQ_SETCONFIGURATION =? USB_REQ_GETDESCRIPTOR) with false.
  rewrite !Z.eqb_refl.
  destruct (ctrl_value ctrl1) as [lo1 hi1], (ctrl_value ctrl2) as [lo2 hi2].
  cbn [fst snd] in *. subst lo2.
  rewrite !uint8_GETUINT16 by lia.
  reflexivity.
Qed.

End ConfigMoreProofs.

Lemma setconfig_configures_witness :
  exists w',
    cdcecm_setconfig sample_kconfig
      (sample_collaborators (fun _ => OK) (fun _ => OK))
      CDCECM_CONFIGID bound_world = Done OK w' /\
    config (self w') = CDCECM_CONFIGID /\
    bifup (self w') = true.
Proof.
  destruct (setconfig_configures sample_kconfig
              (sample_collaborators (fun _ => OK) (fun _ => OK))
              bound_world eq_refl
              (fun _ => ltac:(cbn; unfold OK; lia)) eq_refl
              (or_introl eq_refl))
    as (w' & E & Hc & _ & _ & _ & _ & Hup & _).
  exists w'. split; [exact E|]. split; [exact Hc | exact Hup].
Defined.

Lemma setconfig_none_unconfigures_witness :
  exists w',
    cdcecm_setconfig sample_kconfig
      (sample_collaborators (fun _ => OK) (fun _ => OK))
      CDCECM_CONFIGID_NONE active_world = Done OK w' /\
    bifup (self w') = false /\
    ep_configured (epbulkout w') = false.
Proof.
  destruct (setconfig_none_unconfigures sample_kconfig
              (sample_collaborators (fun _ => OK) (fun _ => OK))
              active_world)
    as (w' & E & _ & _ & Hreset & _).
  destruct (Hreset ltac:(vm_compute; discriminate)) as (Hup & _ & _ & Hout).
  exists w'. split; [exact E|]. split; [exact Hup | exact Hout].
Defined.

Lemma resetconfig_disables_in_order_witness :
  exists w',
    cdcecm_resetconfig sample_kconfig
      (sample_collaborators (fun _ => OK) (fun _ => OK)) active_world
    = Done tt w' /\
    disabled (trace w') = [EPINT; EPBULKIN; EPBULKOUT].
Proof.
  destruct (resetconfig_disables_in_order sample_kconfig
              (sample_collaborators (fun _ => OK) (fun _ => OK))
              active_world ltac:(vm_compute; discriminate))
    as (w' & E & Hd & _).
  exists w'. split; [exact E | exact Hd].
Defined.

(** A GET_STATUS request, which the driver does not serve. *)
Lemma setup_unsupported_request_witness :
  cdcecm_setup sample_kconfig
    (sample_collaborators (fun _ => OK) (fun _ => OK))
    {| speed := USB_SPEED_HIGH |}
    {| ctrl_type := 0x80; ctrl_req := 0x00; ctrl_value := (0, 0);
       ctrl_index := (0, 0); ctrl_len := (2, 0) |}
    active_world
  = Done (- EOPNOTSUPP) active_world.
Proof.
  apply setup_unsupported_request.
  - intros _. cbn. repeat split; discriminate.
  - cbn. discriminate.
Defined.

Lemma setup_set_packet_filter_witness :
  exists w',
    cdcecm_setup sample_kconfig
      (sample_collaborators (fun _ => OK) (fun _ => OK))
      {| speed := USB_SPEED_HIGH |}
      {| ctrl_type := 0x21; ctrl_req := ECM_SET_PACKET_FILTER;
         ctrl_value := (0x0f, 0); ctrl_index := (0, 0); ctrl_len := (0, 0) |}
      active_world
    = Done OK w' /\
    req_len (ctrlreq (self w')) = 0.
Proof.
  destruct (setup_set_packet_filter sample_kconfig
              (sample_collaborators (fun _ => OK) (fun _ => OK))
              {| speed := USB_SPEED_HIGH |}
              {| ctrl_type := 0x21; ctrl_req := ECM_SET_PACKET_FILTER;
                 ctrl_value := (0x0f, 0); ctrl_index := (0, 0);
                 ctrl_len := (0, 0) |}
              active_world eq_refl eq_refl ltac:(vm_compute; discriminate))
    as (w' & E & Hl & _).
  exists w'. split; [exact E | exact Hl].
Defined.

(** The serial-number string "0" asked for with wLength 255: the reply has
    the 4 bytes of the descriptor. *)
Lemma setup_get_descriptor_reply_witness :
  exists w',
    cdcecm_setup sample_kconfig
      (sample_collaborators (fun _ => OK) (fun _ => OK))
      {| speed := USB_SPEED_HIGH |}
      {| ctrl_type := 0x80; ctrl_req := USB_REQ_GETDESCRIPTOR;
         ctrl_value := (CDCECM_SERIALSTRID, USB_DESC_TYPE_STRING);
         ctrl_index := (0, 0); ctrl_len := (255, 0) |}
      bound_world
    = Done OK w' /\
    req_len (ctrlreq (self w')) = 4.
Proof.
  edestruct (setup_get_descriptor_reply sample_kconfig
               (sample_collaborators (fun _ => OK) (fun _ => OK))
               {| speed := USB_SPEED_HIGH |}
               {| ctrl_type := 0x80; ctrl_req := USB_REQ_GETDESCRIPTOR;
                  ctrl_value := (CDCECM_SERIALSTRID, USB_DESC_TYPE_STRING);
                  ctrl_index := (0, 0); ctrl_len := (255, 0) |}
               bound_world)
    as (w' & E & Hl & _);
    [reflexivity | reflexivity | vm_compute; reflexivity
    | vm_compute; discriminate |].
  exists w'. split; [exact E | exact Hl].
Defined.

(** SET_CONFIGURATION with wValue 0x0101 is handled as with wValue 1. *)
Lemma setup_set_configuration_low_byte_witness :
  cdcecm_setup sample_kconfig
    (sample_collaborators (fun _ => OK) (fun _ => OK))
    {| speed := USB_SPEED_HIGH |}
    {| ctrl_type := 0x00; ctrl_req := USB_REQ_SETCONFIGURATION;
       ctrl_value := (1, 0); ctrl_index := (0, 0); ctrl_len := (0, 0) |}
    bound_world
  = cdcecm_setup sample_kconfig
      (sample_collaborators (fun _ => OK) (fun _ => OK))
      {| speed := USB_SPEED_HIGH |}
      {| ctrl_type := 0x00; ctrl_req := USB_REQ_SETCONFIGURATION;
         ctrl_value := (1, 1); ctrl_index := (0, 0); ctrl_len := (0, 0) |}
      bound_world.
Proof.
  apply setup_set_configuration_low_byte;
    try reflexivity; cbn; lia.
Defined.

(** * Proofs for the descriptors of drivers/usbdev/cdcecm.c *)

Import CdcecmDesc.

Lemma Some_pair_fst {A B : Type} (a c : A) (b d : B) :
  Some (a, b) = Some (c, d) -> a = c.
Proof. intros [= -> _]. reflexivity. Qed.

Lemma None_not_Some_pair {A B : Type} (c : A) (d : B) :
  None = Some (c, d) -> False.
Proof. discriminate. Qed.

Lemma agree_off_type_byte (a b : buffer) :
  delete 1%nat a = delete 1%nat b ->
  forall p, p <> 1%nat -> a !! p = b !! p.
Proof.
  intros D p Hp.
  rewrite <- (lookup_delete_ne a 1%nat p) by congruence.
  rewrite <- (lookup_delete_ne b 1%nat p) by congruence.
  rewrite D. reflexivity.
Qed.

Section DescriptorMoreProofs.

Variable cfg : kconfig.

(** X14.  String descriptor indices the driver does not know are refused
    with [-EINVAL] and nothing is written: in a stand-alone build every
    index outside 0..5, in a composite build every index but that of the
    MAC address string, the language id included. *)
Theorem mkstrdesc_unknown_id (id : Z) (strdesc : nat) (m : buffer) :
  (CONFIG_CDCECM_COMPOSITE cfg = false -> id < 0 \/ 5 < id) ->
  (CONFIG_CDCECM_COMPOSITE cfg = true -> id <> CDCECM_MACSTRID) ->
  cdcecm_mkstrdesc cfg id strdesc m = (- EINVAL, m).
Proof.
  intros Hs Hc. unfold cdcecm_mkstrdesc, strdesc_source.
  unfold CDCECM_MANUFACTURERSTRID, CDCECM_PRODUCTSTRID, CDCECM_SERIALSTRID,
    CDCECM_CONFIGSTRID, CDCECM_MACSTRID in *.
  destruct (CONFIG_CDCECM_COMPOSITE cfg); cbn [negb andb].
  - specialize (Hc eq_refl).
    destruct (Z.eqb_spec id 5); [contradiction | reflexivity].
  - specialize (Hs eq_refl).
    destruct (Z.eqb_spec id 0), (Z.eqb_spec id 1), (Z.eqb_spec id 2),
      (Z.eqb_spec id 3), (Z.eqb_spec id 4), (Z.eqb_spec id 5);
      try lia; reflexivity.
Qed.

(** X15.  String descriptor 0 of a stand-alone build is the language id
    descriptor: four bytes, length 4, type STRING, then the language
    0x0409 in little-endian order; no other byte is written. *)
Theorem mkstrdesc_language_id (strdesc : nat) (m : buffer) :
  CONFIG_CDCECM_COMPOSITE cfg = false ->
  let r := cdcecm_mkstrdesc cfg 0 strdesc m in
  fst r = 4 /\
  snd r !! strdesc = Some 4 /\
  snd r !! (strdesc + 1)%nat = Some USB_DESC_TYPE_STRING /\
  read16 (snd r) (strdesc + 2) = CDCECM_STR_LANGUAGE /\
  (forall p, (p < strdesc \/ strdesc + 4 <= p)%nat -> snd r !! p = m !! p).
Proof.
  intros Hc r. subst r. unfold cdcecm_mkstrdesc. rewrite Hc.
  cbn [negb andb Z.eqb fst snd]. unfold stores, fld, store8, read16.
  cbn [fold_left].
  replace (strdesc + 0)%nat with strdesc by lia.
  replace (S (strdesc + 2))%nat with (strdesc + 2 + 1)%nat by lia.
  split; [reflexivity|]. split; [|split; [|split]].
  - rewrite !lookup_insert_ne by lia. apply lookup_insert_eq.
  - rewrite !lookup_insert_ne by lia. apply lookup_insert_eq.
  - rewrite lookup_insert_ne by lia. rewrite !lookup_insert_eq.
    reflexivity.
  - intros p Hp. rewrite !lookup_insert_ne by lia. reflexivity.
Qed.

(** X16.  A source string that fits is encoded whole: the descriptor has
    length [2 * strlen + 2], and decoding its 16-bit units gives back the
    characters of the string. *)
Theorem mkstrdesc_round_trip (id : Z) (str : string) (strdesc : nat)
    (m : buffer) :
  CDCECM_MXDESCLEN cfg <= 255 ->
  strdesc_source cfg id = Some str ->
  Z.of_nat (strlen str) <= CDCECM_MAXSTRLEN cfg ÷ 2 ->
  let r := cdcecm_mkstrdesc cfg id strdesc m in
  fst r = 2 * Z.of_nat (strlen str) + 2 /\
  snd r !! (strdesc + 1)%nat = Some USB_DESC_TYPE_STRING /\
  decode_strdesc (snd r) strdesc = chars str.
Proof.
  intros Hmx Hsrc Hlen r. subst r.
  unfold cdcecm_mkstrdesc.
  rewrite (strdesc_source_nonzero cfg id str Hsrc), Hsrc.
  set (n := strlen str) in *.
  assert (Hq : 2 * (CDCECM_MAXSTRLEN cfg ÷ 2) + 2 <= 255).
  { unfold CDCECM_MAXSTRLEN in *.
    destruct (Z.le_gt_cases 0 (CDCECM_MXDESCLEN cfg - 2)) as [Hp|Hn].
    - rewrite Z.quot_div_nonneg in * by lia.
      pose proof (Z.div_mod (CDCECM_MXDESCLEN cfg - 2) 2 ltac:(lia)).
      pose proof (Z.mod_pos_bound (CDCECM_MXDESCLEN cfg - 2) 2 ltac:(lia)).
      lia.
    - pose proof (Z.quot_opp_l (- (CDCECM_MXDESCLEN cfg - 2)) 2
                    ltac:(lia)) as Q.
      rewrite Z.opp_involutive in Q.
      pose proof (Z.quot_pos (- (CDCECM_MXDESCLEN cfg - 2)) 2
                    ltac:(lia) ltac:(lia)).
      lia. }
  assert (E32 : int32 (Z.of_nat n) = Z.of_nat n).
  { unfold int32. rewrite Z.mod_small by lia. lia. }
  rewrite E32.
  assert (Egt : (Z.of_nat n >? CDCECM_MAXSTRLEN cfg ÷ 2) = false).
  { destruct (Z.of_nat n >? CDCECM_MAXSTRLEN cfg ÷ 2) eqn:G;
      [apply Z.gtb_lt in G; lia | reflexivity]. }
  rewrite Egt, Nat2Z.id.
  destruct (expand_loop_spec str (strdesc + 2) n 0 0 m)
    as (Hfst & Hdata & Hframe).
  destruct (expand_loop n str (strdesc + 2) 0 0 m) as [ndata m1].
  cbn [fst snd] in *. subst ndata.
  assert (E8 : uint8 (Z.of_nat (0 + 2 * n) + 2) = 2 * Z.of_nat n + 2).
  { unfold uint8. rewrite Z.mod_small by lia. lia. }
  rewrite E8. unfold stores, fld, store8. cbn [fold_left].
  rewrite E8. split; [reflexivity|]. split.
  - rewrite lookup_insert_eq. reflexivity.
  - unfold decode_strdesc, chars.
    rewrite lookup_insert_ne by lia. rewrite Nat.add_0_r.
    rewrite lookup_insert_eq. cbv [default from_option Datatypes.id].
    replace ((Z.to_nat (2 * Z.of_nat n + 2) - 2) / 2)%nat with n.
    2:{ replace (Z.to_nat (2 * Z.of_nat n + 2) - 2)%nat with (n * 2)%nat
          by lia.
        symmetry. apply Nat.div_mul. lia. }
    fold n. apply map_ext_in. intros i Hi. apply in_seq in Hi.
    destruct (Hdata i ltac:(lia)) as [H1 H2].
    unfold read16.
    replace (S (strdesc + 2 + 2 * i))%nat with (strdesc + 2 + 0 + 2 * i + 1)%nat
      by lia.
    replace (strdesc + 2 + 2 * i)%nat with (strdesc + 2 + 0 + 2 * i)%nat
      by lia.
    rewrite !lookup_insert_ne by lia.
    rewrite H1, H2. cbv [default from_option Datatypes.id]. rewrite Nat.add_0_l. lia.
Qed.

(** X17.  Descriptor types that a build leaves out are not supported: the
    device descriptor in a composite build, the other-speed configuration
    without CONFIG_USBDEV_DUALSPEED.  [cdcecm_getdescriptor] returns
    [-ENOTSUP] and the buffer is untouched. *)
Theorem getdescriptor_left_out (env : collaborators) (s : cdcecm_driver_s)
    (type index : Z) (desc : buffer) :
  (type = USB_DESC_TYPE_DEVICE /\ CONFIG_CDCECM_COMPOSITE cfg = true) \/
  (type = USB_DESC_TYPE_OTHERSPEEDCONFIG /\
   CONFIG_USBDEV_DUALSPEED cfg = false) ->
  cdcecm_getdescriptor cfg env s type index desc = Some (- ENOTSUP, desc).
Proof.
  unfold cdcecm_getdescriptor.
  intros [[-> Hc] | [-> Hd]]; rewrite ?Hc, ?Hd;
    [destruct (CONFIG_USBDEV_DUALSPEED cfg)
    | destruct (CONFIG_CDCECM_COMPOSITE cfg)]; reflexivity.
Qed.

(** The length [cdcecm_mkcfgdesc] returns does not depend on the buffer,
    on where the descriptor is put, or on [devinfo]. *)
Lemma mkcfgdesc_len desc devinfo speed type m len m' devinfo0 m0 :
  cdcecm_mkcfgdesc cfg desc devinfo speed type m = Some (len, m') ->
  cdcecm_mkcfgdesc cfg None devinfo0 speed type m0 = Some (len, m0).
Proof.
  unfold cdcecm_mkcfgdesc. cbv zeta.
  set (speed' := if (type =? USB_DESC_TYPE_OTHERSPEEDCONFIG)
                    && (speed <? USB_SPEED_SUPER)
                 then (if speed =? USB_SPEED_HIGH then USB_SPEED_FULL
                       else USB_SPEED_HIGH) else speed).
  unfold cdcecm_mkepdesc, if_desc.
  destruct (speed' =? USB_SPEED_SUPER) eqn:E5,
    (speed' =? USB_SPEED_SUPER_PLUS) eqn:E6,
    (speed' =? USB_SPEED_UNKNOWN) eqn:E0,
    (speed' =? USB_SPEED_HIGH) eqn:E3;
  contradictory_speeds;
  destruct (CONFIG_CDCECM_COMPOSITE cfg), (CONFIG_COMPOSITE_IAD cfg),
    (CONFIG_USBDEV_SUPERSPEED cfg), (CONFIG_USBDEV_DUALSPEED cfg);
  destruct desc as [p|];
  cbv [andb orb negb option_map Z.eqb CDCECM_EP_INTIN_IDX CDCECM_EP_BULKIN_IDX
       CDCECM_EP_BULKOUT_IDX Pos.eqb];
  match goal with
  | |- (if ?c then _ else _) = _ -> _ =>
      destruct c; [intros H; exact (False_ind _ (None_not_Some_pair _ _ H)) |];
      intros H; apply Some_pair_fst in H; rewrite <- H; reflexivity
  end.
Qed.

Lemma mkcfgdesc_fill desc devinfo speed type m len devinfo0 m0 m0' :
  cdcecm_mkcfgdesc cfg None devinfo0 speed type m0 = Some (len, m0') ->
  exists m', cdcecm_mkcfgdesc cfg desc devinfo speed type m = Some (len, m').
Proof.
  unfold cdcecm_mkcfgdesc. cbv zeta.
  set (speed' := if (type =? USB_DESC_TYPE_OTHERSPEEDCONFIG)
                    && (speed <? USB_SPEED_SUPER)
                 then (if speed =? USB_SPEED_HIGH then USB_SPEED_FULL
                       else USB_SPEED_HIGH) else speed).
  unfold cdcecm_mkepdesc, if_desc.
  destruct (speed' =? USB_SPEED_SUPER) eqn:E5,
    (speed' =? USB_SPEED_SUPER_PLUS) eqn:E6,
    (speed' =? USB_SPEED_UNKNOWN) eqn:E0,
    (speed' =? USB_SPEED_HIGH) eqn:E3;
  contradictory_speeds;
  destruct (CONFIG_CDCECM_COMPOSITE cfg), (CONFIG_COMPOSITE_IAD cfg),
    (CONFIG_USBDEV_SUPERSPEED cfg), (CONFIG_USBDEV_DUALSPEED cfg);
  destruct desc as [p|];
  cbv [andb orb negb option_map Z.eqb CDCECM_EP_INTIN_IDX CDCECM_EP_BULKIN_IDX
       CDCECM_EP_BULKOUT_IDX Pos.eqb];
  match goal with
  | |- (if ?c then _ else _) = _ -> _ =>
      destruct c; [intros H; exact (False_ind _ (None_not_Some_pair _ _ H)) |];
      intros H; apply Some_pair_fst in H; rewrite <- H;
      eexists; reflexivity
  end.
Qed.

(** X18.  The two passes of [cdcecm_mkcfgdesc] agree on the length for
    every buffer, every position in it and every [devinfo]: a fill pass
    that returns [len] means that the pass without a buffer returns [len]
    too, reading no [devinfo] and writing nothing, and the other way
    round. *)
Theorem mkcfgdesc_passes_agree (desc : option nat)
    (devinfo devinfo0 : usbdev_devinfo_s) (speed type : Z) (m m0 : buffer)
    (len : Z) :
  (exists m', cdcecm_mkcfgdesc cfg desc devinfo speed type m = Some (len, m'))
  <-> cdcecm_mkcfgdesc cfg None devinfo0 speed type m0 = Some (len, m0).
Proof.
  split.
  - intros (m' & H). eapply mkcfgdesc_len. exact H.
  - intros H. eapply mkcfgdesc_fill. exact H.
Qed.

(** X19.  The configuration descriptor size that
    [cdcecm_get_composite_devdesc] announces, computed at
    USB_SPEED_UNKNOWN, is enough for the configuration descriptor of every
    speed and type; without super-speed support it is their common
    length. *)
Theorem composite_cfgdescsize_is_max (null_devinfo : usbdev_devinfo_s)
    (size : Z) (desc : option nat) (devinfo : usbdev_devinfo_s)
    (speed type : Z) (m m' : buffer) (len : Z) :
  CONFIG_CDCECM_COMPOSITE cfg = true ->
  cfgdescsize (cdcecm_get_composite_devdesc cfg null_devinfo) = Some size ->
  cdcecm_mkcfgdesc cfg desc devinfo speed type m = Some (len, m') ->
  len <= size /\ (CONFIG_USBDEV_SUPERSPEED cfg = false -> len = size).
Proof.
  unfold cdcecm_get_composite_devdesc. cbn [cfgdescsize].
  intros _ H1 H2. apply (mkcfgdesc_len _ _ _ _ _ _ _ null_devinfo ∅) in H2.
  revert H1 H2.
  unfold cdcecm_mkcfgdesc. cbv zeta.
  set (speed' := if (type =? USB_DESC_TYPE_OTHERSPEEDCONFIG)
                    && (speed <? USB_SPEED_SUPER)
                 then (if speed =? USB_SPEED_HIGH then USB_SPEED_FULL
                       else USB_SPEED_HIGH) else speed).
  unfold cdcecm_mkepdesc, if_desc.
  destruct (speed' =? USB_SPEED_SUPER) eqn:E5,
    (speed' =? USB_SPEED_SUPER_PLUS) eqn:E6,
    (speed' =? USB_SPEED_UNKNOWN) eqn:E0,
    (speed' =? USB_SPEED_HIGH) eqn:E3;
  contradictory_speeds;
  destruct (CONFIG_CDCECM_COMPOSITE cfg), (CONFIG_COMPOSITE_IAD cfg),
    (CONFIG_USBDEV_SUPERSPEED cfg), (CONFIG_USBDEV_DUALSPEED cfg);
  cbv [andb orb negb option_map Z.eqb Z.ltb Z.compare
       CDCECM_EP_INTIN_IDX CDCECM_EP_BULKIN_IDX
       CDCECM_EP_BULKOUT_IDX Pos.eqb Pos.compare Pos.compare_cont
       USB_SPEED_UNKNOWN USB_SPEED_SUPER USB_SPEED_SUPER_PLUS USB_SPEED_HIGH
       USB_DESC_TYPE_OTHERSPEEDCONFIG fst];
  repeat match goal with
    | |- context [if ?c then None else Some _] => destruct c
    end;
  intros H1 H2; try discriminate H1;
  try (exfalso; exact (None_not_Some_pair _ _ H2));
  apply Some_pair_fst in H2;
  injection H1 as <-; rewrite <- H2;
  (split; [vm_compute; discriminate
          | intros Hss; first [discriminate Hss | vm_compute; reflexivity]]).
Qed.

(** X20.  The configuration descriptor read back as a host does: the
    lengths of the descriptors found one after the other add up to the
    length returned, and in a stand-alone build the total length member
    of the configuration descriptor holds that length. *)
Theorem mkcfgdesc_chain (devinfo : usbdev_devinfo_s) (speed type : Z) :
  ~ (CONFIG_USBDEV_SUPERSPEED cfg = true /\ speed = USB_SPEED_UNKNOWN /\
     type <> USB_DESC_TYPE_OTHERSPEEDCONFIG) ->
  exists len m',
    cdcecm_mkcfgdesc cfg (Some 0%nat) devinfo speed type ∅
      = (if CONFIG_DEBUG_ASSERTIONS cfg
           && negb (len <=? CDCECM_MXDESCLEN cfg)
        then None else Some (len, m')) /\
    foldr Z.add 0 (List.map fst (descriptors 16 m' 0)) = len /\
    (CONFIG_CDCECM_COMPOSITE cfg = false -> read16 m' 2 = len).
Proof.
  intros Hc.
  unfold cdcecm_mkcfgdesc. cbv zeta.
  set (speed' := if (type =? USB_DESC_TYPE_OTHERSPEEDCONFIG)
                    && (speed <? USB_SPEED_SUPER)
                 then (if speed =? USB_SPEED_HIGH then USB_SPEED_FULL
                       else USB_SPEED_HIGH) else speed).
  assert (Hbad : (speed' =? USB_SPEED_UNKNOWN) = true ->
                 speed = USB_SPEED_UNKNOWN /\
                 type <> USB_DESC_TYPE_OTHERSPEEDCONFIG).
  { subst speed'. unfold USB_SPEED_UNKNOWN, USB_SPEED_SUPER, USB_SPEED_HIGH,
      USB_SPEED_FULL, USB_DESC_TYPE_OTHERSPEEDCONFIG.
    destruct (Z.eqb_spec type 7) as [Et|Et],
      (Z.ltb_spec speed 5) as [Es|Es], (Z.eqb_spec speed 3) as [Eh|Eh];
      cbn; intros Hz; try discriminate; try (apply Z.eqb_eq in Hz); lia. }
  unfold cdcecm_mkepdesc, cdcecm_mkepcompdesc, if_desc.
  destruct (speed' =? USB_SPEED_SUPER) eqn:E5,
    (speed' =? USB_SPEED_SUPER_PLUS) eqn:E6,
    (speed' =? USB_SPEED_UNKNOWN) eqn:E0,
    (speed' =? USB_SPEED_HIGH) eqn:E3;
  contradictory_speeds;
  destruct (CONFIG_CDCECM_COMPOSITE cfg), (CONFIG_COMPOSITE_IAD cfg),
    (CONFIG_USBDEV_SUPERSPEED cfg) eqn:ESS, (CONFIG_USBDEV_DUALSPEED cfg);
  try (exfalso; apply Hc; destruct (Hbad eq_refl); auto; fail);
  cbv [andb orb negb option_map Z.eqb CDCECM_EP_INTIN_IDX CDCECM_EP_BULKIN_IDX
       CDCECM_EP_BULKOUT_IDX Pos.eqb];
  (eexists; eexists; split; [reflexivity|]);
  (split; [vm_compute; reflexivity
          | intros Hcomp; first [discriminate Hcomp | vm_compute; reflexivity]]).
Qed.

(** X21.  The other-speed configuration descriptor is the configuration
    descriptor of the other speed: asked for at a speed below super speed
    it has the length and, but for the descriptor type byte, the bytes of
    the configuration descriptor built at full speed when the device runs
    at high speed, and at high speed otherwise. *)
Theorem mkcfgdesc_other_speed (devinfo : usbdev_devinfo_s) (speed : Z) :
  speed < USB_SPEED_SUPER ->
  let other := if speed =? USB_SPEED_HIGH then USB_SPEED_FULL
               else USB_SPEED_HIGH in
  exists len m1 m2,
    cdcecm_mkcfgdesc cfg (Some 0%nat) devinfo speed
      USB_DESC_TYPE_OTHERSPEEDCONFIG ∅
      = (if CONFIG_DEBUG_ASSERTIONS cfg
           && negb (len <=? CDCECM_MXDESCLEN cfg)
        then None else Some (len, m1)) /\
    cdcecm_mkcfgdesc cfg (Some 0%nat) devinfo other
      USB_DESC_TYPE_CONFIG ∅
      = (if CONFIG_DEBUG_ASSERTIONS cfg
           && negb (len <=? CDCECM_MXDESCLEN cfg)
        then None else Some (len, m2)) /\
    (forall p, p <> 1%nat -> m1 !! p = m2 !! p).
Proof.
  intros Hs other.
  unfold cdcecm_mkcfgdesc. cbv zeta.
  rewrite Z.eqb_refl.
  assert (El : (speed <? USB_SPEED_SUPER) = true) by (apply Z.ltb_lt; lia).
  rewrite El.
  change (USB_DESC_TYPE_CONFIG =? USB_DESC_TYPE_OTHERSPEEDCONFIG) with false.
  cbn [andb]. fold other.
  unfold cdcecm_mkepdesc, cdcecm_mkepcompdesc, if_desc.
  subst other.
  destruct (speed =? USB_SPEED_HIGH);
  destruct (CONFIG_CDCECM_COMPOSITE cfg), (CONFIG_COMPOSITE_IAD cfg),
    (CONFIG_USBDEV_SUPERSPEED cfg), (CONFIG_USBDEV_DUALSPEED cfg);
  cbv [andb orb negb option_map Z.eqb CDCECM_EP_INTIN_IDX CDCECM_EP_BULKIN_IDX
       CDCECM_EP_BULKOUT_IDX Pos.eqb USB_SPEED_FULL USB_SPEED_HIGH
       USB_SPEED_SUPER USB_SPEED_SUPER_PLUS USB_SPEED_UNKNOWN];
  (eexists; eexists; eexists; split; [reflexivity|]; split; [reflexivity|]);
  apply agree_off_type_byte;
  unfold stores, fld, store8; cbn [fold_left];
  repeat match goal with
    | |- context [uint8 ?v] => generalize (uint8 v); intro
    end;
  vm_compute; reflexivity.
Qed.

End DescriptorMoreProofs.

(** String index 9 in a stand-alone build. *)
Lemma mkstrdesc_unknown_id_witness :
  cdcecm_mkstrdesc sample_kconfig 9 0 ∅ = (- EINVAL, ∅).
Proof.
  apply mkstrdesc_unknown_id; [intros _; lia | discriminate].
Defined.

Lemma mkstrdesc_language_id_witness :
  fst (cdcecm_mkstrdesc sample_kconfig 0 0 ∅) = 4 /\
  read16 (snd (cdcecm_mkstrdesc sample_kconfig 0 0 ∅)) 2 = 0x0409.
Proof.
  destruct (mkstrdesc_language_id sample_kconfig 0 ∅ eq_refl)
    as (H1 & _ & _ & H4 & _).
  split; [exact H1 | exact H4].
Defined.

(** The product string of the sample configuration, 16 characters. *)
Lemma mkstrdesc_round_trip_witness :
  fst (cdcecm_mkstrdesc sample_kconfig CDCECM_PRODUCTSTRID 0 ∅) = 34 /\
  decode_strdesc (snd (cdcecm_mkstrdesc sample_kconfig CDCECM_PRODUCTSTRID
                         0 ∅)) 0
    = chars "CDC/ECM Ethernet".
Proof.
  destruct (mkstrdesc_round_trip sample_kconfig CDCECM_PRODUCTSTRID
              "CDC/ECM Ethernet" 0 ∅ ltac:(vm_compute; discriminate)
              eq_refl ltac:(vm_compute; discriminate))
    as (H1 & _ & H3).
  split; [exact H1 | exact H3].
Defined.

(** The device descriptor asked of a composite build. *)
Lemma getdescriptor_left_out_witness :
  cdcecm_getdescriptor sample_composite_kconfig
    (sample_collaborators (fun _ => OK) (fun _ => OK)) bound_driver
    USB_DESC_TYPE_DEVICE 0 ∅ = Some (- ENOTSUP, ∅).
Proof.
  apply getdescriptor_left_out. left. split; reflexivity.
Defined.

(** In the composite sample build 97 bytes are announced; the
    configuration descriptor at high speed takes 79. *)
Lemma composite_cfgdescsize_is_max_witness :
  cfgdescsize (cdcecm_get_composite_devdesc sample_composite_kconfig
                 sample_devinfo) = Some 97 /\
  option_map fst
    (cdcecm_mkcfgdesc sample_composite_kconfig (Some 0%nat) sample_devinfo
       USB_SPEED_HIGH USB_DESC_TYPE_CONFIG ∅) = Some 79 /\
  79 <= 97.
Proof.
  split; [vm_compute; reflexivity|]. split; [vm_compute; reflexivity|].
  refine (proj1 (composite_cfgdescsize_is_max sample_composite_kconfig
                   sample_devinfo 97 (Some 0%nat) sample_devinfo
                   USB_SPEED_HIGH USB_DESC_TYPE_CONFIG ∅
                   (snd (default (0, ∅)
                      (cdcecm_mkcfgdesc sample_composite_kconfig
                         (Some 0%nat) sample_devinfo USB_SPEED_HIGH
                         USB_DESC_TYPE_CONFIG ∅)))
                   79 eq_refl _ _));
    vm_compute; reflexivity.
Defined.

Lemma mkcfgdesc_chain_witness :
  exists len m',
    cdcecm_mkcfgdesc sample_kconfig (Some 0%nat) sample_devinfo
      USB_SPEED_HIGH USB_DESC_TYPE_CONFIG ∅ = Some (len, m') /\
    foldr Z.add 0 (List.map fst (descriptors 16 m' 0)) = len /\
    read16 m' 2 = len.
Proof.
  destruct (mkcfgdesc_chain sample_kconfig sample_devinfo USB_SPEED_HIGH
              USB_DESC_TYPE_CONFIG
              ltac:(intros (_ & H & _); discriminate H))
    as (len & m' & E & Hsum & Htot).
  exists len, m'. split; [exact E|]. split; [exact Hsum | exact (Htot eq_refl)].
Defined.

Lemma mkcfgdesc_other_speed_witness :
  exists len m1 m2,
    cdcecm_mkcfgdesc sample_kconfig (Some 0%nat) sample_devinfo
      USB_SPEED_HIGH USB_DESC_TYPE_OTHERSPEEDCONFIG ∅ = Some (len, m1) /\
    cdcecm_mkcfgdesc sample_kconfig (Some 0%nat) sample_devinfo
      USB_SPEED_FULL USB_DESC_TYPE_CONFIG ∅ = Some (len, m2) /\
    m1 !! 2%nat = m2 !! 2%nat.
Proof.
  destruct (mkcfgdesc_other_speed sample_kconfig sample_devinfo
              USB_SPEED_HIGH ltac:(vm_compute; reflexivity))
    as (len & m1 & m2 & E1 & E2 & H).
  exists len, m1, m2. split; [exact E1|]. split; [exact E2|].
  apply H. discriminate.
Defined.

(** * Further properties of libs/libc/string/lib_memmem.c *)

(** What [memmem] returns, from its agreement with the reference search. *)
Lemma memmem_result (L : nat) (hay needle : list byte) :
  (1 <= L)%nat -> Z.of_nat (length hay) < 2 ^ 32 ->
  match memmem L hay needle with
  | Some i => occurs_at hay needle i /\
              (forall t, (t < i)%nat -> ~ occurs_at hay needle t)
  | None => forall i, ~ occurs_at hay needle i
  end.
Proof.
  intros HL Hh. rewrite (memmem_equiv L HL hay needle Hh).
  destruct (memmem_naive hay needle) as [i|] eqn:E.
  - apply naive_Some. exact E.
  - apply naive_None. exact E.
Qed.

(** X22.  The result of [memmem] does not depend on [sizeof(long)], although
    the size selects which of the four search loops runs. *)
Theorem memmem_word_size_independent (L1 L2 : nat)
    (haystack needle : list byte) :
  (1 <= L1)%nat -> (1 <= L2)%nat ->
  Z.of_nat (length haystack) < 2 ^ 32 ->
  memmem L1 haystack needle = memmem L2 haystack needle.
Proof.
  intros H1 H2 Hh.
  rewrite (memmem_equiv L1 H1 haystack needle Hh).
  rewrite (memmem_equiv L2 H2 haystack needle Hh).
  reflexivity.
Qed.

(** X23.  In a haystack shorter than [2^32] bytes, on a target whose
    [long] has at least one byte, a needle that is part of the haystack is
    found: for a haystack [a ++ needle ++ b], [memmem] returns an offset not
    after [length a] at which the bytes of the needle stand. *)
Theorem memmem_finds_embedded (L : nat) (a needle b : list byte) :
  (1 <= L)%nat ->
  Z.of_nat (length (a ++ needle ++ b)) < 2 ^ 32 ->
  exists i,
    memmem L (a ++ needle ++ b) needle = Some i /\
    (i <= length a)%nat /\
    firstn (length needle) (skipn i (a ++ needle ++ b)) = needle.
Proof.
  intros HL Hh.
  assert (Hocc : occurs_at (a ++ needle ++ b) needle (length a)).
  { split.
    - rewrite !length_app. lia.
    - rewrite skipn_app, skipn_all, Nat.sub_diag.
      change (skipn 0 (needle ++ b)) with (needle ++ b).
      change ([] ++ needle ++ b) with (needle ++ b).
      rewrite firstn_app, firstn_all, Nat.sub_diag.
      change (firstn 0 b) with (@nil byte).
      apply app_nil_r. }
  pose proof (memmem_result L (a ++ needle ++ b) needle HL Hh) as R.
  destruct (memmem L (a ++ needle ++ b) needle) as [i|].
  - destruct R as [[Hb Hs] Hmin]. exists i. split; [reflexivity|].
    split; [|exact Hs].
    destruct (Nat.le_gt_cases i (length a)) as [Hle|Hgt]; [exact Hle|].
    exfalso. exact (Hmin (length a) Hgt Hocc).
  - exfalso. exact (R (length a) Hocc).
Qed.

(** X24.  At the boundary lengths, for a haystack shorter than [2^32]
    bytes on a target whose [long] has at least one byte: a needle longer
    than the haystack is never found; the haystack itself is found at
    offset 0; any other needle as long as the haystack is not found. *)
Theorem memmem_boundary_lengths (L : nat) (haystack needle : list byte) :
  (1 <= L)%nat ->
  Z.of_nat (length haystack) < 2 ^ 32 ->
  ((length haystack < length needle)%nat ->
   memmem L haystack needle = None) /\
  memmem L haystack haystack = Some 0%nat /\
  (length needle = length haystack -> needle <> haystack ->
   memmem L haystack needle = None).
Proof.
  intros HL Hh.
  pose proof (memmem_result L haystack needle HL Hh) as R.
  pose proof (memmem_result L haystack haystack HL Hh) as R0.
  split; [|split].
  - intros Hlen. destruct (memmem L haystack needle) as [i|]; [|reflexivity].
    destruct R as [[Hb _] _]. lia.
  - destruct (memmem L haystack haystack) as [i|].
    + destruct R0 as [[Hb _] _]. f_equal. lia.
    + exfalso. apply (R0 0%nat). split; [simpl; lia|].
      change (skipn 0 haystack) with haystack. apply firstn_all.
  - intros Hlen Hne.
    destruct (memmem L haystack needle) as [i|]; [|reflexivity].
    destruct R as [[Hb Hs] _]. exfalso. apply Hne.
    assert (i = 0%nat) by lia. subst i.
    change (skipn 0 haystack) with haystack in Hs.
    rewrite Hlen, firstn_all in Hs. congruence.
Qed.

Lemma memmem_word_size_independent_witness :
  memmem 4 (bytes_of_string "hello wonderful world")
    (bytes_of_string "wonderful")
  = memmem 8 (bytes_of_string "hello wonderful world")
      (bytes_of_string "wonderful").
Proof.
  apply memmem_word_size_independent;
    [lia | lia | vm_compute; reflexivity].
Defined.

Lemma memmem_finds_embedded_witness :
  exists i,
    memmem 4 (bytes_of_string "ab" ++ bytes_of_string "abc"
              ++ bytes_of_string "d") (bytes_of_string "abc") = Some i /\
    (i <= 2)%nat.
Proof.
  destruct (memmem_finds_embedded 4 (bytes_of_string "ab")
              (bytes_of_string "abc") (bytes_of_string "d")
              ltac:(lia) ltac:(vm_compute; reflexivity))
    as (i & E & Hi & _).
  exists i. split; [exact E | exact Hi].
Defined.

Lemma memmem_boundary_lengths_witness :
  memmem 4 (bytes_of_string "abc") (bytes_of_string "abcd") = None.
Proof.
  apply (proj1 (memmem_boundary_lengths 4 (bytes_of_string "abc")
                  (bytes_of_string "abcd") ltac:(lia)
                  ltac:(vm_compute; reflexivity))).
  vm_compute. lia.
Defined.

(** * Proofs for drivers/syslog/syslog_channel.c *)

Section SyslogProofs.

Import Syslog.

Variable debug : bool.
Variable sc_ops_set : channel -> bool.

Lemma table_lookup_channel cs k i c :
  cs !! i = Some c -> table cs k !! i = Some (Some c).
Proof.
  intros H. unfold table. rewrite lookup_app_l.
  - rewrite list_lookup_fmap, H. reflexivity.
  - rewrite length_fmap. eapply lookup_lt_Some. exact H.
Qed.

Lemma table_lookup_null cs k i :
  (length cs <= i < length cs + k)%nat -> table cs k !! i = Some None.
Proof.
  intros H. unfold table. rewrite lookup_app_r by (rewrite length_fmap; lia).
  rewrite length_fmap. apply lookup_replicate_2. lia.
Qed.

Lemma table_length cs k : length (table cs k) = (length cs + k)%nat.
Proof. unfold table. rewrite length_app, length_fmap, length_replicate. lia. Qed.

Lemma table_snoc cs c k :
  <[length cs := Some c]> (table cs (S k)) = table (cs ++ [c]) k.
Proof.
  unfold table. rewrite fmap_app, <- app_assoc. cbn.
  rewrite insert_app_r_alt by (rewrite length_fmap; lia).
  rewrite length_fmap, Nat.sub_diag. reflexivity.
Qed.

(** The search loop of [syslog_channel] over the channels [pre ++ cs]
    from slot [length pre] on. *)
Lemma channel_loop_spec c k : forall cs pre count,
  c ∉ pre ->
  count = (length cs + k)%nat ->
  syslog_channel_loop count (length pre) c (table (pre ++ cs) k)
    = if decide (c ∈ cs) then (OK, table (pre ++ cs) k)
      else match k with
           | O => (- EINVAL, table (pre ++ cs) k)
           | S k' => (OK, table (pre ++ cs ++ [c]) k')
           end.
Proof.
  induction cs as [|x cs IH]; intros pre count Hpre ->.
  - rewrite app_nil_r. destruct (decide (c ∈ [])) as [Hin|_];
      [inversion Hin|].
    destruct k as [|k']; [reflexivity|].
    cbn [length Nat.add syslog_channel_loop].
    rewrite table_lookup_null by lia.
    rewrite table_snoc. reflexivity.
  - cbn [length Nat.add syslog_channel_loop].
    rewrite (table_lookup_channel _ _ _ x)
      by (rewrite lookup_app_r, Nat.sub_diag by lia; reflexivity).
    destruct (decide (x = c)) as [->|Hne].
    + rewrite decide_True by (left). reflexivity.
    + specialize (IH (pre ++ [x]) (length cs + k)%nat).
      rewrite length_app, Nat.add_1_r in IH. cbn [length] in IH.
      rewrite <- !app_assoc in IH. cbn [app] in IH.
      rewrite IH; [| rewrite elem_of_app, list_elem_of_singleton;
                     intros [?|?]; [auto | congruence] | reflexivity].
      destruct (decide (c ∈ cs)) as [Hin|Hnin].
      * rewrite decide_True by (right; exact Hin). reflexivity.
      * rewrite decide_False
          by (rewrite elem_of_cons; intros [?|?]; [congruence | auto]).
        destruct k; reflexivity.
Qed.

(** X25.  [syslog_channel] on a table without holes, with more than one
    slot: a channel already in the table is left where it is; a new
    channel is put into the first free slot, after the channels present;
    with no free slot the call fails with [-EINVAL] and the table is
    unchanged.  In each case the table still has no holes. *)
Theorem syslog_channel_adds (c : channel) (cs : list channel) (k : nat) :
  (length cs + k <> 1)%nat ->
  debug = false \/ sc_ops_set c = true ->
  syslog_channel (length cs + k) debug sc_ops_set (Some c) (table cs k)
    = Some (if decide (c ∈ cs) then (OK, table cs k)
            else match k with
                 | O => (- EINVAL, table cs 0)
                 | S k' => (OK, table (cs ++ [c]) k')
                 end).
Proof.
  intros Hmax Hassert. unfold syslog_channel.
  assert (Ha : debug && negb (sc_ops_set c) = false).
  { destruct Hassert as [-> | ->]; [reflexivity | apply andb_false_r]. }
  rewrite Ha.
  destruct (Nat.eqb_spec (length cs + k) 1); [contradiction|].
  f_equal.
  pose proof (channel_loop_spec c k cs [] (length cs + k)%nat
                (not_elem_of_nil c) eq_refl) as H.
  cbn [length app] in H. rewrite H.
  destruct (decide (c ∈ cs)), k; reflexivity.
Qed.

Lemma shift_back_spec : forall cs2 pre c k,
  shift_back (length cs2 + k) (length pre) (table (pre ++ c :: cs2) k)
    = table (pre ++ cs2) (S k).
Proof.
  induction cs2 as [|x cs2 IH]; intros pre c k.
  - cbn [length Nat.add]. rewrite app_nil_r.
    assert (E : <[length pre := None]> (table (pre ++ [c]) k)
                = table pre (S k)).
    { unfold table. rewrite fmap_app, <- app_assoc. cbn.
      rewrite insert_app_r_alt by (rewrite length_fmap; lia).
      rewrite length_fmap, Nat.sub_diag. reflexivity. }
    destruct k as [|k]; cbn [shift_back]; [exact E|].
    rewrite table_lookup_null by (rewrite length_app; cbn; lia).
    exact E.
  - cbn [length Nat.add shift_back].
    rewrite (table_lookup_channel _ _ _ x).
    2:{ rewrite lookup_app_r by lia.
        replace (S (length pre) - length pre)%nat with 1%nat by lia.
        reflexivity. }
    assert (E : <[length pre := Some x]> (table (pre ++ c :: x :: cs2) k)
                = table ((pre ++ [x]) ++ x :: cs2) k).
    { unfold table. rewrite !fmap_app, <- !app_assoc. cbn.
      rewrite insert_app_r_alt by (rewrite length_fmap; lia).
      rewrite length_fmap, Nat.sub_diag. reflexivity. }
    rewrite E.
    specialize (IH (pre ++ [x]) x k).
    rewrite length_app, Nat.add_1_r in IH. cbn [length] in IH.
    rewrite IH, <- app_assoc. reflexivity.
Qed.

Lemma remove_loop_null c pre k : forall n i,
  (length pre <= i)%nat ->
  (i + n = length pre + k)%nat ->
  syslog_channel_remove_loop n i c (table pre k) = (- EINVAL, table pre k).
Proof.
  induction n as [|n IHn]; intros i Hi Hn; [reflexivity|].
  cbn [syslog_channel_remove_loop].
  rewrite table_lookup_null by lia. apply IHn; lia.
Qed.

Lemma remove_loop_spec c k : forall cs pre,
  let g := table (pre ++ cs) k in
  (forall cs1 cs2, cs = cs1 ++ c :: cs2 -> c ∉ cs1 ->
     syslog_channel_remove_loop (length cs + k) (length pre) c g
       = (OK, table (pre ++ cs1 ++ cs2) (S k))) /\
  (c ∉ cs ->
     syslog_channel_remove_loop (length cs + k) (length pre) c g
       = (- EINVAL, g)).
Proof.
  induction cs as [|x cs IH]; intros pre g; subst g.
  - split.
    + intros [|? ?] cs2 H; discriminate H.
    + intros _. rewrite app_nil_r. cbn [length Nat.add].
      apply remove_loop_null; lia.
  - cbn [length Nat.add syslog_channel_remove_loop].
    rewrite (table_lookup_channel _ _ _ x)
      by (rewrite lookup_app_r, Nat.sub_diag by lia; reflexivity).
    specialize (IH (pre ++ [x])).
    rewrite length_app, Nat.add_1_r in IH. cbn [length] in IH.
    rewrite <- !app_assoc in IH. cbn [app] in IH.
    destruct IH as [IHin IHout].
    destruct (decide (x = c)) as [->|Hne].
    + split.
      * intros [|y cs1] cs2 Hsplit Hnin.
        -- injection Hsplit as <-. cbn [app].
           apply f_equal. apply shift_back_spec.
        -- exfalso. injection Hsplit as <- _. apply Hnin. left.
      * intros Hnin. exfalso. apply Hnin. left.
    + split.
      * intros [|y cs1] cs2 Hsplit Hnin.
        -- injection Hsplit as -> _. congruence.
        -- injection Hsplit as <- ->.
           rewrite (IHin cs1 cs2 eq_refl).
           ++ rewrite <- app_assoc. reflexivity.
           ++ intros Hin. apply Hnin. right. exact Hin.
      * intros Hnin. apply IHout.
        intros Hin. apply Hnin. right. exact Hin.
Qed.

(** X26.  [syslog_channel_remove] on a table without holes: the first
    occurrence of the channel is taken out and the channels after it move
    one slot back, so that the table has no hole and the other channels
    keep their order; a channel that is not in the table gives [-EINVAL]
    and leaves the table unchanged. *)
Theorem syslog_channel_removes (c : channel) (cs1 cs2 : list channel)
    (k : nat) (cs : list channel) :
  (c ∉ cs1 ->
   syslog_channel_remove (length (cs1 ++ c :: cs2) + k) debug (Some c)
     (table (cs1 ++ c :: cs2) k)
   = Some (OK, table (cs1 ++ cs2) (S k))) /\
  (c ∉ cs ->
   syslog_channel_remove (length cs + k) debug (Some c) (table cs k)
   = Some (- EINVAL, table cs k)).
Proof.
  unfold syslog_channel_remove. split.
  - intros Hnin. f_equal.
    exact (proj1 (remove_loop_spec c k (cs1 ++ c :: cs2) []) cs1 cs2
             eq_refl Hnin).
  - intros Hnin. f_equal.
    exact (proj2 (remove_loop_spec c k cs []) Hnin).
Qed.

(** X27.  Adding a channel that is not in the table and removing it again
    gives the table back, in a table without holes that has a free slot
    and more than one slot. *)
Theorem syslog_channel_add_remove (c : channel) (cs : list channel)
    (k : nat) :
  c ∉ cs ->
  (length cs + S k <> 1)%nat ->
  debug = false \/ sc_ops_set c = true ->
  exists g,
    syslog_channel (length cs + S k) debug sc_ops_set (Some c)
      (table cs (S k)) = Some (OK, g) /\
    g !! length cs = Some (Some c) /\
    syslog_channel_remove (length cs + S k) debug (Some c) g
      = Some (OK, table cs (S k)).
Proof.
  intros Hnin Hmax Hassert. exists (table (cs ++ [c]) k).
  split; [|split].
  - unfold syslog_channel.
    assert (Ha : debug && negb (sc_ops_set c) = false).
    { destruct Hassert as [-> | ->]; [reflexivity | apply andb_false_r]. }
    rewrite Ha.
    destruct (Nat.eqb_spec (length cs + S k) 1); [contradiction|].
    f_equal.
    pose proof (channel_loop_spec c (S k) cs [] (length cs + S k)%nat
                  (not_elem_of_nil c) eq_refl) as H.
    cbn [length app] in H. rewrite H.
    rewrite decide_False by exact Hnin. reflexivity.
  - apply table_lookup_channel.
    rewrite lookup_app_r, Nat.sub_diag by lia. reflexivity.
  - unfold syslog_channel_remove. f_equal.
    pose proof (proj1 (remove_loop_spec c k (cs ++ [c]) []) cs []
                  eq_refl Hnin) as H.
    cbn [length app] in H. rewrite length_app in H. cbn [length] in H.
    replace (length cs + 1 + k)%nat with (length cs + S k)%nat in H by lia.
    rewrite app_nil_r in H. exact H.
Qed.

End SyslogProofs.

Lemma syslog_channel_adds_witness :
  Syslog.syslog_channel 4 true (fun _ => true) (Some 30%nat)
    (Syslog.table [10; 20]%nat 2)
  = Some (Syslog.OK, Syslog.table [10; 20; 30]%nat 1).
Proof.
  exact (syslog_channel_adds true (fun _ => true) 30%nat [10; 20]%nat 2
           ltac:(discriminate) (or_intror eq_refl)).
Defined.

Lemma syslog_channel_removes_witness :
  Syslog.syslog_channel_remove 4 true (Some 10%nat)
    (Syslog.table [10; 20; 30]%nat 1)
  = Some (Syslog.OK, Syslog.table [20; 30]%nat 2).
Proof.
  apply (proj1 (syslog_channel_removes true 10%nat [] [20; 30]%nat 1 [])).
  apply not_elem_of_nil.
Defined.

Lemma syslog_channel_add_remove_witness :
  exists g,
    Syslog.syslog_channel 4 false (fun _ => false) (Some 30%nat)
      (Syslog.table [10; 20]%nat 2) = Some (Syslog.OK, g) /\
    g !! 2%nat = Some (Some 30%nat) /\
    Syslog.syslog_channel_remove 4 false (Some 30%nat) g
      = Some (Syslog.OK, Syslog.table [10; 20]%nat 2).
Proof.
  apply (syslog_channel_add_remove false (fun _ => false) 30%nat
           [10; 20]%nat 1).
  - intros H. apply elem_of_cons in H as [H|H]; [discriminate|].
    apply elem_of_cons in H as [H|H]; [discriminate|].
    inversion H.
  - discriminate.
  - left. reflexivity.
Defined.

(** * Proofs for arch/arm/src/armv8-m/arm_ramvec_initialize.c *)

Section RamvecProofs.

Import Ramvec.

(** The copy loop, when the words still to be read are not overwritten:
    the destination holds the source words, everything else is as
    before. *)
Lemma copy_loop_spec : forall count src dest m,
  (forall i j, (i < j < count)%nat ->
     dest + 4 * Z.of_nat i <> src + 4 * Z.of_nat j) ->
  (forall i, (i < count)%nat ->
     copy_loop count src dest m !! (dest + 4 * Z.of_nat i)
       = Some (load32 (src + 4 * Z.of_nat i) m)) /\
  (forall a, (forall i, (i < count)%nat -> a <> dest + 4 * Z.of_nat i) ->
     copy_loop count src dest m !! a = m !! a).
Proof.
  induction count as [|count IH]; intros src dest m Hsafe.
  - split; [intros; lia | reflexivity].
  - cbn [copy_loop].
    destruct (IH (src + 4) (dest + 4) (<[dest := load32 src m]> m))
      as [Hcopy Hframe].
    { intros i j Hij. specialize (Hsafe (S i) (S j) ltac:(lia)). lia. }
    split.
    + intros [|i] Hi.
      * rewrite Hframe by (intros; lia).
        replace (dest + 4 * Z.of_nat 0) with dest by lia.
        replace (src + 4 * Z.of_nat 0) with src by lia.
        apply lookup_insert_eq.
      * replace (dest + 4 * Z.of_nat (S i)) with (dest + 4 + 4 * Z.of_nat i)
          by lia.
        rewrite Hcopy by lia. f_equal. unfold load32.
        rewrite lookup_insert_ne
          by (specialize (Hsafe 0%nat (S i) ltac:(lia)); lia).
        f_equal. f_equal. lia.
    + intros a Ha. rewrite Hframe.
      * apply lookup_insert_ne. specialize (Ha 0%nat ltac:(lia)). lia.
      * intros i Hi. specialize (Ha (S i) ltac:(lia)). lia.
Qed.

(** X28.  [arm_ramvec_initialize] with a table the part can address, the
    RAM table not lying over the vectors still to be copied and not
    holding the register: the function returns, each of the
    ARMV8M_VECTAB_SIZE words of [g_ram_vectors] holds the vector of the
    table the register pointed to, the register points to
    [g_ram_vectors], and no other word has changed. *)
Theorem ramvec_initialize_copies (SIZE : nat)
    (NVIC_VECTAB MASK g_ram_vectors implemented_bits : Z) (debug : bool)
    (m : memory) :
  let src := load32 NVIC_VECTAB m in
  Z.land g_ram_vectors (Z.lnot MASK) = 0 ->
  Z.land g_ram_vectors implemented_bits = g_ram_vectors ->
  (forall i j, (i < j < SIZE)%nat ->
     g_ram_vectors + 4 * Z.of_nat i <> src + 4 * Z.of_nat j) ->
  (forall i, (i < SIZE)%nat -> NVIC_VECTAB <> g_ram_vectors + 4 * Z.of_nat i) ->
  exists m',
    arm_ramvec_initialize SIZE NVIC_VECTAB MASK debug g_ram_vectors
      implemented_bits m = Some m' /\
    (forall i, (i < SIZE)%nat ->
       load32 (g_ram_vectors + 4 * Z.of_nat i) m'
         = load32 (src + 4 * Z.of_nat i) m) /\
    load32 NVIC_VECTAB m' = g_ram_vectors /\
    (forall a, a <> NVIC_VECTAB ->
       (forall i, (i < SIZE)%nat -> a <> g_ram_vectors + 4 * Z.of_nat i) ->
       m' !! a = m !! a).
Proof.
  intros src Halign Hbits Hsafe Hreg.
  unfold arm_ramvec_initialize, getreg32, putreg32.
  rewrite Halign, Z.eqb_refl, andb_false_r. cbv zeta.
  rewrite Z.eqb_refl, Hbits.
  unfold load32 at 1. rewrite lookup_insert_eq. cbn [default].
  change (default 0 (Some g_ram_vectors)) with g_ram_vectors.
  rewrite Z.eqb_refl, andb_false_r.
  destruct (copy_loop_spec SIZE src g_ram_vectors m Hsafe)
    as [Hcopy Hframe].
  eexists; split; [reflexivity|]. split; [|split].
  - intros i Hi. unfold load32 at 1.
    rewrite lookup_insert_ne by (apply Hreg; exact Hi).
    fold src. rewrite Hcopy by exact Hi. reflexivity.
  - unfold load32. rewrite lookup_insert_eq. reflexivity.
  - intros a Ha Hout. rewrite lookup_insert_ne by congruence.
    apply Hframe. exact Hout.
Qed.

End RamvecProofs.

(** Four vectors at address 0 copied to a table at 0x20000000. *)
Lemma ramvec_initialize_copies_witness :
  let m : Ramvec.memory :=
    {[ 0 := 0x20001000; 4 := 0x101; 8 := 0x105; 12 := 0x109;
       0xe000ed08 := 0 ]} in
  exists m',
    Ramvec.arm_ramvec_initialize 4 0xe000ed08 0xffffff80 true 0x20000000
      0xffffff80 m = Some m' /\
    Ramvec.load32 0x20000008 m' = 0x105 /\
    Ramvec.load32 0xe000ed08 m' = 0x20000000.
Proof.
  intros m.
  pose proof (ramvec_initialize_copies 4 0xe000ed08 0xffffff80 0x20000000
                0xffffff80 true m) as H.
  cbv zeta in H.
  assert (Hs : Ramvec.load32 0xe000ed08 m = 0) by (vm_compute; reflexivity).
  rewrite Hs in H.
  destruct (H eq_refl eq_refl) as (m' & E & Hcopy & Hreg & _).
  - intros i j Hij. lia.
  - intros i Hi. lia.
  - exists m'. split; [exact E|]. split; [|exact Hreg].
    change 0x20000008 with (0x20000000 + 4 * Z.of_nat 2).
    rewrite Hcopy by lia. vm_compute. reflexivity.
Defined.

(** * Proofs for cdcecm_bind and cdcecm_unbind *)

Section BindProofs.

Import CdcecmBind.

Variable cfg : kconfig.
Variable env : collaborators.

Lemma resetconfig_unconfigured w :
  config (self w) = CDCECM_CONFIGID_NONE ->
  cdcecm_resetconfig cfg env w = Done tt w.
Proof.
  intros Hc. destruct (resetconfig_done cfg env w) as (w' & E & _ & Hsame & _).
  rewrite E, (Hsame Hc). reflexivity.
Qed.

Section Steps.

Variable alloc_ok : resource -> bool.

Lemma do_alloc_ptr r s r' :
  ptr (do_alloc alloc_ok r s) r'
    = if decide (r' = r) then alloc_ok r else ptr s r'.
Proof. reflexivity. Qed.

Lemma do_alloc_live r s r' :
  live (do_alloc alloc_ok r s) r'
    = if decide (r' = r) then alloc_ok r || live s r else live s r'.
Proof.
  unfold do_alloc. cbn. destruct (alloc_ok r); unfold set_res; cbn.
  - destruct (decide (r' = r)); reflexivity.
  - destruct (decide (r' = r)) as [->|]; reflexivity.
Qed.

Lemma do_alloc_drv r s : drv (do_alloc alloc_ok r s) = drv s.
Proof. reflexivity. Qed.

Lemma do_alloc_connect r s :
  In Call_DEV_CONNECT (calls (do_alloc alloc_ok r s))
  <-> In Call_DEV_CONNECT (calls s).
Proof.
  cbn. rewrite in_app_iff. cbn. intuition discriminate.
Qed.

End Steps.

Lemma do_free_ptr r s r' :
  ptr (do_free r s) r' = if decide (r' = r) then false else ptr s r'.
Proof.
  unfold do_free. destruct (ptr s r) eqn:P; cbn; unfold set_res.
  - reflexivity.
  - destruct (decide (r' = r)) as [->|]; [exact P | reflexivity].
Qed.

Lemma do_free_live r s r' :
  live (do_free r s) r'
    = if decide (r' = r) then live s r && negb (ptr s r) else live s r'.
Proof.
  unfold do_free. destruct (ptr s r) eqn:P; cbn; unfold set_res.
  - destruct (decide (r' = r)); [rewrite andb_false_r|]; reflexivity.
  - destruct (decide (r' = r)) as [->|]; [rewrite andb_true_r|]; reflexivity.
Qed.

Lemma do_free_drv r s : drv (do_free r s) = drv s.
Proof. unfold do_free. destruct (ptr s r); reflexivity. Qed.

Lemma do_free_freed r s :
  freed (calls (do_free r s))
    = freed (calls s) ++ (if ptr s r then [r] else []).
Proof.
  unfold do_free. destruct (ptr s r); cbn.
  - unfold freed. rewrite omap_app. reflexivity.
  - rewrite app_nil_r. reflexivity.
Qed.

Lemma do_free_connect r s :
  In Call_DEV_CONNECT (calls (do_free r s))
  <-> In Call_DEV_CONNECT (calls s).
Proof.
  unfold do_free. destruct (ptr s r); cbn; [|reflexivity].
  rewrite in_app_iff. cbn. intuition discriminate.
Qed.

(** What [cdcecm_unbind] does to every driver state. *)
Lemma unbind_spec (s : bind_state) :
  exists s',
    cdcecm_unbind cfg env s = Some s' /\
    config (self (drv s')) = CDCECM_CONFIGID_NONE /\
    d_len (dev (self (drv s'))) = 0 /\
    (forall r, ptr s' r = false) /\
    (forall r, live s' r = live s r && negb (ptr s r)) /\
    (In Call_DEV_CONNECT (calls s') <-> In Call_DEV_CONNECT (calls s)) /\
    freed (calls s')
      = freed (calls s)
        ++ List.filter (ptr s)
             [RES_EPINT; CTRLREQ; RDREQ; RES_EPBULKOUT; WRREQ; RES_EPBULKIN].
Proof.
  unfold cdcecm_unbind.
  destruct (resetconfig_done cfg env (drv s)) as (w' & E & Hc & _).
  rewrite E. cbv zeta.
  set (s0 := add_call Call_up_mdelay (set_drv w' s)).
  assert (Hp0 : forall r, ptr s0 r = ptr s r) by reflexivity.
  assert (Hl0 : forall r, live s0 r = live s r) by reflexivity.
  assert (Hf0 : freed (calls s0) = freed (calls s)).
  { subst s0. cbn. unfold freed. rewrite omap_app. cbn. apply app_nil_r. }
  assert (Hc0 : In Call_DEV_CONNECT (calls s0)
                <-> In Call_DEV_CONNECT (calls s)).
  { subst s0. cbn. rewrite in_app_iff. cbn. intuition discriminate. }
  eexists; split; [reflexivity|].
  unfold set_drv. cbn [drv ptr live calls self dev d_len set_self
                      set_dev set_d_len config].
  rewrite !do_free_drv.
  split; [exact Hc|]. split; [reflexivity|].
  split; [|split; [|split]].
  - intros r. rewrite !do_free_ptr. destruct r; reflexivity.
  - intros r. rewrite !do_free_live, !do_free_ptr, !Hp0, !Hl0.
    destruct r; reflexivity.
  - rewrite !do_free_connect. exact Hc0.
  - rewrite !do_free_freed, !do_free_ptr.
    rewrite !Hp0, Hf0, <- !app_assoc. cbn [List.filter].
    destruct (ptr s RES_EPINT), (ptr s CTRLREQ), (ptr s RDREQ),
      (ptr s RES_EPBULKOUT), (ptr s WRREQ), (ptr s RES_EPBULKIN);
      reflexivity.
Qed.

(** The [error:] exit of [cdcecm_bind] from a state in which the pointers
    set are exactly the resources held. *)
Lemma bind_error_spec (ret : Z) (s : bind_state) :
  (forall r, live s r = ptr s r) ->
  ~ In Call_DEV_CONNECT (calls s) ->
  exists s',
    bind_error cfg env ret s = Some (ret, s') /\
    (forall r, ptr s' r = false /\ live s' r = false) /\
    ~ In Call_DEV_CONNECT (calls s') /\
    d_len (dev (self (drv s'))) = 0.
Proof.
  intros Htidy Hconn. unfold bind_error.
  destruct (unbind_spec s) as (s' & E & _ & Hd & Hp & Hl & Hc & _).
  rewrite E. exists s'. split; [reflexivity|].
  split; [|split; [rewrite Hc; exact Hconn | exact Hd]].
  intros r. split; [apply Hp|].
  rewrite Hl, Htidy. apply andb_negb_r.
Qed.

(** X29.  [cdcecm_bind] on a fresh, unconfigured driver returns the status
    of the first step that fails, or OK.  With OK the six resources are
    allocated and referenced, the write-request semaphore holds one unit,
    [txdone] is clear and the frame buffer is empty.  With any other
    status the unbind path has run: every resource that had been
    allocated is released, no pointer is left set, and the device is not
    connected. *)
Theorem bind_all_or_nothing (alloc_ok : resource -> bool) (status : Z)
    (w : world) :
  exists s',
    cdcecm_bind cfg env alloc_ok status (fresh w)
      = Some (bind_status alloc_ok status, s') /\
    (bind_status alloc_ok status = OK ->
       (forall r, ptr s' r = true /\ live s' r = true) /\
       wrreq_idle (self (drv s')) = 1%N /\
       txdone (self (drv s')) = false /\
       d_len (dev (self (drv s'))) = 0 /\
       freed (calls s') = []) /\
    (bind_status alloc_ok status <> OK ->
       (forall r, ptr s' r = false /\ live s' r = false) /\
       ~ In Call_DEV_CONNECT (calls s') /\
       d_len (dev (self (drv s'))) = 0).
Proof.
  unfold cdcecm_bind, bind_status. cbv zeta.
  assert (Herr : forall ret s,
            ret <> OK ->
            (forall r, live s r = ptr s r) ->
            ~ In Call_DEV_CONNECT (calls s) ->
            exists s',
              bind_error cfg env ret s = Some (ret, s') /\
              (ret = OK ->
                 (forall r, ptr s' r = true /\ live s' r = true) /\
                 wrreq_idle (self (drv s')) = 1%N /\
                 txdone (self (drv s')) = false /\
                 d_len (dev (self (drv s'))) = 0 /\
                 freed (calls s') = []) /\
              (ret <> OK ->
                 (forall r, ptr s' r = false /\ live s' r = false) /\
                 ~ In Call_DEV_CONNECT (calls s') /\
                 d_len (dev (self (drv s'))) = 0)).
  { intros ret s Hret Htidy Hconn.
    destruct (bind_error_spec ret s Htidy Hconn) as (s' & E & R).
    exists s'. split; [exact E|]. split; [contradiction | intros _; exact R]. }
  set (s1 := do_alloc alloc_ok CTRLREQ (fresh w)).
  set (s4 := do_alloc alloc_ok RES_EPBULKOUT
               (do_alloc alloc_ok RES_EPBULKIN
                  (do_alloc alloc_ok RES_EPINT s1))).
  set (s5 := do_alloc alloc_ok RDREQ s4).
  set (s6 := do_alloc alloc_ok WRREQ s5).
  assert (Hptr : forall r, ptr s6 r = alloc_ok r) by (intros []; reflexivity).
  assert (Hlive : forall r, live s6 r = alloc_ok r).
  { intros r. subst s6 s5 s4 s1. rewrite !do_alloc_live.
    destruct r; cbn; rewrite ?orb_false_r; reflexivity. }
  assert (T1 : forall r, live s1 r = ptr s1 r).
  { intros r. subst s1. rewrite do_alloc_live, do_alloc_ptr.
    destruct r; cbn; rewrite ?orb_false_r; reflexivity. }
  assert (T4 : forall r, live s4 r = ptr s4 r).
  { intros r. subst s4 s1. rewrite !do_alloc_live, !do_alloc_ptr.
    destruct r; cbn; rewrite ?orb_false_r; reflexivity. }
  assert (T5 : forall r, live s5 r = ptr s5 r).
  { intros r. subst s5 s4 s1. rewrite !do_alloc_live, !do_alloc_ptr.
    destruct r; cbn; rewrite ?orb_false_r; reflexivity. }
  assert (T6 : forall r, live s6 r = ptr s6 r).
  { intros r. rewrite Hptr, Hlive. reflexivity. }
  assert (C6 : ~ In Call_DEV_CONNECT (calls s6)).
  { subst s6 s5 s4 s1. rewrite !do_alloc_connect. cbn. auto. }
  assert (C5 : ~ In Call_DEV_CONNECT (calls s5)).
  { subst s5 s4 s1. rewrite !do_alloc_connect. cbn. auto. }
  assert (C4 : ~ In Call_DEV_CONNECT (calls s4)).
  { subst s4 s1. rewrite !do_alloc_connect. cbn. auto. }
  assert (C1 : ~ In Call_DEV_CONNECT (calls s1)).
  { subst s1. rewrite !do_alloc_connect. cbn. auto. }
  change (ptr s1 CTRLREQ) with (alloc_ok CTRLREQ).
  change (ptr s4 RES_EPINT) with (alloc_ok RES_EPINT).
  change (ptr s4 RES_EPBULKIN) with (alloc_ok RES_EPBULKIN).
  change (ptr s4 RES_EPBULKOUT) with (alloc_ok RES_EPBULKOUT).
  change (ptr s5 RDREQ) with (alloc_ok RDREQ).
  change (ptr s6 WRREQ) with (alloc_ok WRREQ).
  assert (Hnomem : - ENOMEM <> OK) by discriminate.
  assert (Hnodev : - ENODEV <> OK) by discriminate.
  destruct (alloc_ok CTRLREQ) eqn:A1; cbn [negb]; [|apply Herr; assumption].
  destruct (alloc_ok RES_EPINT) eqn:A2, (alloc_ok RES_EPBULKIN) eqn:A3,
    (alloc_ok RES_EPBULKOUT) eqn:A4; cbn [negb orb andb];
    try (apply Herr; assumption).
  destruct (alloc_ok RDREQ) eqn:A5; cbn [negb andb];
    [|apply Herr; assumption].
  destruct (alloc_ok WRREQ) eqn:A6; cbn [negb andb];
    [|apply Herr; assumption].
  destruct (Z.eqb_spec status OK) as [Hst|Hst]; cbn [negb];
    [|apply Herr; assumption].
  eexists; split; [rewrite Hst; reflexivity|].
  split; intros H; [|contradiction].
  assert (Hall : forall r, alloc_ok r = true) by (intros []; assumption).
  destruct (CONFIG_CDCECM_COMPOSITE cfg); cbn [negb];
    unfold add_call, set_drv; cbn [drv ptr live calls];
    (split; [intros r; rewrite Hptr, Hlive, Hall; auto|]);
    cbn; repeat split; reflexivity.
Qed.

(** X30.  [cdcecm_unbind] always returns and leaves the driver
    unconfigured with an empty frame buffer and no pointer set; every
    resource the driver referenced is released; the resources are
    released in the order interrupt IN endpoint, control request, read
    request, bulk OUT endpoint, write request, bulk IN endpoint, so that
    each request is returned before the endpoint it was allocated from is
    freed. *)
Theorem unbind_releases (s : bind_state) :
  exists s',
    cdcecm_unbind cfg env s = Some s' /\
    config (self (drv s')) = CDCECM_CONFIGID_NONE /\
    d_len (dev (self (drv s'))) = 0 /\
    (forall r, ptr s' r = false) /\
    (forall r, ptr s r = true -> live s' r = false) /\
    freed (calls s')
      = freed (calls s)
        ++ List.filter (ptr s)
             [RES_EPINT; CTRLREQ; RDREQ; RES_EPBULKOUT; WRREQ; RES_EPBULKIN].
Proof.
  destruct (unbind_spec s) as (s' & E & Hc & Hd & Hp & Hl & _ & Hf).
  exists s'. repeat split; auto.
  intros r Hr. rewrite Hl, Hr. apply andb_false_r.
Qed.

End BindProofs.

(** The bulk OUT endpoint cannot be allocated: [-ENODEV], nothing left
    allocated. *)
Lemma bind_all_or_nothing_witness :
  let alloc_ok := fun r =>
    match r with CdcecmBind.RES_EPBULKOUT => false | _ => true end in
  exists s',
    CdcecmBind.cdcecm_bind sample_kconfig
      (sample_collaborators (fun _ => OK) (fun _ => OK)) alloc_ok OK
      (CdcecmBind.fresh bound_world) = Some (- CdcecmBind.ENODEV, s') /\
    forall r, CdcecmBind.live s' r = false.
Proof.
  intros alloc_ok.
  destruct (bind_all_or_nothing sample_kconfig
              (sample_collaborators (fun _ => OK) (fun _ => OK))
              alloc_ok OK bound_world)
    as (s' & E & _ & Hfail).
  exists s'. split; [exact E|].
  intros r. apply (Hfail ltac:(discriminate)).
Defined.

Lemma unbind_releases_witness :
  exists s s',
    CdcecmBind.cdcecm_bind sample_kconfig
      (sample_collaborators (fun _ => OK) (fun _ => OK)) (fun _ => true) OK
      (CdcecmBind.fresh bound_world) = Some (OK, s) /\
    CdcecmBind.cdcecm_unbind sample_kconfig
      (sample_collaborators (fun _ => OK) (fun _ => OK)) s = Some s' /\
    CdcecmBind.freed (CdcecmBind.calls s')
      = [CdcecmBind.RES_EPINT; CdcecmBind.CTRLREQ; CdcecmBind.RDREQ;
         CdcecmBind.RES_EPBULKOUT; CdcecmBind.WRREQ;
         CdcecmBind.RES_EPBULKIN].
Proof.
  eexists. 
  destruct (unbind_releases sample_kconfig
              (sample_collaborators (fun _ => OK) (fun _ => OK))
              (snd (default (0, CdcecmBind.fresh bound_world)
                 (CdcecmBind.cdcecm_bind sample_kconfig
                    (sample_collaborators (fun _ => OK) (fun _ => OK))
                    (fun _ => true) OK (CdcecmBind.fresh bound_world)))))
    as (s' & E & _ & _ & _ & _ & Hf).
  exists s'. split; [reflexivity|]. split; [exact E | exact Hf].
Defined.

